(** * Datastore protocol-buffer converters (datastore_pbs.py)

    A shallow embedding of the v3 <-> v4 and v3 <-> v1 converters of
    [google/appengine/datastore/datastore_pbs.py], with the properties
    the specification states about them.

    Conventions of the embedding:
    - a Python [bytes] object is a list of byte values, a Python [str] a
      list of code points; [bytes.decode('utf-8')] and
      [str.encode('utf-8')] are the strict codec of RFC 3629;
    - a proto2 optional field is an [option]: [None] is "not set", and the
      getter of an unset field returns the declared default;
    - a sub-message becomes present in its parent when a field inside it
      is assigned or when [Clear()] is called on it, not when it is read;
    - a function that populates a destination message starts with
      [Clear()] on it, so it is a function from the source to the
      destination;
    - a raised exception is the [Raise] outcome of the [result] monad. *)

From Stdlib Require Import ZArith List Bool String Ascii Floats Lia.
From Stdlib Require Import DecimalString.
From stdpp Require Import base option list gmap.

Local Open Scope Z_scope.
#[local] Set Warnings "-register-all,-clear-no-such-hyp".

(** ** Python strings *)

Definition bytes := list Z.
Definition text := list Z.

(** A string literal of the source, as the list of its code points. *)
Definition str (s : string) : text :=
  List.map (fun a => Z.of_N (N_of_ascii a)) (list_ascii_of_string s).

(** ** Exceptions and the error monad *)

Inductive exn : Type :=
| InvalidConversionError (message : text)
| KeyError (key : text)
| AssertionError
| ValueError
| UnicodeEncodeError
| IndexError
| TypeError
| DecodeError
| RecursionError.

Inductive result (A : Type) : Type :=
| Ok (a : A)
| Raise (e : exn).
Arguments Ok {A} a.
Arguments Raise {A} e.

Definition bind {A B} (m : result A) (k : A -> result B) : result B :=
  match m with
  | Ok a => k a
  | Raise e => Raise e
  end.

Declare Scope result_scope.
Delimit Scope result_scope with result.
Notation "'let*' x ':=' m 'in' k" := (bind m (fun x => k))
  (at level 10, x name, m at level 100, k at level 200) : result_scope.
Notation "'let*' ' p ':=' m 'in' k" := (bind m (fun x => let 'p := x in k))
  (at level 10, p strict pattern, m at level 100, k at level 200)
  : result_scope.
Local Open Scope result_scope.

(** ** The UTF-8 codec *)

Module Utf8.

Definition is_cont (b : Z) : bool := (128 <=? b) && (b <=? 191).

Definition is_surrogate (c : Z) : bool := (55296 <=? c) && (c <=? 57343).

(** [bytes.decode('utf-8')]: [None] stands for [UnicodeDecodeError]. *)
Fixpoint decode (bs : bytes) : option text :=
  match bs with
  | [] => Some []
  | b0 :: r0 =>
    if (0 <=? b0) && (b0 <=? 127) then
      option_map (cons b0) (decode r0)
    else if (194 <=? b0) && (b0 <=? 223) then
      match r0 with
      | b1 :: r1 =>
        if is_cont b1 then
          option_map (cons ((b0 - 192) * 64 + (b1 - 128))) (decode r1)
        else None
      | _ => None
      end
    else if (224 <=? b0) && (b0 <=? 239) then
      match r0 with
      | b1 :: b2 :: r2 =>
        let c := (b0 - 224) * 4096 + (b1 - 128) * 64 + (b2 - 128) in
        if is_cont b1 && is_cont b2 && (2048 <=? c) && negb (is_surrogate c)
        then option_map (cons c) (decode r2)
        else None
      | _ => None
      end
    else if (240 <=? b0) && (b0 <=? 244) then
      match r0 with
      | b1 :: b2 :: b3 :: r3 =>
        let c := (b0 - 240) * 262144 + (b1 - 128) * 4096
                 + (b2 - 128) * 64 + (b3 - 128) in
        if is_cont b1 && is_cont b2 && is_cont b3
           && (65536 <=? c) && (c <=? 1114111)
        then option_map (cons c) (decode r3)
        else None
      | _ => None
      end
    else None
  end.

(** The encoding of one code point; [None] for a surrogate or a number
    that is no code point. *)
Definition encode_char (c : Z) : option bytes :=
  if (0 <=? c) && (c <=? 127) then Some [c]
  else if (128 <=? c) && (c <=? 2047) then
    Some [192 + c / 64; 128 + c mod 64]
  else if (2048 <=? c) && (c <=? 65535) then
    if is_surrogate c then None
    else Some [224 + c / 4096; 128 + (c / 64) mod 64; 128 + c mod 64]
  else if (65536 <=? c) && (c <=? 1114111) then
    Some [240 + c / 262144; 128 + (c / 4096) mod 64;
          128 + (c / 64) mod 64; 128 + c mod 64]
  else None.

(** [str.encode('utf-8')]. *)
Fixpoint encode (t : text) : result bytes :=
  match t with
  | [] => Ok []
  | c :: t' =>
    match encode_char c with
    | Some bs => let* rest := encode t' in Ok (bs ++ rest)
    | None => Raise UnicodeEncodeError
    end
  end.

End Utf8.

(** [is_valid_utf8(s)] for a [bytes] argument. *)
Definition is_valid_utf8 (s : bytes) : bool :=
  match Utf8.decode s with
  | Some _ => true
  | None => false
  end.

(** Assigning a [bytes] object to a proto [string] field: the runtime
    decodes it and raises [ValueError] when it is not UTF-8. *)
Definition string_field_of_bytes (s : bytes) : result text :=
  match Utf8.decode s with
  | Some t => Ok t
  | None => Raise ValueError
  end.

(** ** The message schemas

    The generated modules [entity_bytes_pb2], [entity_v4_pb2] and the
    [googledatastore] package are not among the sources.  The records
    below list the fields the converter reads and writes.  A field has the
    type under which every assignment the converter makes to it and from
    it is accepted by the protocol-buffer runtime: [stringValue],
    [blob_value] and [blob_key_value] hold [bytes]; every other string
    field holds [str] (it receives both [str] values and the results of
    [.encode('utf-8')], which a proto string field decodes).  A required
    field whose presence the converter never tests is represented by the
    value its getter returns. *)

(** *** v3: entity_bytes_pb2 *)
Module V3.

(** Modelled from the spec: [Path.Element] and
    [PropertyValue.ReferenceValue.PathElement] (same fields). *)
Record Element : Type := mkElement {
  type : option text;
  id : option Z;
  name : option text }.

(** Modelled from the spec: [Reference]. *)
Record Reference : Type := mkReference {
  app : option text;
  name_space : option text;
  path : list Element }.

(** Modelled from the spec: [PropertyValue.PointValue]. *)
Record PointValue : Type := mkPointValue {
  x : float;
  y : float }.

(** Modelled from the spec: [PropertyValue.UserValue]. *)
Record UserValue : Type := mkUserValue {
  email : text;
  auth_domain : text;
  nickname : option text;
  gaiaid : Z;
  obfuscated_gaiaid : option text;
  federated_identity : option text;
  federated_provider : option text }.

(** Modelled from the spec: [PropertyValue.ReferenceValue]. *)
Record ReferenceValue : Type := mkReferenceValue {
  rv_app : option text;
  rv_name_space : option text;
  pathelement : list Element }.

(** Modelled from the spec: [PropertyValue]; nothing in the schema keeps
    two of the fields from being set together. *)
Record PropertyValue : Type := mkPropertyValue {
  int64Value : option Z;
  booleanValue : option bool;
  stringValue : option bytes;
  doubleValue : option float;
  pointvalue : option PointValue;
  uservalue : option UserValue;
  referencevalue : option ReferenceValue }.

(** Modelled from the spec: [Property]. *)
Record Property : Type := mkProperty {
  meaning : option Z;
  meaning_uri : option text;
  p_name : text;
  value : PropertyValue;
  multiple : bool }.

(** Modelled from the spec: [EntityProto]. *)
Record EntityProto : Type := mkEntityProto {
  key : option Reference;
  entity_group : list Element;
  property : list Property;
  raw_property : list Property }.

(** Modelled from the spec: [datastore_pb.Filter]. *)
Record Filter : Type := mkFilter {
  op : Z;
  f_property : list Property }.

(** [PropertyValue()] and [Reference()] after [Clear()]. *)
Definition PropertyValue_Clear : PropertyValue :=
  mkPropertyValue None None None None None None None.
Definition Reference_Clear : Reference := mkReference None None [].

(** Field assignments on a [PropertyValue]. *)
Definition set_int64Value (v : PropertyValue) (a : Z) : PropertyValue :=
  mkPropertyValue (Some a) (booleanValue v) (stringValue v) (doubleValue v)
    (pointvalue v) (uservalue v) (referencevalue v).
Definition set_booleanValue (v : PropertyValue) (a : bool) : PropertyValue :=
  mkPropertyValue (int64Value v) (Some a) (stringValue v) (doubleValue v)
    (pointvalue v) (uservalue v) (referencevalue v).
Definition set_stringValue (v : PropertyValue) (a : bytes) : PropertyValue :=
  mkPropertyValue (int64Value v) (booleanValue v) (Some a) (doubleValue v)
    (pointvalue v) (uservalue v) (referencevalue v).
Definition set_doubleValue (v : PropertyValue) (a : float) : PropertyValue :=
  mkPropertyValue (int64Value v) (booleanValue v) (stringValue v) (Some a)
    (pointvalue v) (uservalue v) (referencevalue v).
Definition set_pointvalue (v : PropertyValue) (a : PointValue) : PropertyValue :=
  mkPropertyValue (int64Value v) (booleanValue v) (stringValue v)
    (doubleValue v) (Some a) (uservalue v) (referencevalue v).
Definition set_uservalue (v : PropertyValue) (a : UserValue) : PropertyValue :=
  mkPropertyValue (int64Value v) (booleanValue v) (stringValue v)
    (doubleValue v) (pointvalue v) (Some a) (referencevalue v).
Definition set_referencevalue (v : PropertyValue) (a : ReferenceValue) : PropertyValue :=
  mkPropertyValue (int64Value v) (booleanValue v) (stringValue v)
    (doubleValue v) (pointvalue v) (uservalue v) (Some a).

(** Field assignments on a [UserValue]. *)
Definition set_email (v : UserValue) (a : text) : UserValue :=
  mkUserValue a (auth_domain v) (nickname v) (gaiaid v)
    (obfuscated_gaiaid v) (federated_identity v) (federated_provider v).
Definition set_auth_domain (v : UserValue) (a : text) : UserValue :=
  mkUserValue (email v) a (nickname v) (gaiaid v) (obfuscated_gaiaid v)
    (federated_identity v) (federated_provider v).
Definition set_nickname (v : UserValue) (a : text) : UserValue :=
  mkUserValue (email v) (auth_domain v) (Some a) (gaiaid v)
    (obfuscated_gaiaid v) (federated_identity v) (federated_provider v).
Definition set_gaiaid (v : UserValue) (a : Z) : UserValue :=
  mkUserValue (email v) (auth_domain v) (nickname v) a (obfuscated_gaiaid v)
    (federated_identity v) (federated_provider v).
Definition set_obfuscated_gaiaid (v : UserValue) (a : text) : UserValue :=
  mkUserValue (email v) (auth_domain v) (nickname v) (gaiaid v) (Some a)
    (federated_identity v) (federated_provider v).
Definition set_federated_identity (v : UserValue) (a : text) : UserValue :=
  mkUserValue (email v) (auth_domain v) (nickname v) (gaiaid v)
    (obfuscated_gaiaid v) (Some a) (federated_provider v).
Definition set_federated_provider (v : UserValue) (a : text) : UserValue :=
  mkUserValue (email v) (auth_domain v) (nickname v) (gaiaid v)
    (obfuscated_gaiaid v) (federated_identity v) (Some a).

(** Field assignments on a [Property]. *)
Definition set_meaning (v : Property) (a : Z) : Property :=
  mkProperty (Some a) (meaning_uri v) (p_name v) (value v) (multiple v).
Definition set_meaning_uri (v : Property) (a : text) : Property :=
  mkProperty (meaning v) (Some a) (p_name v) (value v) (multiple v).
Definition set_p_name (v : Property) (a : text) : Property :=
  mkProperty (meaning v) (meaning_uri v) a (value v) (multiple v).
Definition set_value (v : Property) (a : PropertyValue) : Property :=
  mkProperty (meaning v) (meaning_uri v) (p_name v) a (multiple v).
Definition set_multiple (v : Property) (a : bool) : Property :=
  mkProperty (meaning v) (meaning_uri v) (p_name v) (value v) a.

(** Getters of optional fields: the default when the field is unset. *)
Definition get_text (f : option text) : text := default [] f.
Definition get_int (f : option Z) : Z := default 0 f.

(** The values of [Property.Meaning]. *)
Definition NO_MEANING : Z := 0.
Definition ATOM_CATEGORY : Z := 1.
Definition ATOM_LINK : Z := 2.
Definition ATOM_TITLE : Z := 3.
Definition ATOM_CONTENT : Z := 4.
Definition ATOM_SUMMARY : Z := 5.
Definition ATOM_AUTHOR : Z := 6.
Definition GD_WHEN : Z := 7.
Definition GD_EMAIL : Z := 8.
Definition GEORSS_POINT : Z := 9.
Definition GD_IM : Z := 10.
Definition GD_PHONENUMBER : Z := 11.
Definition GD_POSTALADDRESS : Z := 12.
Definition GD_RATING : Z := 13.
Definition BLOB : Z := 14.
Definition TEXT : Z := 15.
Definition BYTESTRING : Z := 16.
Definition BLOBKEY : Z := 17.
Definition INDEX_VALUE : Z := 18.
Definition ENTITY_PROTO : Z := 19.
Definition EMPTY_LIST : Z := 24.

End V3.

(** *** v4: entity_v4_pb2 *)
Module V4.

(** Modelled from the spec: [PartitionId]. *)
Record PartitionId : Type := mkPartitionId {
  dataset_id : option text;
  namespace : option text }.

(** Modelled from the spec: [Key.PathElement]. *)
Record PathElement : Type := mkPathElement {
  kind : text;
  id : option Z;
  name : option text }.

(** Modelled from the spec: [Key]. *)
Record Key : Type := mkKey {
  partition_id : option PartitionId;
  path_element : list PathElement }.

(** Modelled from the spec: [GeoPoint]. *)
Record GeoPoint : Type := mkGeoPoint {
  latitude : float;
  longitude : float }.

(** Modelled from the spec: [Value], [Entity] and [Property].  [indexed]
    is declared with default [true]. *)
Inductive Value : Type := mkValue {
  boolean_value : option bool;
  integer_value : option Z;
  double_value : option float;
  timestamp_microseconds_value : option Z;
  key_value : option Key;
  blob_key_value : option bytes;
  string_value : option text;
  blob_value : option bytes;
  entity_value : option Entity;
  geo_point_value : option GeoPoint;
  list_value : list Value;
  meaning : option Z;
  indexed_field : option bool }
with Entity : Type := mkEntity {
  key : option Key;
  property : list Property }
with Property : Type := mkProperty {
  p_name : text;
  value : Value }.

(** The getter [v4_value.indexed]. *)
Definition indexed (v : Value) : bool := default true (indexed_field v).

Definition Key_Clear : Key := mkKey None [].
Definition Entity_Clear : Entity := mkEntity None [].
Definition Value_Clear : Value :=
  mkValue None None None None None None None None None None [] None None.


(** Field assignments on a [Value]. *)
Definition set_boolean_value (v : Value) (a : bool) : Value :=
  mkValue (Some a) (integer_value v) (double_value v)
    (timestamp_microseconds_value v) (key_value v) (blob_key_value v)
    (string_value v) (blob_value v) (entity_value v) (geo_point_value v)
    (list_value v) (meaning v) (indexed_field v).
Definition set_integer_value (v : Value) (a : Z) : Value :=
  mkValue (boolean_value v) (Some a) (double_value v)
    (timestamp_microseconds_value v) (key_value v) (blob_key_value v)
    (string_value v) (blob_value v) (entity_value v) (geo_point_value v)
    (list_value v) (meaning v) (indexed_field v).
Definition set_double_value (v : Value) (a : float) : Value :=
  mkValue (boolean_value v) (integer_value v) (Some a)
    (timestamp_microseconds_value v) (key_value v) (blob_key_value v)
    (string_value v) (blob_value v) (entity_value v) (geo_point_value v)
    (list_value v) (meaning v) (indexed_field v).
Definition set_timestamp_microseconds_value (v : Value) (a : Z) : Value :=
  mkValue (boolean_value v) (integer_value v) (double_value v) (Some a)
    (key_value v) (blob_key_value v) (string_value v) (blob_value v)
    (entity_value v) (geo_point_value v) (list_value v) (meaning v)
    (indexed_field v).
Definition set_key_value (v : Value) (a : Key) : Value :=
  mkValue (boolean_value v) (integer_value v) (double_value v)
    (timestamp_microseconds_value v) (Some a) (blob_key_value v)
    (string_value v) (blob_value v) (entity_value v) (geo_point_value v)
    (list_value v) (meaning v) (indexed_field v).
Definition set_blob_key_value (v : Value) (a : bytes) : Value :=
  mkValue (boolean_value v) (integer_value v) (double_value v)
    (timestamp_microseconds_value v) (key_value v) (Some a) (string_value v)
    (blob_value v) (entity_value v) (geo_point_value v) (list_value v)
    (meaning v) (indexed_field v).
Definition set_string_value (v : Value) (a : text) : Value :=
  mkValue (boolean_value v) (integer_value v) (double_value v)
    (timestamp_microseconds_value v) (key_value v) (blob_key_value v)
    (Some a) (blob_value v) (entity_value v) (geo_point_value v)
    (list_value v) (meaning v) (indexed_field v).
Definition set_blob_value (v : Value) (a : bytes) : Value :=
  mkValue (boolean_value v) (integer_value v) (double_value v)
    (timestamp_microseconds_value v) (key_value v) (blob_key_value v)
    (string_value v) (Some a) (entity_value v) (geo_point_value v)
    (list_value v) (meaning v) (indexed_field v).
Definition set_entity_value (v : Value) (a : Entity) : Value :=
  mkValue (boolean_value v) (integer_value v) (double_value v)
    (timestamp_microseconds_value v) (key_value v) (blob_key_value v)
    (string_value v) (blob_value v) (Some a) (geo_point_value v)
    (list_value v) (meaning v) (indexed_field v).
Definition set_geo_point_value (v : Value) (a : GeoPoint) : Value :=
  mkValue (boolean_value v) (integer_value v) (double_value v)
    (timestamp_microseconds_value v) (key_value v) (blob_key_value v)
    (string_value v) (blob_value v) (entity_value v) (Some a) (list_value v)
    (meaning v) (indexed_field v).
Definition set_list_value (v : Value) (a : list Value) : Value :=
  mkValue (boolean_value v) (integer_value v) (double_value v)
    (timestamp_microseconds_value v) (key_value v) (blob_key_value v)
    (string_value v) (blob_value v) (entity_value v) (geo_point_value v) a
    (meaning v) (indexed_field v).
Definition set_meaning (v : Value) (a : Z) : Value :=
  mkValue (boolean_value v) (integer_value v) (double_value v)
    (timestamp_microseconds_value v) (key_value v) (blob_key_value v)
    (string_value v) (blob_value v) (entity_value v) (geo_point_value v)
    (list_value v) (Some a) (indexed_field v).
Definition set_indexed (v : Value) (a : bool) : Value :=
  mkValue (boolean_value v) (integer_value v) (double_value v)
    (timestamp_microseconds_value v) (key_value v) (blob_key_value v)
    (string_value v) (blob_value v) (entity_value v) (geo_point_value v)
    (list_value v) (meaning v) (Some a).

(** Modelled from the spec: [datastore_v4_pb2.PropertyFilter], with the
    name of its [PropertyReference]. *)
Record PropertyFilter : Type := mkPropertyFilter {
  pf_operator : Z;
  pf_property_name : text;
  pf_value : Value }.

End V4.

(** *** v1: googledatastore *)
Module V1.

(** Modelled from the spec: [PartitionId] (proto3: no field presence). *)
Record PartitionId : Type := mkPartitionId {
  project_id : text;
  namespace_id : text }.

(** The oneof [id_type] of [Key.PathElement]. *)
Inductive IdType : Type :=
| id_type_not_set
| id (i : Z)
| name (n : text).

(** Modelled from the spec: [Key.PathElement]. *)
Record PathElement : Type := mkPathElement {
  kind : text;
  id_type : IdType }.

(** Modelled from the spec: [Key]. *)
Record Key : Type := mkKey {
  partition_id : option PartitionId;
  path : list PathElement }.

(** Modelled from the spec: [google.protobuf.Timestamp] and
    [google.type.LatLng]. *)
Record Timestamp : Type := mkTimestamp {
  seconds : Z;
  nanos : Z }.
Record LatLng : Type := mkLatLng {
  latitude : float;
  longitude : float }.

(** Modelled from the spec: [Value] with its oneof [value_type], and
    [Entity], whose [properties] map keeps its entries in insertion
    order. *)
Inductive Value : Type :=
| mkValue (value_type : ValueType) (meaning : Z) (exclude_from_indexes : bool)
with ValueType : Type :=
| value_type_not_set
| null_value
| boolean_value (b : bool)
| integer_value (i : Z)
| double_value (d : float)
| timestamp_value (t : Timestamp)
| key_value (k : Key)
| string_value (s : text)
| blob_value (b : bytes)
| geo_point_value (g : LatLng)
| entity_value (e : Entity)
| array_value (values : list Value)
with Entity : Type :=
| mkEntity (key : option Key) (properties : list (text * Value)).

Definition value_type (v : Value) : ValueType :=
  let 'mkValue t _ _ := v in t.
Definition meaning (v : Value) : Z :=
  let 'mkValue _ m _ := v in m.
Definition exclude_from_indexes (v : Value) : bool :=
  let 'mkValue _ _ e := v in e.
Definition key (e : Entity) : option Key :=
  let 'mkEntity k _ := e in k.
Definition properties (e : Entity) : list (text * Value) :=
  let 'mkEntity _ ps := e in ps.

Definition Key_Clear : Key := mkKey None [].
Definition Value_Clear : Value := mkValue value_type_not_set 0 false.
Definition Entity_Clear : Entity := mkEntity None [].

(** Field assignments on a [Value]; assigning a member of the oneof
    replaces the member that was set. *)
Definition set_value_type (v : Value) (a : ValueType) : Value :=
  mkValue a (meaning v) (exclude_from_indexes v).
Definition set_meaning (v : Value) (a : Z) : Value :=
  mkValue (value_type v) a (exclude_from_indexes v).
Definition set_exclude_from_indexes (v : Value) (a : bool) : Value :=
  mkValue (value_type v) (meaning v) a.

(** Modelled from the spec: [PropertyFilter], with the name of its
    [PropertyReference]. *)
Record PropertyFilter : Type := mkPropertyFilter {
  pf_op : Z;
  pf_property_name : text;
  pf_value : Value }.

End V1.

(** ** Module constants *)

Definition MEANING_NON_RFC_3339_TIMESTAMP : Z := 7.
Definition MEANING_GEORSS_POINT : Z := 9.
Definition MEANING_PREDEFINED_ENTITY_USER : Z := 20.
Definition MEANING_PREDEFINED_ENTITY_POINT : Z := 21.
Definition MEANING_ZLIB : Z := 22.
Definition MEANING_POINT_WITHOUT_V3_MEANING : Z := 23.
Definition MEANING_EMPTY_LIST : Z := 24.

Definition URI_MEANING_ZLIB : text := Eval vm_compute in str "ZLIB".

Definition PROPERTY_NAME_X : text := Eval vm_compute in str "x".
Definition PROPERTY_NAME_Y : text := Eval vm_compute in str "y".
Definition PROPERTY_NAME_EMAIL : text := Eval vm_compute in str "email".
Definition PROPERTY_NAME_AUTH_DOMAIN : text :=
  Eval vm_compute in str "auth_domain".
Definition PROPERTY_NAME_USER_ID : text := Eval vm_compute in str "user_id".
Definition PROPERTY_NAME_INTERNAL_ID : text :=
  Eval vm_compute in str "internal_id".
Definition PROPERTY_NAME_FEDERATED_IDENTITY : text :=
  Eval vm_compute in str "federated_identity".
Definition PROPERTY_NAME_FEDERATED_PROVIDER : text :=
  Eval vm_compute in str "federated_provider".

Definition RFC_3339_MIN_MICROSECONDS_INCLUSIVE : Z :=
  -62135596800 * 1000 * 1000.
Definition RFC_3339_MAX_MICROSECONDS_INCLUSIVE : Z :=
  253402300799 * 1000 * 1000 + 999999.

Definition is_in_rfc_3339_bounds (microseconds : Z) : bool :=
  (RFC_3339_MIN_MICROSECONDS_INCLUSIVE <=? microseconds)
  && (microseconds <=? RFC_3339_MAX_MICROSECONDS_INCLUSIVE).

(** ** Python values and truthiness

    [is_complete_v3_key] returns the value of an [and]/[or] chain, which
    is one of its operands and not always a [bool]. *)
Inductive pyval : Type :=
| PyBool (b : bool)
| PyInt (i : Z)
| PyStr (s : text).

Definition truthy (v : pyval) : bool :=
  match v with
  | PyBool b => b
  | PyInt i => negb (i =? 0)
  | PyStr s => negb (bool_decide (s = []))
  end.

Definition py_and (a b : pyval) : pyval := if truthy a then b else a.
Definition py_or (a b : pyval) : pyval := if truthy a then a else b.

(** Truthiness of a [str]. *)
Definition nonempty (s : text) : bool := negb (bool_decide (s = [])).

(** [check_conversion(condition, message)]. *)
Definition check_conversion (condition : bool) (message : text) : result unit :=
  if negb condition then Raise (InvalidConversionError message) else Ok tt.

(** ** Key completeness *)

(** [is_complete_v4_key].  After the assertion the source *calls* the
    repeated field, [v4_key.path_element(len(...) - 1)]; a repeated
    container is not callable, so the call raises [TypeError]. *)
Definition is_complete_v4_key (v4_key : V4.Key) : result bool :=
  if bool_decide (1 <= length (V4.path_element v4_key))%nat
  then Raise TypeError
  else Raise AssertionError.

(** [is_complete_v1_key]. *)
Definition is_complete_v1_key (v1_key : V1.Key) : result bool :=
  if bool_decide (1 <= length (V1.path v1_key))%nat then
    match last (V1.path v1_key) with
    | Some last_element =>
      Ok (match V1.id_type last_element with
          | V1.id_type_not_set => false
          | _ => true
          end)
    | None => Raise IndexError
    end
  else Raise AssertionError.

(** [is_complete_v3_key]. *)
Definition is_complete_v3_key (v3_key : V3.Reference) : result pyval :=
  if bool_decide (1 <= length (V3.path v3_key))%nat then
    match last (V3.path v3_key) with
    | Some last_element =>
      Ok (py_or
            (py_and (PyBool (bool_decide (is_Some (V3.id last_element))))
                    (PyInt (V3.get_int (V3.id last_element))))
            (py_and (PyBool (bool_decide (is_Some (V3.name last_element))))
                    (PyStr (V3.get_text (V3.name last_element)))))
    | None => Raise IndexError
    end
  else Raise AssertionError.

(** ** The identifier resolver *)

(** [s.rsplit(sep)] for a one-character separator and no [maxsplit]. *)
Fixpoint rsplit (sep : Z) (s : text) : list text :=
  match s with
  | [] => [[]]
  | c :: s' =>
    if c =? sep then [] :: rsplit sep s'
    else match rsplit sep s' with
         | piece :: pieces => (c :: piece) :: pieces
         | [] => [[c]]
         end
  end.

(** [l[-1]]. *)
Definition index_last {A} (l : list A) : result A :=
  match last l with
  | Some a => Ok a
  | None => Raise IndexError
  end.

(** The two resolver classes: [IdResolver], which carries
    [_resolver_map], and its subclass [_IdentityIdResolver]. *)
Inductive IdResolver : Type :=
| TableIdResolver (_resolver_map : gmap text text)
| _IdentityIdResolver.

Definition tilde : Z := 126.
Definition dquote : Z := 34.

Definition resolve_project_id (self : IdResolver) (app_id : text)
  : result text :=
  match self with
  | TableIdResolver _ => index_last (rsplit tilde app_id)
  | _IdentityIdResolver => Ok app_id
  end.

(** The message of [resolve_app_id]. *)
Definition unknown_project_message (project_id : text) : text :=
  str "Cannot determine application id for provided project id: "
  ++ [dquote] ++ project_id ++ [dquote] ++ str ".".

Definition resolve_app_id (self : IdResolver) (project_id : text)
  : result text :=
  match self with
  | TableIdResolver _resolver_map =>
    let* _ := check_conversion
                (bool_decide (is_Some (_resolver_map !! project_id)))
                (unknown_project_message project_id) in
    match _resolver_map !! project_id with
    | Some app_id => Ok app_id
    | None => Raise (KeyError project_id)
    end
  | _IdentityIdResolver => Ok project_id
  end.

(** [IdResolver.__init__(app_ids)]. *)
Fixpoint IdResolver_init_loop (resolver_map : gmap text text)
    (app_ids : list text) : result (gmap text text) :=
  match app_ids with
  | [] => Ok resolver_map
  | app_id :: rest =>
    let* project_id := resolve_project_id (TableIdResolver ∅) app_id in
    IdResolver_init_loop (<[project_id := app_id]> resolver_map) rest
  end.

Definition IdResolver_init (app_ids : list text) : result IdResolver :=
  let* resolver_map := IdResolver_init_loop ∅ app_ids in
  Ok (TableIdResolver resolver_map).

(** [get_entity_converter(id_resolver=None)]: the converter is
    represented by the resolver it holds.  An [IdResolver] object is
    truthy, so [id_resolver or _IdentityIdResolver()] is the argument
    unless it is [None]. *)
Definition get_entity_converter (id_resolver : option IdResolver)
  : IdResolver :=
  match id_resolver with
  | Some resolver => resolver
  | None => _IdentityIdResolver
  end.

(** ** The entity converter *)

(** A dict lookup [d[key]]. *)
Definition dict_getitem {V} (d : gmap text V) (key : text) : result V :=
  match d !! key with
  | Some v => Ok v
  | None => Raise (KeyError key)
  end.

(** [copy_path_element(source, destination)] on a fresh destination. *)
Definition copy_path_element (source : V3.Element) : V3.Element :=
  V3.mkElement
    (match V3.type source with Some t => Some t | None => None end)
    (match V3.id source with Some i => Some i | None => None end)
    (match V3.name source with Some n => Some n | None => None end).

(** The table [value_checkers] of
    [__is_v3_property_value_meaning_valid]. *)
Inductive checker : Type :=
| ReturnTrue
| HasStringValue
| HasInt64Value
| HasPointValue
| ReturnFalse.

Definition value_checkers : list (Z * checker) :=
  [ (V3.NO_MEANING, ReturnTrue);
    (V3.INDEX_VALUE, ReturnTrue);
    (V3.BLOB, HasStringValue);
    (V3.TEXT, HasStringValue);
    (V3.BYTESTRING, HasStringValue);
    (V3.ATOM_CATEGORY, HasStringValue);
    (V3.ATOM_LINK, HasStringValue);
    (V3.ATOM_TITLE, HasStringValue);
    (V3.ATOM_CONTENT, HasStringValue);
    (V3.ATOM_SUMMARY, HasStringValue);
    (V3.ATOM_AUTHOR, HasStringValue);
    (V3.GD_EMAIL, HasStringValue);
    (V3.GD_IM, HasStringValue);
    (V3.GD_PHONENUMBER, HasStringValue);
    (V3.GD_POSTALADDRESS, HasStringValue);
    (V3.BLOBKEY, HasStringValue);
    (V3.ENTITY_PROTO, HasStringValue);
    (V3.GD_WHEN, HasInt64Value);
    (V3.GD_RATING, HasInt64Value);
    (V3.GEORSS_POINT, HasPointValue);
    (V3.EMPTY_LIST, ReturnTrue) ].

Fixpoint checkers_get (table : list (Z * checker)) (k : Z) (d : checker)
  : checker :=
  match table with
  | [] => d
  | (k', c) :: table' => if k' =? k then c else checkers_get table' k d
  end.

Definition run_checker (c : checker) (v : V3.PropertyValue) : bool :=
  match c with
  | ReturnTrue => true
  | HasStringValue => bool_decide (is_Some (V3.stringValue v))
  | HasInt64Value => bool_decide (is_Some (V3.int64Value v))
  | HasPointValue => bool_decide (is_Some (V3.pointvalue v))
  | ReturnFalse => false
  end.

Definition has {A} (f : option A) : bool :=
  match f with Some _ => true | None => false end.

(** [__is_v3_property_value_union_valid]. *)
Definition __is_v3_property_value_union_valid (v : V3.PropertyValue) : bool :=
  let num_sub_values :=
    Z.b2z (has (V3.booleanValue v)) +
    Z.b2z (has (V3.int64Value v)) +
    Z.b2z (has (V3.doubleValue v)) +
    Z.b2z (has (V3.referencevalue v)) +
    Z.b2z (has (V3.stringValue v)) +
    Z.b2z (has (V3.pointvalue v)) +
    Z.b2z (has (V3.uservalue v)) in
  num_sub_values <=? 1.

(** [__is_v3_property_value_meaning_valid]. *)
Definition __is_v3_property_value_meaning_valid (v : V3.PropertyValue)
    (v3_meaning : Z) : bool :=
  run_checker (checkers_get value_checkers v3_meaning ReturnFalse) v.

(** [meaning == constant] for a local meaning that may be [None]. *)
Definition meaning_is (m : option Z) (constant : Z) : bool :=
  match m with
  | Some z => z =? constant
  | None => false
  end.

(** The statements with which [v3_property_to_v4_value] and
    [v3_property_to_v1_value] both begin: they compute the local
    [v3_meaning] ([None] when it is dropped) and [is_zlib_value]. *)
Definition v3_meaning_and_zlib (v3_property : V3.Property)
  : option Z * bool :=
  let v3_property_value := V3.value v3_property in
  let v3_meaning := Some (V3.get_int (V3.meaning v3_property)) in
  let v3_uri_meaning :=
    if nonempty (V3.get_text (V3.meaning_uri v3_property))
    then Some (V3.get_text (V3.meaning_uri v3_property)) else None in
  let '(v3_meaning, v3_uri_meaning) :=
    if negb (__is_v3_property_value_union_valid v3_property_value)
    then (None, None)
    else if meaning_is v3_meaning V3.NO_MEANING
    then (None, v3_uri_meaning)
    else if negb (__is_v3_property_value_meaning_valid v3_property_value
                    (V3.get_int (V3.meaning v3_property)))
    then (None, v3_uri_meaning)
    else (v3_meaning, v3_uri_meaning) in
  match v3_uri_meaning with
  | Some uri =>
    if bool_decide (uri = URI_MEANING_ZLIB) then
      if has (V3.stringValue v3_property_value) then
        (if negb (meaning_is v3_meaning V3.BLOB)
         then Some V3.BLOB else v3_meaning, true)
      else (v3_meaning, false)
    else (v3_meaning, false)
  | None => (v3_meaning, false)
  end.

(** Truthiness of the local [v3_meaning]. *)
Definition meaning_truthy (m : option Z) : bool :=
  match m with
  | Some z => negb (z =? 0)
  | None => false
  end.

Section Converter.

#[local] Set Default Proof Using "Type".

(** [self._id_resolver]. *)
Variable id_resolver : IdResolver.

(** The wire codec of the protocol-buffer runtime for [EntityProto], and
    the timestamp helpers of [googledatastore.helper]. *)
Variable ParsePartialFromString : bytes -> result V3.EntityProto.
Variable ParseFromString : bytes -> result V3.EntityProto.
Variable SerializePartialToString : V3.EntityProto -> bytes.
Variable micros_to_timestamp : Z -> V1.Timestamp.
Variable micros_from_timestamp : V1.Timestamp -> Z.

(** *** Keys, v4 *)

Definition v4_to_v3_reference (v4_key : V4.Key) : V3.Reference :=
  let v3_ref := V3.Reference_Clear in
  let v3_ref :=
    match V4.partition_id v4_key with
    | Some partition_id =>
      V3.mkReference (V4.dataset_id partition_id)
                     (V4.namespace partition_id) (V3.path v3_ref)
    | None => v3_ref
    end in
  V3.mkReference (V3.app v3_ref) (V3.name_space v3_ref)
    (List.map (fun v4_element =>
                 V3.mkElement (Some (V4.kind v4_element))
                              (V4.id v4_element) (V4.name v4_element))
              (V4.path_element v4_key)).

Definition v3_to_v4_key (v3_ref : V3.Reference) : V4.Key :=
  if negb (nonempty (V3.get_text (V3.app v3_ref))) then V4.Key_Clear
  else
    V4.mkKey
      (Some (V4.mkPartitionId
               (Some (V3.get_text (V3.app v3_ref)))
               (if nonempty (V3.get_text (V3.name_space v3_ref))
                then Some (V3.get_text (V3.name_space v3_ref)) else None)))
      (List.map (fun v3_element =>
                   V4.mkPathElement (V3.get_text (V3.type v3_element))
                                    (V3.id v3_element) (V3.name v3_element))
                (V3.path v3_ref)).

(** *** Keys, v1 *)

Definition v1_to_v3_element (v1_element : V1.PathElement)
  : result V3.Element :=
  let* kind := Utf8.encode (V1.kind v1_element) in
  let* type := string_field_of_bytes kind in
  match V1.id_type v1_element with
  | V1.id i => Ok (V3.mkElement (Some type) (Some i) None)
  | V1.name n =>
    let* encoded := Utf8.encode n in
    let* name := string_field_of_bytes encoded in
    Ok (V3.mkElement (Some type) None (Some name))
  | V1.id_type_not_set => Ok (V3.mkElement (Some type) None None)
  end.

Fixpoint v1_to_v3_elements (path : list V1.PathElement)
  : result (list V3.Element) :=
  match path with
  | [] => Ok []
  | v1_element :: rest =>
    let* v3_element := v1_to_v3_element v1_element in
    let* v3_rest := v1_to_v3_elements rest in
    Ok (v3_element :: v3_rest)
  end.

Definition v1_to_v3_reference (v1_key : V1.Key) : result V3.Reference :=
  let* '(app, name_space) :=
    match V1.partition_id v1_key with
    | Some partition_id =>
      let project_id := V1.project_id partition_id in
      let* app :=
        if nonempty project_id then
          let* app_id := resolve_app_id id_resolver project_id in
          Ok (Some app_id)
        else Ok None in
      Ok (app,
          if nonempty (V1.namespace_id partition_id)
          then Some (V1.namespace_id partition_id) else None)
    | None => Ok (None, None)
    end in
  let* elements := v1_to_v3_elements (V1.path v1_key) in
  Ok (V3.mkReference app name_space elements).

Definition v3_to_v1_element (v3_element : V3.Element) : V1.PathElement :=
  let id_type := V1.id_type_not_set in
  let id_type :=
    match V3.id v3_element with Some i => V1.id i | None => id_type end in
  let id_type :=
    match V3.name v3_element with Some n => V1.name n | None => id_type end in
  V1.mkPathElement (V3.get_text (V3.type v3_element)) id_type.

Definition v3_to_v1_key (v3_ref : V3.Reference) : result V1.Key :=
  if negb (nonempty (V3.get_text (V3.app v3_ref))) then Ok V1.Key_Clear
  else
    let* project_id :=
      resolve_project_id id_resolver (V3.get_text (V3.app v3_ref)) in
    Ok (V1.mkKey
          (Some (V1.mkPartitionId project_id
                   (if nonempty (V3.get_text (V3.name_space v3_ref))
                    then V3.get_text (V3.name_space v3_ref) else [])))
          (List.map v3_to_v1_element (V3.path v3_ref))).

(** *** References inside values *)

(** [v3_reference_to_v3_property_value]: the group [referencevalue]
    becomes present with the first assignment made inside it, so it stays
    unset for a Reference with no app, no name_space and no element. *)
Definition v3_reference_to_v3_property_value (v3_ref : V3.Reference)
  : V3.PropertyValue :=
  let v3_property_value := V3.PropertyValue_Clear in
  let reference_value :=
    V3.mkReferenceValue
      (match V3.app v3_ref with Some a => Some a | None => None end)
      (match V3.name_space v3_ref with Some n => Some n | None => None end)
      (List.map copy_path_element (V3.path v3_ref)) in
  if has (V3.app v3_ref) || has (V3.name_space v3_ref)
     || negb (bool_decide (V3.path v3_ref = []))
  then V3.set_referencevalue v3_property_value reference_value
  else v3_property_value.

Definition __v3_reference_value_to_v3_reference
    (v3_ref_value : V3.ReferenceValue) : V3.Reference :=
  V3.mkReference
    (match V3.rv_app v3_ref_value with Some a => Some a | None => None end)
    (match V3.rv_name_space v3_ref_value with
     | Some n => Some n | None => None end)
    (List.map copy_path_element (V3.pathelement v3_ref_value)).

(** [v3_reference_to_group]: the path holding the first element. *)
Definition v3_reference_to_group (v3_ref : V3.Reference)
  : result (list V3.Element) :=
  match V3.path v3_ref with
  | element :: _ => Ok [element]
  | [] => Raise AssertionError
  end.

(** *** Embedded points and users, v4 *)

Definition __build_name_to_v4_property_map (v4_entity : V4.Entity)
  : gmap text V4.Property :=
  foldl (fun property_map prop => <[V4.p_name prop := prop]> property_map)
        ∅ (V4.property v4_entity).

Definition __get_v4_integer_value (v4_property : V4.Property) : result Z :=
  let* _ := check_conversion
              (has (V4.integer_value (V4.value v4_property)))
              (str "Property does not contain an integer value.") in
  Ok (V3.get_int (V4.integer_value (V4.value v4_property))).

Definition __get_v4_double_value (v4_property : V4.Property)
  : result float :=
  let* _ := check_conversion
              (has (V4.double_value (V4.value v4_property)))
              (str "Property does not contain a double value.") in
  Ok (default 0%float (V4.double_value (V4.value v4_property))).

Definition __get_v4_string_value (v4_property : V4.Property)
  : result text :=
  let* _ := check_conversion
              (has (V4.string_value (V4.value v4_property)))
              (str "Property does not contain a string value.") in
  Ok (V3.get_text (V4.string_value (V4.value v4_property))).

Definition __v4_integer_property (name : text) (value : Z) (indexed : bool)
  : V4.Property :=
  let v4_value := V4.Value_Clear in
  let v4_value := V4.set_indexed v4_value indexed in
  let v4_value := V4.set_integer_value v4_value value in
  V4.mkProperty name v4_value.

Definition __v4_double_property (name : text) (value : float)
    (indexed : bool) : V4.Property :=
  let v4_value := V4.Value_Clear in
  let v4_value := V4.set_indexed v4_value indexed in
  let v4_value := V4.set_double_value v4_value value in
  V4.mkProperty name v4_value.

Definition __v4_string_property (name : text) (value : text)
    (indexed : bool) : V4.Property :=
  let v4_value := V4.Value_Clear in
  let v4_value := V4.set_indexed v4_value indexed in
  let v4_value := V4.set_string_value v4_value value in
  V4.mkProperty name v4_value.

Definition __v4_to_v3_point_value (v4_point_entity : V4.Entity)
  : result V3.PointValue :=
  let name_to_v4_property :=
    __build_name_to_v4_property_map v4_point_entity in
  let* px := dict_getitem name_to_v4_property PROPERTY_NAME_X in
  let* x := __get_v4_double_value px in
  let* py := dict_getitem name_to_v4_property PROPERTY_NAME_Y in
  let* y := __get_v4_double_value py in
  Ok (V3.mkPointValue x y).

Definition __v3_to_v4_point_entity (v3_point_value : V3.PointValue)
  : V4.Entity :=
  V4.mkEntity None
    ([] ++ [__v4_double_property PROPERTY_NAME_X (V3.x v3_point_value) false]
        ++ [__v4_double_property PROPERTY_NAME_Y (V3.y v3_point_value) false]).

(** The [UserValue] after [Clear()]. *)
Definition UserValue_Clear : V3.UserValue :=
  V3.mkUserValue [] [] None 0 None None None.

Definition v4_entity_to_v3_user_value (v4_user_entity : V4.Entity)
  : result V3.UserValue :=
  let v3_user_value := UserValue_Clear in
  let name_to_v4_property :=
    __build_name_to_v4_property_map v4_user_entity in
  let* p := dict_getitem name_to_v4_property PROPERTY_NAME_EMAIL in
  let* email := __get_v4_string_value p in
  let v3_user_value := V3.set_email v3_user_value email in
  let* p := dict_getitem name_to_v4_property PROPERTY_NAME_AUTH_DOMAIN in
  let* auth_domain := __get_v4_string_value p in
  let v3_user_value := V3.set_auth_domain v3_user_value auth_domain in
  let* v3_user_value :=
    match name_to_v4_property !! PROPERTY_NAME_USER_ID with
    | Some p =>
      let* s := __get_v4_string_value p in
      Ok (V3.set_obfuscated_gaiaid v3_user_value s)
    | None => Ok v3_user_value
    end in
  let* v3_user_value :=
    match name_to_v4_property !! PROPERTY_NAME_INTERNAL_ID with
    | Some p =>
      let* i := __get_v4_integer_value p in
      Ok (V3.set_gaiaid v3_user_value i)
    | None => Ok (V3.set_gaiaid v3_user_value 0)
    end in
  let* v3_user_value :=
    match name_to_v4_property !! PROPERTY_NAME_FEDERATED_IDENTITY with
    | Some p =>
      let* s := __get_v4_string_value p in
      Ok (V3.set_federated_identity v3_user_value s)
    | None => Ok v3_user_value
    end in
  match name_to_v4_property !! PROPERTY_NAME_FEDERATED_PROVIDER with
  | Some p =>
    let* s := __get_v4_string_value p in
    Ok (V3.set_federated_provider v3_user_value s)
  | None => Ok v3_user_value
  end.

Definition v3_user_value_to_v4_entity (v3_user_value : V3.UserValue)
  : V4.Entity :=
  let property := [] in
  let property :=
    property ++ [__v4_string_property PROPERTY_NAME_EMAIL
                   (V3.email v3_user_value) false] in
  let property :=
    property ++ [__v4_string_property PROPERTY_NAME_AUTH_DOMAIN
                   (V3.auth_domain v3_user_value) false] in
  let property :=
    if negb (V3.gaiaid v3_user_value =? 0) then
      property ++ [__v4_integer_property PROPERTY_NAME_INTERNAL_ID
                     (V3.gaiaid v3_user_value) false]
    else property in
  let property :=
    match V3.obfuscated_gaiaid v3_user_value with
    | Some s =>
      property ++ [__v4_string_property PROPERTY_NAME_USER_ID s false]
    | None => property
    end in
  let property :=
    match V3.federated_identity v3_user_value with
    | Some s =>
      property ++ [__v4_string_property PROPERTY_NAME_FEDERATED_IDENTITY
                     s false]
    | None => property
    end in
  let property :=
    match V3.federated_provider v3_user_value with
    | Some s =>
      property ++ [__v4_string_property PROPERTY_NAME_FEDERATED_PROVIDER
                     s false]
    | None => property
    end in
  V4.mkEntity None property.

(** *** Properties and values, v3 to v4 *)

(** The end of [v3_property_to_v4_value]: the meaning, then the flag. *)
Definition v4_finish (v4_value : V4.Value) (is_zlib_value : bool)
    (v3_meaning : option Z) (indexed : bool) : V4.Value :=
  let v4_value :=
    if is_zlib_value then V4.set_meaning v4_value MEANING_ZLIB
    else if meaning_truthy v3_meaning
    then V4.set_meaning v4_value (V3.get_int v3_meaning)
    else v4_value in
  if negb (eqb indexed (V4.indexed v4_value))
  then V4.set_indexed v4_value indexed
  else v4_value.

(** [v3_property_to_v4_value]; [v3_to_v4_entity] is the converter of
    embedded entities. *)
Definition v3_property_to_v4_value_with
    (v3_to_v4_entity : V3.EntityProto -> result V4.Entity)
    (v3_property : V3.Property) (indexed : bool) : result V4.Value :=
  let v4_value := V4.Value_Clear in
  let v3_property_value := V3.value v3_property in
  let '(v3_meaning, is_zlib_value) := v3_meaning_and_zlib v3_property in
  let* '(v4_value, v3_meaning) :=
    match V3.booleanValue v3_property_value with
    | Some b => Ok (V4.set_boolean_value v4_value b, v3_meaning)
    | None =>
    match V3.int64Value v3_property_value with
    | Some i =>
      if meaning_is v3_meaning V3.GD_WHEN
      then Ok (V4.set_timestamp_microseconds_value v4_value i, None)
      else Ok (V4.set_integer_value v4_value i, v3_meaning)
    | None =>
    match V3.doubleValue v3_property_value with
    | Some d => Ok (V4.set_double_value v4_value d, v3_meaning)
    | None =>
    match V3.referencevalue v3_property_value with
    | Some referencevalue =>
      let v3_ref := __v3_reference_value_to_v3_reference referencevalue in
      Ok (V4.set_key_value v4_value (v3_to_v4_key v3_ref), v3_meaning)
    | None =>
    match V3.stringValue v3_property_value with
    | Some stringValue =>
      if meaning_is v3_meaning V3.ENTITY_PROTO then
        let serialized_entity_v3 := stringValue in
        let* v3_entity := ParsePartialFromString serialized_entity_v3 in
        let* entity_value := v3_to_v4_entity v3_entity in
        Ok (V4.set_entity_value v4_value entity_value, None)
      else if meaning_is v3_meaning V3.BLOB
              || meaning_is v3_meaning V3.BYTESTRING then
        Ok (V4.set_blob_value v4_value stringValue,
            if indexed || meaning_is v3_meaning V3.BLOB
            then None else v3_meaning)
      else
        let string_value := stringValue in
        if is_valid_utf8 string_value then
          if meaning_is v3_meaning V3.BLOBKEY then
            Ok (V4.set_blob_key_value v4_value string_value, None)
          else
            let* decoded := string_field_of_bytes string_value in
            Ok (V4.set_string_value v4_value decoded, v3_meaning)
        else
          Ok (V4.set_blob_value v4_value string_value,
              if negb (meaning_is v3_meaning V3.INDEX_VALUE)
              then None else v3_meaning)
    | None =>
    match V3.pointvalue v3_property_value with
    | Some pointvalue =>
      if meaning_is v3_meaning MEANING_GEORSS_POINT then
        let point_value := pointvalue in
        Ok (V4.set_geo_point_value v4_value
              (V4.mkGeoPoint (V3.x point_value) (V3.y point_value)), None)
      else
        let v4_value :=
          V4.set_entity_value v4_value (__v3_to_v4_point_entity pointvalue) in
        Ok (V4.set_meaning v4_value MEANING_PREDEFINED_ENTITY_POINT, None)
    | None =>
    match V3.uservalue v3_property_value with
    | Some uservalue =>
      let v4_value :=
        V4.set_entity_value v4_value (v3_user_value_to_v4_entity uservalue) in
      Ok (V4.set_meaning v4_value MEANING_PREDEFINED_ENTITY_USER, None)
    | None => Ok (v4_value, v3_meaning)
    end end end end end end end in
  Ok (v4_finish v4_value is_zlib_value v3_meaning indexed).

(** [__add_v4_property_to_entity]: [property] is the list
    [v4_entity.property] and [property_map] maps a name to the position of
    its entry in that list. *)
Definition __add_v4_property_to_entity
    (v3_to_v4_entity : V3.EntityProto -> result V4.Entity)
    (state : list V4.Property * gmap text nat)
    (v3_property : V3.Property) (indexed : bool)
  : result (list V4.Property * gmap text nat) :=
  let '(property, property_map) := state in
  let property_name := V3.p_name v3_property in
  let '(property, property_map, position) :=
    match property_map !! property_name with
    | Some position => (property, property_map, position)
    | None =>
      (property ++ [V4.mkProperty property_name V4.Value_Clear],
       <[property_name := length property]> property_map,
       length property)
    end in
  let* converted :=
    v3_property_to_v4_value_with v3_to_v4_entity v3_property indexed in
  if V3.multiple v3_property then
    Ok (alter (fun v4_property =>
                 V4.mkProperty (V4.p_name v4_property)
                   (V4.set_list_value (V4.value v4_property)
                      (V4.list_value (V4.value v4_property) ++ [converted])))
              position property,
        property_map)
  else
    Ok (alter (fun v4_property =>
                 V4.mkProperty (V4.p_name v4_property) converted)
              position property,
        property_map).

Fixpoint add_v4_properties
    (v3_to_v4_entity : V3.EntityProto -> result V4.Entity)
    (state : list V4.Property * gmap text nat)
    (v3_properties : list V3.Property) (indexed : bool)
  : result (list V4.Property * gmap text nat) :=
  match v3_properties with
  | [] => Ok state
  | v3_property :: rest =>
    let* state :=
      __add_v4_property_to_entity v3_to_v4_entity state v3_property indexed in
    add_v4_properties v3_to_v4_entity state rest indexed
  end.

(** The body of [v3_to_v4_entity]. *)
Definition v3_to_v4_entity_with
    (v3_to_v4_entity : V3.EntityProto -> result V4.Entity)
    (v3_entity : V3.EntityProto) : result V4.Entity :=
  let v3_key := default V3.Reference_Clear (V3.key v3_entity) in
  let key := Some (v3_to_v4_key v3_key) in
  let key := if negb (has (V3.app v3_key)) then None else key in
  let v4_properties : gmap text nat := ∅ in
  let* state :=
    add_v4_properties v3_to_v4_entity ([], v4_properties)
      (V3.property v3_entity) true in
  let* state :=
    add_v4_properties v3_to_v4_entity state
      (V3.raw_property v3_entity) false in
  Ok (V4.mkEntity key (fst state)).

(** [v3_to_v4_entity], with the number of nested calls the interpreter
    still allows: an entity embedded deeper raises [RecursionError]. *)
Fixpoint v3_to_v4_entity (depth : nat) (v3_entity : V3.EntityProto)
  : result V4.Entity :=
  match depth with
  | O => Raise RecursionError
  | S depth' => v3_to_v4_entity_with (v3_to_v4_entity depth') v3_entity
  end.

Definition v3_property_to_v4_value (depth : nat)
    (v3_property : V3.Property) (indexed : bool) : result V4.Value :=
  v3_property_to_v4_value_with (v3_to_v4_entity depth) v3_property indexed.

(** *** Properties and values, v4 to v3 *)

Definition EntityProto_Clear : V3.EntityProto :=
  V3.mkEntityProto None [] [] [].

(** [v3_entity.property.add()] or [v3_entity.raw_property.add()], with
    the populated property. *)
Definition __new_v3_property (v3_entity : V3.EntityProto)
    (is_indexed : bool) (prop : V3.Property) : V3.EntityProto :=
  if is_indexed then
    V3.mkEntityProto (V3.key v3_entity) (V3.entity_group v3_entity)
      (V3.property v3_entity ++ [prop]) (V3.raw_property v3_entity)
  else
    V3.mkEntityProto (V3.key v3_entity) (V3.entity_group v3_entity)
      (V3.property v3_entity) (V3.raw_property v3_entity ++ [prop]).

(** The part of [v4_to_v3_property] that follows the conversion of the
    value: the meaning of the v3 property. *)
Definition v4_property_meaning (is_projection : bool) (v4_value : V4.Value)
    (v3_property : V3.Property) : V3.Property :=
  let v4_meaning := V4.meaning v4_value in
  let '(v3_property, v4_meaning) :=
    if has (V4.timestamp_microseconds_value v4_value) then
      (V3.set_meaning v3_property V3.GD_WHEN, v4_meaning)
    else if has (V4.blob_key_value v4_value) then
      (V3.set_meaning v3_property V3.BLOBKEY, v4_meaning)
    else if has (V4.blob_value v4_value) then
      let v3_property :=
        if meaning_is v4_meaning MEANING_ZLIB
        then V3.set_meaning_uri v3_property URI_MEANING_ZLIB
        else v3_property in
      if meaning_is v4_meaning V3.BYTESTRING then
        (v3_property, v4_meaning)
      else
        (if V4.indexed v4_value
         then V3.set_meaning v3_property V3.BYTESTRING
         else V3.set_meaning v3_property V3.BLOB, None)
    else if has (V4.entity_value v4_value) then
      if negb (meaning_is v4_meaning MEANING_GEORSS_POINT) then
        (if negb (meaning_is v4_meaning MEANING_PREDEFINED_ENTITY_POINT)
            && negb (meaning_is v4_meaning MEANING_PREDEFINED_ENTITY_USER)
         then V3.set_meaning v3_property V3.ENTITY_PROTO
         else v3_property, None)
      else (v3_property, v4_meaning)
    else if has (V4.geo_point_value v4_value) then
      (V3.set_meaning v3_property MEANING_GEORSS_POINT, v4_meaning)
    else (v3_property, v4_meaning) in
  let v3_property :=
    match v4_meaning with
    | Some m => V3.set_meaning v3_property m
    | None => v3_property
    end in
  if is_projection then V3.set_meaning v3_property V3.INDEX_VALUE
  else v3_property.

(** [Property()] after [Clear()], with its name assigned. *)
Definition Property_named (property_name : text) : V3.Property :=
  V3.mkProperty None None property_name V3.PropertyValue_Clear false.

(** [v4_to_v3_property], given the converter of values. *)
Definition v4_to_v3_property_with
    (v4_value_to_v3_property_value : V4.Value -> result V3.PropertyValue)
    (property_name : text) (is_multi : bool) (is_projection : bool)
    (v4_value : V4.Value) : result V3.Property :=
  match V4.list_value v4_value with
  | _ :: _ => Raise AssertionError
  | [] =>
    let v3_property := Property_named property_name in
    if has (V4.meaning v4_value)
       && (V3.get_int (V4.meaning v4_value) =? MEANING_EMPTY_LIST) then
      let v3_property := V3.set_meaning v3_property MEANING_EMPTY_LIST in
      let v3_property := V3.set_multiple v3_property false in
      Ok (V3.set_value v3_property V3.PropertyValue_Clear)
    else
      let v3_property := V3.set_multiple v3_property is_multi in
      let* value := v4_value_to_v3_property_value v4_value in
      let v3_property := V3.set_value v3_property value in
      Ok (v4_property_meaning is_projection v4_value v3_property)
  end.

Fixpoint v4_value_to_v3_property_value (v4_value : V4.Value)
    {struct v4_value} : result V3.PropertyValue :=
  let v3_value := V3.PropertyValue_Clear in
  match V4.boolean_value v4_value with
  | Some b => Ok (V3.set_booleanValue v3_value b)
  | None =>
  match V4.integer_value v4_value with
  | Some i => Ok (V3.set_int64Value v3_value i)
  | None =>
  match V4.double_value v4_value with
  | Some d => Ok (V3.set_doubleValue v3_value d)
  | None =>
  match V4.timestamp_microseconds_value v4_value with
  | Some t => Ok (V3.set_int64Value v3_value t)
  | None =>
  match V4.key_value v4_value with
  | Some key_value =>
    let v3_ref := v4_to_v3_reference key_value in
    Ok (v3_reference_to_v3_property_value v3_ref)
  | None =>
  match V4.blob_key_value v4_value with
  | Some blob_key_value => Ok (V3.set_stringValue v3_value blob_key_value)
  | None =>
  match V4.string_value v4_value with
  | Some string_value =>
    let* encoded := Utf8.encode string_value in
    Ok (V3.set_stringValue v3_value encoded)
  | None =>
  match V4.blob_value v4_value with
  | Some blob_value => Ok (V3.set_stringValue v3_value blob_value)
  | None =>
  match V4.entity_value v4_value with
  | Some v4_entity_value =>
    let v4_meaning := V3.get_int (V4.meaning v4_value) in
    if (v4_meaning =? MEANING_GEORSS_POINT)
       || (v4_meaning =? MEANING_PREDEFINED_ENTITY_POINT) then
      let* pointvalue := __v4_to_v3_point_value v4_entity_value in
      Ok (V3.set_pointvalue v3_value pointvalue)
    else if v4_meaning =? MEANING_PREDEFINED_ENTITY_USER then
      let* uservalue := v4_entity_to_v3_user_value v4_entity_value in
      Ok (V3.set_uservalue v3_value uservalue)
    else
      let* v3_entity_value := v4_to_v3_entity v4_entity_value false in
      Ok (V3.set_stringValue v3_value
            (SerializePartialToString v3_entity_value))
  | None =>
  match V4.geo_point_value v4_value with
  | Some geo_point_value =>
    Ok (V3.set_pointvalue v3_value
          (V3.mkPointValue (V4.latitude geo_point_value)
                           (V4.longitude geo_point_value)))
  | None => Ok v3_value
  end end end end end end end end end end

with v4_to_v3_entity (v4_entity : V4.Entity) (is_projection : bool)
    {struct v4_entity} : result V3.EntityProto :=
  let __add_v3_property_from_v4 property_name is_multi v4_value v3_entity :=
    let* prop :=
      v4_to_v3_property_with v4_value_to_v3_property_value
        property_name is_multi is_projection v4_value in
    Ok (__new_v3_property v3_entity (V4.indexed v4_value) prop) in
  let* v3_entity :=
    (fix properties (props : list V4.Property) (v3_entity : V3.EntityProto)
       {struct props} : result V3.EntityProto :=
       match props with
       | [] => Ok v3_entity
       | v4_property :: rest =>
         let property_name := V4.p_name v4_property in
         let v4_value := V4.value v4_property in
         let* v3_entity :=
           match V4.list_value v4_value with
           | [] =>
             __add_v3_property_from_v4 property_name false v4_value v3_entity
           | _ :: _ =>
             (fix sub_values (values : list V4.Value)
                  (v3_entity : V3.EntityProto) {struct values}
                : result V3.EntityProto :=
                match values with
                | [] => Ok v3_entity
                | v4_sub_value :: values' =>
                  let* v3_entity :=
                    __add_v3_property_from_v4 property_name true
                      v4_sub_value v3_entity in
                  sub_values values' v3_entity
                end) (V4.list_value v4_value) v3_entity
           end in
         properties rest v3_entity
       end) (V4.property v4_entity) EntityProto_Clear in
  match V4.key v4_entity with
  | Some v4_key =>
    let v3_ref := v4_to_v3_reference v4_key in
    let* group := v3_reference_to_group v3_ref in
    Ok (V3.mkEntityProto (Some v3_ref) group
          (V3.property v3_entity) (V3.raw_property v3_entity))
  | None => Ok v3_entity
  end.

Definition v4_to_v3_property :=
  v4_to_v3_property_with v4_value_to_v3_property_value.

(** *** The [properties] map of a v1 entity *)

Fixpoint map_get (m : list (text * V1.Value)) (k : text)
  : option V1.Value :=
  match m with
  | [] => None
  | (k', v) :: m' => if bool_decide (k' = k) then Some v else map_get m' k
  end.

(** The entry of [k] replaced, or a new entry at the end. *)
Fixpoint map_set (m : list (text * V1.Value)) (k : text) (v : V1.Value)
  : list (text * V1.Value) :=
  match m with
  | [] => [(k, v)]
  | (k', v') :: m' =>
    if bool_decide (k' = k) then (k', v) :: m'
    else (k', v') :: map_set m' k v
  end.

(** [properties[k]]: the map creates a cleared value for a missing
    key. *)
Definition map_getitem (m : list (text * V1.Value)) (k : text)
  : V1.Value :=
  default V1.Value_Clear (map_get m k).

(** *** Embedded users, v1 *)

Definition __get_v1_integer_value (v1_value : V1.Value) : result Z :=
  match V1.value_type v1_value with
  | V1.integer_value i => Ok i
  | _ => Raise (InvalidConversionError
                  (str "Value does not contain an integer value."))
  end.

Definition __get_v1_double_value (v1_value : V1.Value) : result float :=
  match V1.value_type v1_value with
  | V1.double_value d => Ok d
  | _ => Raise (InvalidConversionError
                  (str "Value does not contain a double value."))
  end.

Definition __get_v1_string_value (v1_value : V1.Value) : result bytes :=
  match V1.value_type v1_value with
  | V1.string_value s => Utf8.encode s
  | _ => Raise (InvalidConversionError
                  (str "Value does not contain a string value."))
  end.

Definition __v1_integer_property (properties : list (text * V1.Value))
    (name : text) (value : Z) (indexed : bool) : list (text * V1.Value) :=
  let v1_value := map_getitem properties name in
  let v1_value := V1.set_exclude_from_indexes v1_value (negb indexed) in
  let v1_value := V1.set_value_type v1_value (V1.integer_value value) in
  map_set properties name v1_value.

Definition __v1_double_property (properties : list (text * V1.Value))
    (name : text) (value : float) (indexed : bool)
  : list (text * V1.Value) :=
  let v1_value := map_getitem properties name in
  let v1_value := V1.set_exclude_from_indexes v1_value (negb indexed) in
  let v1_value := V1.set_value_type v1_value (V1.double_value value) in
  map_set properties name v1_value.

Definition __v1_string_property (properties : list (text * V1.Value))
    (name : text) (value : text) (indexed : bool)
  : list (text * V1.Value) :=
  let v1_value := map_getitem properties name in
  let v1_value := V1.set_exclude_from_indexes v1_value (negb indexed) in
  let v1_value := V1.set_value_type v1_value (V1.string_value value) in
  map_set properties name v1_value.

(** A string field of the user value read from the entity. *)
Definition v1_user_string (properties : list (text * V1.Value))
    (name : text) : result text :=
  let* encoded := __get_v1_string_value (map_getitem properties name) in
  string_field_of_bytes encoded.

Definition v1_entity_to_v3_user_value (v1_user_entity : V1.Entity)
  : result V3.UserValue :=
  let v3_user_value := UserValue_Clear in
  let properties := V1.properties v1_user_entity in
  let* email := v1_user_string properties PROPERTY_NAME_EMAIL in
  let v3_user_value := V3.set_email v3_user_value email in
  let* auth_domain := v1_user_string properties PROPERTY_NAME_AUTH_DOMAIN in
  let v3_user_value := V3.set_auth_domain v3_user_value auth_domain in
  let* v3_user_value :=
    if has (map_get properties PROPERTY_NAME_USER_ID) then
      let* s := v1_user_string properties PROPERTY_NAME_USER_ID in
      Ok (V3.set_obfuscated_gaiaid v3_user_value s)
    else Ok v3_user_value in
  let* v3_user_value :=
    if has (map_get properties PROPERTY_NAME_INTERNAL_ID) then
      let* i := __get_v1_integer_value
                  (map_getitem properties PROPERTY_NAME_INTERNAL_ID) in
      Ok (V3.set_gaiaid v3_user_value i)
    else Ok (V3.set_gaiaid v3_user_value 0) in
  let* v3_user_value :=
    if has (map_get properties PROPERTY_NAME_FEDERATED_IDENTITY) then
      let* s := v1_user_string properties PROPERTY_NAME_FEDERATED_IDENTITY in
      Ok (V3.set_federated_identity v3_user_value s)
    else Ok v3_user_value in
  if has (map_get properties PROPERTY_NAME_FEDERATED_PROVIDER) then
    let* s := v1_user_string properties PROPERTY_NAME_FEDERATED_PROVIDER in
    Ok (V3.set_federated_provider v3_user_value s)
  else Ok v3_user_value.

Definition v3_user_value_to_v1_entity (v3_user_value : V3.UserValue)
  : V1.Entity :=
  let properties := [] in
  let properties :=
    __v1_string_property properties PROPERTY_NAME_EMAIL
      (V3.email v3_user_value) false in
  let properties :=
    __v1_string_property properties PROPERTY_NAME_AUTH_DOMAIN
      (V3.auth_domain v3_user_value) false in
  let properties :=
    if negb (V3.gaiaid v3_user_value =? 0) then
      __v1_integer_property properties PROPERTY_NAME_INTERNAL_ID
        (V3.gaiaid v3_user_value) false
    else properties in
  let properties :=
    match V3.obfuscated_gaiaid v3_user_value with
    | Some s =>
      __v1_string_property properties PROPERTY_NAME_USER_ID s false
    | None => properties
    end in
  let properties :=
    match V3.federated_identity v3_user_value with
    | Some s =>
      __v1_string_property properties PROPERTY_NAME_FEDERATED_IDENTITY
        s false
    | None => properties
    end in
  let properties :=
    match V3.federated_provider v3_user_value with
    | Some s =>
      __v1_string_property properties PROPERTY_NAME_FEDERATED_PROVIDER
        s false
    | None => properties
    end in
  V1.mkEntity None properties.

(** *** Properties and values, v3 to v1 *)

(** The end of [v3_property_to_v1_value]: the meaning, then the flag. *)
Definition v1_finish (v1_value : V1.Value) (is_zlib_value : bool)
    (v3_meaning : option Z) (indexed : bool) : V1.Value :=
  let v1_value :=
    if is_zlib_value then V1.set_meaning v1_value MEANING_ZLIB
    else if meaning_truthy v3_meaning
    then V1.set_meaning v1_value (V3.get_int v3_meaning)
    else v1_value in
  if eqb indexed (V1.exclude_from_indexes v1_value)
  then V1.set_exclude_from_indexes v1_value (negb indexed)
  else v1_value.

(** [v3_property_to_v1_value]; [v3_to_v1_entity] is the converter of
    embedded entities. *)
Definition v3_property_to_v1_value_with
    (v3_to_v1_entity : V3.EntityProto -> result V1.Entity)
    (v3_property : V3.Property) (indexed : bool) : result V1.Value :=
  let v1_value := V1.Value_Clear in
  let v3_property_value := V3.value v3_property in
  let '(v3_meaning, is_zlib_value) := v3_meaning_and_zlib v3_property in
  let* '(v1_value, v3_meaning) :=
    if V3.get_int (V3.meaning v3_property) =? V3.EMPTY_LIST then
      Ok (V1.set_value_type v1_value (V1.array_value []), None)
    else
    match V3.booleanValue v3_property_value with
    | Some b =>
      Ok (V1.set_value_type v1_value (V1.boolean_value b), v3_meaning)
    | None =>
    match V3.int64Value v3_property_value with
    | Some i =>
      if meaning_is v3_meaning V3.GD_WHEN
         && is_in_rfc_3339_bounds i
      then Ok (V1.set_value_type v1_value
                 (V1.timestamp_value (micros_to_timestamp i)), None)
      else Ok (V1.set_value_type v1_value (V1.integer_value i), v3_meaning)
    | None =>
    match V3.doubleValue v3_property_value with
    | Some d =>
      Ok (V1.set_value_type v1_value (V1.double_value d), v3_meaning)
    | None =>
    match V3.referencevalue v3_property_value with
    | Some referencevalue =>
      let v3_ref := __v3_reference_value_to_v3_reference referencevalue in
      let* key_value := v3_to_v1_key v3_ref in
      Ok (V1.set_value_type v1_value (V1.key_value key_value), v3_meaning)
    | None =>
    match V3.stringValue v3_property_value with
    | Some stringValue =>
      if meaning_is v3_meaning V3.ENTITY_PROTO then
        let serialized_entity_v3 := stringValue in
        let* v3_entity := ParseFromString serialized_entity_v3 in
        let* entity_value := v3_to_v1_entity v3_entity in
        Ok (V1.set_value_type v1_value (V1.entity_value entity_value), None)
      else if meaning_is v3_meaning V3.BLOB
              || meaning_is v3_meaning V3.BYTESTRING then
        Ok (V1.set_value_type v1_value (V1.blob_value stringValue),
            if indexed || meaning_is v3_meaning V3.BLOB
            then None else v3_meaning)
      else
        let string_value := stringValue in
        if is_valid_utf8 string_value then
          let* decoded := string_field_of_bytes string_value in
          Ok (V1.set_value_type v1_value (V1.string_value decoded),
              v3_meaning)
        else
          Ok (V1.set_value_type v1_value (V1.blob_value string_value),
              if negb (meaning_is v3_meaning V3.INDEX_VALUE)
              then None else v3_meaning)
    | None =>
    match V3.pointvalue v3_property_value with
    | Some pointvalue =>
      let v1_value :=
        if negb (meaning_is v3_meaning MEANING_GEORSS_POINT)
        then V1.set_meaning v1_value MEANING_POINT_WITHOUT_V3_MEANING
        else v1_value in
      let point_value := pointvalue in
      Ok (V1.set_value_type v1_value
            (V1.geo_point_value
               (V1.mkLatLng (V3.x point_value) (V3.y point_value))), None)
    | None =>
    match V3.uservalue v3_property_value with
    | Some uservalue =>
      let v1_value :=
        V1.set_value_type v1_value
          (V1.entity_value (v3_user_value_to_v1_entity uservalue)) in
      Ok (V1.set_meaning v1_value MEANING_PREDEFINED_ENTITY_USER, None)
    | None => Ok (V1.set_value_type v1_value V1.null_value, v3_meaning)
    end end end end end end end in
  Ok (v1_finish v1_value is_zlib_value v3_meaning indexed).

(** The elements of [v1_value.array_value.values]. *)
Definition array_values (v1_value : V1.Value) : list V1.Value :=
  match V1.value_type v1_value with
  | V1.array_value values => values
  | _ => []
  end.

Definition __add_v1_property_to_entity
    (v3_to_v1_entity : V3.EntityProto -> result V1.Entity)
    (properties : list (text * V1.Value))
    (v3_property : V3.Property) (indexed : bool)
  : result (list (text * V1.Value)) :=
  let property_name := V3.p_name v3_property in
  let v1_value := map_getitem properties property_name in
  let* converted :=
    v3_property_to_v1_value_with v3_to_v1_entity v3_property indexed in
  if V3.multiple v3_property then
    Ok (map_set properties property_name
          (V1.set_value_type v1_value
             (V1.array_value (array_values v1_value ++ [converted]))))
  else
    Ok (map_set properties property_name converted).

Fixpoint add_v1_properties
    (v3_to_v1_entity : V3.EntityProto -> result V1.Entity)
    (properties : list (text * V1.Value))
    (v3_properties : list V3.Property) (indexed : bool)
  : result (list (text * V1.Value)) :=
  match v3_properties with
  | [] => Ok properties
  | v3_property :: rest =>
    let* properties :=
      __add_v1_property_to_entity v3_to_v1_entity properties
        v3_property indexed in
    add_v1_properties v3_to_v1_entity properties rest indexed
  end.

(** The body of [v3_to_v1_entity]. *)
Definition v3_to_v1_entity_with
    (v3_to_v1_entity : V3.EntityProto -> result V1.Entity)
    (v3_entity : V3.EntityProto) : result V1.Entity :=
  let v3_key := default V3.Reference_Clear (V3.key v3_entity) in
  let* v1_key := v3_to_v1_key v3_key in
  let key := if negb (has (V3.app v3_key)) then None else Some v1_key in
  let* properties :=
    add_v1_properties v3_to_v1_entity [] (V3.property v3_entity) true in
  let* properties :=
    add_v1_properties v3_to_v1_entity properties
      (V3.raw_property v3_entity) false in
  Ok (V1.mkEntity key properties).

(** [v3_to_v1_entity], with the number of nested calls the interpreter
    still allows. *)
Fixpoint v3_to_v1_entity (depth : nat) (v3_entity : V3.EntityProto)
  : result V1.Entity :=
  match depth with
  | O => Raise RecursionError
  | S depth' => v3_to_v1_entity_with (v3_to_v1_entity depth') v3_entity
  end.

Definition v3_property_to_v1_value (depth : nat)
    (v3_property : V3.Property) (indexed : bool) : result V1.Value :=
  v3_property_to_v1_value_with (v3_to_v1_entity depth) v3_property indexed.

(** *** Properties and values, v1 to v3 *)

(** The part of [v1_to_v3_property] that follows the conversion of the
    value: the meaning of the v3 property. *)
Definition v1_property_meaning (is_projection : bool) (v1_value : V1.Value)
    (v3_property : V3.Property) : V3.Property :=
  let v1_meaning :=
    if negb (V1.meaning v1_value =? 0) then Some (V1.meaning v1_value)
    else None in
  let '(v3_property, v1_meaning) :=
    match V1.value_type v1_value with
    | V1.timestamp_value _ =>
      (V3.set_meaning v3_property V3.GD_WHEN, v1_meaning)
    | V1.blob_value _ =>
      let v3_property :=
        if meaning_is v1_meaning MEANING_ZLIB
        then V3.set_meaning_uri v3_property URI_MEANING_ZLIB
        else v3_property in
      if meaning_is v1_meaning V3.BYTESTRING then
        (v3_property, v1_meaning)
      else
        (if negb (V1.exclude_from_indexes v1_value)
         then V3.set_meaning v3_property V3.BYTESTRING
         else V3.set_meaning v3_property V3.BLOB, None)
    | V1.entity_value _ =>
      (if negb (meaning_is v1_meaning MEANING_PREDEFINED_ENTITY_USER)
       then V3.set_meaning v3_property V3.ENTITY_PROTO
       else v3_property, None)
    | V1.geo_point_value _ =>
      (if negb (meaning_is v1_meaning MEANING_POINT_WITHOUT_V3_MEANING)
       then V3.set_meaning v3_property MEANING_GEORSS_POINT
       else v3_property, None)
    | V1.integer_value _ =>
      if meaning_is v1_meaning MEANING_NON_RFC_3339_TIMESTAMP
      then (V3.set_meaning v3_property V3.GD_WHEN, None)
      else (v3_property, v1_meaning)
    | _ => (v3_property, v1_meaning)
    end in
  let v3_property :=
    match v1_meaning with
    | Some m => V3.set_meaning v3_property m
    | None => v3_property
    end in
  if is_projection then V3.set_meaning v3_property V3.INDEX_VALUE
  else v3_property.

(** [v1_to_v3_property], given the converter of values. *)
Definition v1_to_v3_property_with
    (v1_value_to_v3_property_value : V1.Value -> result V3.PropertyValue)
    (property_name : text) (is_multi : bool) (is_projection : bool)
    (v1_value : V1.Value) : result V3.Property :=
  match V1.value_type v1_value with
  | V1.array_value _ => Raise AssertionError
  | _ =>
    let* encoded := Utf8.encode property_name in
    let* name := string_field_of_bytes encoded in
    let v3_property := Property_named name in
    let v3_property := V3.set_multiple v3_property is_multi in
    let* value := v1_value_to_v3_property_value v1_value in
    let v3_property := V3.set_value v3_property value in
    Ok (v1_property_meaning is_projection v1_value v3_property)
  end.

Fixpoint v1_value_to_v3_property_value (v1_value : V1.Value)
    {struct v1_value} : result V3.PropertyValue :=
  let v3_value := V3.PropertyValue_Clear in
  match V1.value_type v1_value with
  | V1.boolean_value b => Ok (V3.set_booleanValue v3_value b)
  | V1.integer_value i => Ok (V3.set_int64Value v3_value i)
  | V1.double_value d => Ok (V3.set_doubleValue v3_value d)
  | V1.timestamp_value t =>
    Ok (V3.set_int64Value v3_value (micros_from_timestamp t))
  | V1.key_value k =>
    let* v3_ref := v1_to_v3_reference k in
    Ok (v3_reference_to_v3_property_value v3_ref)
  | V1.string_value s =>
    let* encoded := Utf8.encode s in
    Ok (V3.set_stringValue v3_value encoded)
  | V1.blob_value b => Ok (V3.set_stringValue v3_value b)
  | V1.entity_value v1_entity_value =>
    let v1_meaning := V1.meaning v1_value in
    if v1_meaning =? MEANING_PREDEFINED_ENTITY_USER then
      let* uservalue := v1_entity_to_v3_user_value v1_entity_value in
      Ok (V3.set_uservalue v3_value uservalue)
    else
      let* v3_entity_value := v1_to_v3_entity v1_entity_value false in
      Ok (V3.set_stringValue v3_value
            (SerializePartialToString v3_entity_value))
  | V1.geo_point_value g =>
    Ok (V3.set_pointvalue v3_value
          (V3.mkPointValue (V1.latitude g) (V1.longitude g)))
  | V1.null_value => Ok V3.PropertyValue_Clear
  | _ => Ok V3.PropertyValue_Clear
  end

with v1_to_v3_entity (v1_entity : V1.Entity) (is_projection : bool)
    {struct v1_entity} : result V3.EntityProto :=
  let add_converted property_name is_multi v1_value v3_entity :=
    let* prop :=
      v1_to_v3_property_with v1_value_to_v3_property_value
        property_name is_multi is_projection v1_value in
    Ok (__new_v3_property v3_entity
          (negb (V1.exclude_from_indexes v1_value)) prop) in
  let* v3_entity :=
    (fix properties (items : list (text * V1.Value))
         (v3_entity : V3.EntityProto) {struct items}
       : result V3.EntityProto :=
       match items with
       | [] => Ok v3_entity
       | (property_name, v1_value) :: rest =>
         let* v3_entity :=
           match V1.value_type v1_value with
           | V1.array_value [] =>
             let empty_list := Property_named property_name in
             let empty_list := V3.set_multiple empty_list false in
             let empty_list := V3.set_meaning empty_list MEANING_EMPTY_LIST in
             let empty_list :=
               V3.set_value empty_list V3.PropertyValue_Clear in
             Ok (__new_v3_property v3_entity
                   (negb (V1.exclude_from_indexes v1_value)) empty_list)
           | V1.array_value values =>
             (fix sub_values (values : list V1.Value)
                  (v3_entity : V3.EntityProto) {struct values}
                : result V3.EntityProto :=
                match values with
                | [] => Ok v3_entity
                | v1_sub_value :: values' =>
                  let* v3_entity :=
                    add_converted property_name true v1_sub_value
                      v3_entity in
                  sub_values values' v3_entity
                end) values v3_entity
           | _ => add_converted property_name false v1_value v3_entity
           end in
         properties rest v3_entity
       end) (V1.properties v1_entity) EntityProto_Clear in
  match V1.key v1_entity with
  | Some v1_key =>
    let* v3_ref := v1_to_v3_reference v1_key in
    let* group := v3_reference_to_group v3_ref in
    Ok (V3.mkEntityProto (Some v3_ref) group
          (V3.property v3_entity) (V3.raw_property v3_entity))
  | None => Ok v3_entity
  end.

Definition v1_to_v3_property :=
  v1_to_v3_property_with v1_value_to_v3_property_value.

(** *** Filters *)

(** ['%d' % n]. *)
Definition format_d (n : Z) : text :=
  str (NilZero.string_of_int (Z.to_int n)).

Definition _v3_filter_to_v1_property_filter (depth : nat)
    (v3_filter : V3.Filter) : result V1.PropertyFilter :=
  let* _ := check_conversion
              (bool_decide (length (V3.f_property v3_filter) = 1%nat))
              (str "invalid filter") in
  let* _ := check_conversion (V3.op v3_filter <=? 5)
              (str "unsupported filter op: "
               ++ format_d (V3.op v3_filter)) in
  match V3.f_property v3_filter with
  | property_0 :: _ =>
    let* value := v3_property_to_v1_value depth property_0 true in
    Ok (V1.mkPropertyFilter (V3.op v3_filter) (V3.p_name property_0) value)
  | [] => Raise IndexError
  end.

Definition _v3_filter_to_v4_property_filter (depth : nat)
    (v3_filter : V3.Filter) : result V4.PropertyFilter :=
  let* _ := check_conversion
              (bool_decide (length (V3.f_property v3_filter) = 1%nat))
              (str "invalid filter") in
  let* _ := check_conversion (V3.op v3_filter <=? 5)
              (str "unsupported filter op: "
               ++ format_d (V3.op v3_filter)) in
  match V3.f_property v3_filter with
  | property_0 :: _ =>
    let* value := v3_property_to_v4_value depth property_0 true in
    Ok (V4.mkPropertyFilter (V3.op v3_filter) (V3.p_name property_0) value)
  | [] => Raise IndexError
  end.

(** *** The loops of the entity converters

    [v4_to_v3_entity] and [v1_to_v3_entity] above hold their loops as
    local functions; these are the same loops as functions of their
    own. *)

Definition __add_v3_property_from_v4 (property_name : text)
    (is_multi is_projection : bool) (v4_value : V4.Value)
    (v3_entity : V3.EntityProto) : result V3.EntityProto :=
  let* prop :=
    v4_to_v3_property property_name is_multi is_projection v4_value in
  Ok (__new_v3_property v3_entity (V4.indexed v4_value) prop).

(** [for v4_sub_value in v4_value.list_value]. *)
Fixpoint v4_list_value_to_v3 (property_name : text) (is_projection : bool)
    (values : list V4.Value) (v3_entity : V3.EntityProto)
  : result V3.EntityProto :=
  match values with
  | [] => Ok v3_entity
  | v4_sub_value :: values' =>
    let* v3_entity :=
      __add_v3_property_from_v4 property_name true is_projection
        v4_sub_value v3_entity in
    v4_list_value_to_v3 property_name is_projection values' v3_entity
  end.

(** [for v4_property in v4_entity.property]. *)
Fixpoint v4_properties_to_v3 (is_projection : bool)
    (props : list V4.Property) (v3_entity : V3.EntityProto)
  : result V3.EntityProto :=
  match props with
  | [] => Ok v3_entity
  | v4_property :: rest =>
    let property_name := V4.p_name v4_property in
    let v4_value := V4.value v4_property in
    let* v3_entity :=
      match V4.list_value v4_value with
      | [] =>
        __add_v3_property_from_v4 property_name false is_projection
          v4_value v3_entity
      | _ :: _ =>
        v4_list_value_to_v3 property_name is_projection
          (V4.list_value v4_value) v3_entity
      end in
    v4_properties_to_v3 is_projection rest v3_entity
  end.

(** A new Property in the list chosen by the flag of the v1 Value,
    populated by [v1_to_v3_property]. *)
Definition add_v3_property_from_v1 (property_name : text)
    (is_multi is_projection : bool) (v1_value : V1.Value)
    (v3_entity : V3.EntityProto) : result V3.EntityProto :=
  let* prop :=
    v1_to_v3_property property_name is_multi is_projection v1_value in
  Ok (__new_v3_property v3_entity
        (negb (V1.exclude_from_indexes v1_value)) prop).

(** [for v1_sub_value in v1_value.array_value.values]. *)
Fixpoint v1_array_value_to_v3 (property_name : text) (is_projection : bool)
    (values : list V1.Value) (v3_entity : V3.EntityProto)
  : result V3.EntityProto :=
  match values with
  | [] => Ok v3_entity
  | v1_sub_value :: values' =>
    let* v3_entity :=
      add_v3_property_from_v1 property_name true is_projection
        v1_sub_value v3_entity in
    v1_array_value_to_v3 property_name is_projection values' v3_entity
  end.

(** [for property_name, v1_value in six.iteritems(v1_entity.properties)]. *)
Fixpoint v1_properties_to_v3 (is_projection : bool)
    (items : list (text * V1.Value)) (v3_entity : V3.EntityProto)
  : result V3.EntityProto :=
  match items with
  | [] => Ok v3_entity
  | (property_name, v1_value) :: rest =>
    let* v3_entity :=
      match V1.value_type v1_value with
      | V1.array_value [] =>
        Ok (__new_v3_property v3_entity
              (negb (V1.exclude_from_indexes v1_value))
              (V3.mkProperty (Some MEANING_EMPTY_LIST) None property_name
                 V3.PropertyValue_Clear false))
      | V1.array_value values =>
        v1_array_value_to_v3 property_name is_projection values v3_entity
      | _ =>
        add_v3_property_from_v1 property_name false is_projection
          v1_value v3_entity
      end in
    v1_properties_to_v3 is_projection rest v3_entity
  end.

(** *** Lists of keys *)

Definition v4_to_v3_references (v4_keys : list V4.Key) : list V3.Reference :=
  List.map v4_to_v3_reference v4_keys.

Definition v3_to_v4_keys (v3_refs : list V3.Reference) : list V4.Key :=
  List.map v3_to_v4_key v3_refs.

Fixpoint v1_to_v3_references (v1_keys : list V1.Key)
  : result (list V3.Reference) :=
  match v1_keys with
  | [] => Ok []
  | v1_key :: rest =>
    let* v3_ref := v1_to_v3_reference v1_key in
    let* v3_refs := v1_to_v3_references rest in
    Ok (v3_ref :: v3_refs)
  end.

Fixpoint v3_to_v1_keys (v3_refs : list V3.Reference)
  : result (list V1.Key) :=
  match v3_refs with
  | [] => Ok []
  | v3_ref :: rest =>
    let* v1_key := v3_to_v1_key v3_ref in
    let* v1_keys := v3_to_v1_keys rest in
    Ok (v1_key :: v1_keys)
  end.

Definition project_to_app_id (project_id : text) : result text :=
  resolve_app_id id_resolver project_id.

Definition app_to_project_id (app_id : text) : result text :=
  resolve_project_id id_resolver app_id.

(** *** Keys as strings *)

(** [sep.join(strings)]. *)
Fixpoint join (sep : text) (strings : list text) : text :=
  match strings with
  | [] => []
  | s :: rest =>
    match rest with
    | [] => s
    | _ :: _ => s ++ sep ++ join sep rest
    end
  end.

(** [str(i)] for an [int]. *)
Definition str_int (i : Z) : text :=
  str (NilZero.string_of_int (Z.to_int i)).

Definition v4_key_to_string (v4_key : V4.Key) : text :=
  let path_element_strings :=
    List.map
      (fun path_element =>
         let id_or_name :=
           match V4.id path_element with
           | Some i => str_int i
           | None =>
             match V4.name path_element with
             | Some n => n
             | None => []
             end
           end in
         V4.kind path_element ++ str ": " ++ id_or_name)
      (V4.path_element v4_key) in
  str "[" ++ join (str ", ") path_element_strings ++ str "]".

Definition v1_key_to_string (v1_key : V1.Key) : text :=
  let path_element_strings :=
    List.map
      (fun path_element =>
         let id_or_name :=
           match V1.id_type path_element with
           | V1.id i => str_int i
           | V1.name n => n
           | V1.id_type_not_set => []
           end in
         V1.kind path_element ++ str ": " ++ id_or_name)
      (V1.path v1_key) in
  str "[" ++ join (str ", ") path_element_strings ++ str "]".

(** ** Statements of the specification

    The definitions of this part follow the words of the specification;
    the properties below compare them with the converter. *)

(** "Its final path element carries an id or a non-empty name", v1. *)
Definition spec_complete_v1 (v1_key : V1.Key) : bool :=
  match last (V1.path v1_key) with
  | Some last_element =>
    match V1.id_type last_element with
    | V1.id _ => true
    | V1.name n => nonempty n
    | V1.id_type_not_set => false
    end
  | None => false
  end.

(** "Its final path element carries an id or a non-empty name", v3. *)
Definition spec_complete_v3 (v3_key : V3.Reference) : bool :=
  match last (V3.path v3_key) with
  | Some last_element =>
    has (V3.id last_element)
    || nonempty (V3.get_text (V3.name last_element))
  | None => false
  end.

(** "The ordered path-element sequence converted verbatim": every
    element's kind, and its id and name as they are populated. *)
Definition spec_path_v4 (v3_ref : V3.Reference) (v4_key : V4.Key) : Prop :=
  V4.path_element v4_key =
  List.map (fun e => V4.mkPathElement (V3.get_text (V3.type e))
                                      (V3.id e) (V3.name e))
           (V3.path v3_ref).

Definition spec_path_v1 (v3_ref : V3.Reference) (v1_key : V1.Key) : Prop :=
  V1.path v1_key =
  List.map (fun e => V1.mkPathElement (V3.get_text (V3.type e))
                       match V3.name e, V3.id e with
                       | Some n, _ => V1.name n
                       | None, Some i => V1.id i
                       | None, None => V1.id_type_not_set
                       end)
           (V3.path v3_ref).

(** A [str] that [encode('utf-8')] accepts: it holds code points only
    and no surrogate.  A proto string field holds no other string. *)
Definition is_text (t : text) : bool :=
  match Utf8.encode t with
  | Ok _ => true
  | Raise _ => false
  end.

(** "A scalar value of unambiguous type": a boolean, a double or a
    valid-UTF-8 string, with no special meaning and no meaning_uri. *)
Definition unambiguous_scalar (p : V3.Property) : Prop :=
  V3.get_int (V3.meaning p) = V3.NO_MEANING /\
  V3.get_text (V3.meaning_uri p) = [] /\
  ((exists b, V3.value p = V3.set_booleanValue V3.PropertyValue_Clear b) \/
   (exists d, V3.value p = V3.set_doubleValue V3.PropertyValue_Clear d) \/
   (exists s, V3.value p = V3.set_stringValue V3.PropertyValue_Clear s /\
              is_valid_utf8 s = true)).

(** "Its stringValue holds the bytes [s], which are not valid UTF-8, and
    its meaning selects none of the entity, blob and bytestring
    branches": no field tested before [stringValue] is set and the
    meaning the converter retains is none of the three. *)
Definition non_utf8_string (p : V3.Property) (s : bytes) : Prop :=
  V3.booleanValue (V3.value p) = None /\
  V3.int64Value (V3.value p) = None /\
  V3.doubleValue (V3.value p) = None /\
  V3.referencevalue (V3.value p) = None /\
  V3.stringValue (V3.value p) = Some s /\
  is_valid_utf8 s = false /\
  meaning_is (fst (v3_meaning_and_zlib p)) V3.ENTITY_PROTO = false /\
  meaning_is (fst (v3_meaning_and_zlib p)) V3.BLOB = false /\
  meaning_is (fst (v3_meaning_and_zlib p)) V3.BYTESTRING = false.

(** "A string-typed legacy value with the bytes [s]". *)
Definition string_typed (v : V3.PropertyValue) (s : bytes) : Prop :=
  v = V3.set_stringValue V3.PropertyValue_Clear s.

(** The meaning a blob receives on its way back to v3. *)
Definition blob_meaning (indexed is_projection : bool) : Z :=
  if is_projection then V3.INDEX_VALUE
  else if indexed then V3.BYTESTRING else V3.BLOB.

(** ** A runtime for the examples

    A wire codec that reads the empty string as the entity with no field
    and rejects every other string, and that writes every entity as the
    empty string; timestamp helpers that split microseconds into seconds
    and nanoseconds. *)
Definition example_Parse (s : bytes) : result V3.EntityProto :=
  match s with
  | [] => Ok EntityProto_Clear
  | _ => Raise DecodeError
  end.
Definition example_Serialize (e : V3.EntityProto) : bytes := [].
Definition example_micros_to_timestamp (micros : Z) : V1.Timestamp :=
  V1.mkTimestamp (micros / 1000000) (micros mod 1000000 * 1000).
Definition example_micros_from_timestamp (t : V1.Timestamp) : Z :=
  V1.seconds t * 1000000 + V1.nanos t / 1000.

(** Every string field of a user value is a [str] that encodes. *)
Definition opt_is_text (f : option text) : bool :=
  match f with
  | Some t => is_text t
  | None => true
  end.

Definition user_is_text (u : V3.UserValue) : bool :=
  is_text (V3.email u) && is_text (V3.auth_domain u)
  && opt_is_text (V3.obfuscated_gaiaid u)
  && opt_is_text (V3.federated_identity u)
  && opt_is_text (V3.federated_provider u).

(** The v3 form of an explicitly empty list: a Property with the
    reserved meaning, not multiple, with a cleared value. *)
Definition v3_empty_list (property_name : text) : V3.Property :=
  V3.mkProperty (Some MEANING_EMPTY_LIST) None property_name
                V3.PropertyValue_Clear false.

(** The v3 entity whose only property is [p], stored in [property] when
    it is indexed and in [raw_property] when it is not. *)
Definition v3_entity_of (p : V3.Property) (indexed : bool)
  : V3.EntityProto :=
  V3.mkEntityProto None []
    (if indexed then [p] else []) (if indexed then [] else [p]).

(** The v4 form of an explicitly empty list: a Value with the reserved
    meaning and nothing else but the flag. *)
Definition v4_empty_list (indexed : bool) : V4.Value :=
  V4.mkValue None None None None None None None None None None []
             (Some MEANING_EMPTY_LIST) (if indexed then None else Some false).

(** The Property holds a serialized entity: [stringValue] is the field
    the converter selects and the retained meaning is ENTITY_PROTO.  Only
    then does the conversion of the value parse bytes and recurse. *)
Definition embeds_entity (p : V3.Property) : bool :=
  negb (has (V3.booleanValue (V3.value p)))
  && negb (has (V3.int64Value (V3.value p)))
  && negb (has (V3.doubleValue (V3.value p)))
  && negb (has (V3.referencevalue (V3.value p)))
  && has (V3.stringValue (V3.value p))
  && meaning_is (fst (v3_meaning_and_zlib p)) V3.ENTITY_PROTO.

(** "The assignment of the flag is executed": the destination field has
    been written, which a proto2 message records as field presence. *)
Definition spec_indexed_written (v4_value : V4.Value) : Prop :=
  V4.indexed_field v4_value <> None.

(** ** Inputs of the examples *)

(** Properties with one value and no meaning: a boolean, the UTF-8
    string of U+03B1, and two bytes that are not UTF-8. *)
Definition example_boolean : V3.Property :=
  V3.mkProperty None None (str "done")
    (V3.set_booleanValue V3.PropertyValue_Clear true) false.
Definition example_string : V3.Property :=
  V3.mkProperty None None (str "title")
    (V3.set_stringValue V3.PropertyValue_Clear [206; 177]) false.
Definition example_binary : V3.Property :=
  V3.mkProperty None None (str "payload")
    (V3.set_stringValue V3.PropertyValue_Clear [255; 254]) false.

(** The same bytes under the empty-list meaning. *)
Definition example_binary_empty_list : V3.Property :=
  V3.mkProperty (Some V3.EMPTY_LIST) None (str "payload")
    (V3.set_stringValue V3.PropertyValue_Clear [255; 254]) false.

(** A user with the three required fields and no optional field. *)
Definition example_user : V3.UserValue :=
  V3.mkUserValue (str "ann@example.com") (str "example.com") None 42
                 None None None.

(** A reference with an app, and the same path under no app. *)
Definition example_path : list V3.Element :=
  [ V3.mkElement (Some (str "Parent")) (Some 7) None;
    V3.mkElement (Some (str "Child")) None (Some (str "leaf")) ].
Definition example_reference : V3.Reference :=
  V3.mkReference (Some (str "s~myapp")) (Some (str "ns")) example_path.
Definition example_reference_no_app : V3.Reference :=
  V3.mkReference None None example_path.

(** Keys whose final element has an empty name (v1) and the id 0 (v3). *)
Definition example_v1_key_empty_name : V1.Key :=
  V1.mkKey None [V1.mkPathElement (str "Kind") (V1.name [])].
Definition example_v3_key_zero_id : V3.Reference :=
  V3.mkReference (Some (str "s~myapp")) None
    [V3.mkElement (Some (str "Kind")) (Some 0) None].

(** Filters: one property and EQUAL; two properties; one property and
    the operator 6. *)
Definition example_filter : V3.Filter := V3.mkFilter 5 [example_boolean].
Definition example_filter_two : V3.Filter :=
  V3.mkFilter 5 [example_boolean; example_string].
Definition example_filter_op_6 : V3.Filter :=
  V3.mkFilter 6 [example_boolean].

(** ** Shapes of keys

    The keys that the converters map without loss. *)

(** An optional string field that is not set to the empty string. *)
Definition unset_or_nonempty (f : option text) : bool :=
  match f with
  | Some s => nonempty s
  | None => true
  end.

(** A v3 Reference with a non-empty app, no empty name_space, and a type
    in every path element. *)
Definition v3_key_for_v4 (v3_ref : V3.Reference) : bool :=
  nonempty (V3.get_text (V3.app v3_ref))
  && unset_or_nonempty (V3.name_space v3_ref)
  && forallb (fun e => has (V3.type e)) (V3.path v3_ref).

(** A v4 Key with a partition id that holds a non-empty dataset id and no
    empty namespace. *)
Definition v4_key_for_v3 (v4_key : V4.Key) : bool :=
  match V4.partition_id v4_key with
  | Some partition_id =>
    nonempty (V3.get_text (V4.dataset_id partition_id))
    && unset_or_nonempty (V4.namespace partition_id)
  | None => false
  end.

(** A v3 path element that a v1 element can hold: its type is set, its
    strings encode, and it has no id beside a name (the two share a
    oneof in v1). *)
Definition v3_element_for_v1 (e : V3.Element) : bool :=
  match V3.type e with
  | Some t => is_text t
  | None => false
  end
  && match V3.name e with
     | Some n => is_text n && negb (has (V3.id e))
     | None => true
     end.

Definition v3_key_for_v1 (v3_ref : V3.Reference) : bool :=
  nonempty (V3.get_text (V3.app v3_ref))
  && unset_or_nonempty (V3.name_space v3_ref)
  && forallb v3_element_for_v1 (V3.path v3_ref).

(** A v1 path element whose strings encode. *)
Definition v1_element_is_text (e : V1.PathElement) : bool :=
  is_text (V1.kind e)
  && match V1.id_type e with
     | V1.name n => is_text n
     | _ => true
     end.

(** No id beside a name. *)
Definition id_xor_name (e : V3.Element) : bool :=
  negb (has (V3.id e) && has (V3.name e)).

(** Keys for the examples. *)
Definition example_v4_key : V4.Key :=
  V4.mkKey (Some (V4.mkPartitionId (Some (str "s~myapp")) (Some (str "ns"))))
    [ V4.mkPathElement (str "Parent") (Some 7) None;
      V4.mkPathElement (str "Child") None (Some (str "leaf")) ].
Definition example_v1_key : V1.Key :=
  V1.mkKey (Some (V1.mkPartitionId (str "myapp") (str "ns")))
    [ V1.mkPathElement (str "Parent") (V1.id 7);
      V1.mkPathElement (str "Child") (V1.name (str "leaf")) ].

(** ** Round trips of one Property

    The Property comes back unchanged from the modern Value it converts
    to, when the Value is converted under the name and the [multiple]
    flag of the Property. *)
Definition round_trips_v4 (depth : nat) (p : V3.Property) (indexed : bool)
  : Prop :=
  exists v4_value,
    v3_property_to_v4_value depth p indexed = Ok v4_value /\
    v4_to_v3_property (V3.p_name p) (V3.multiple p) false v4_value = Ok p.

Definition round_trips_v1 (depth : nat) (p : V3.Property) (indexed : bool)
  : Prop :=
  exists v1_value,
    v3_property_to_v1_value depth p indexed = Ok v1_value /\
    v1_to_v3_property (V3.p_name p) (V3.multiple p) false v1_value = Ok p.

(** The Property without its meaning, and without its meaning_uri too. *)
Definition without_meaning (p : V3.Property) : V3.Property :=
  V3.mkProperty None (V3.meaning_uri p) (V3.p_name p) (V3.value p)
                (V3.multiple p).
Definition without_meanings (p : V3.Property) : V3.Property :=
  V3.mkProperty None None (V3.p_name p) (V3.value p) (V3.multiple p).

(** The meanings of the table [value_checkers] that ask for a string,
    other than the three that select the blob and entity branches. *)
Definition string_meaning (m : Z) : bool :=
  match checkers_get value_checkers m ReturnFalse with
  | HasStringValue =>
    negb (m =? V3.BLOB) && negb (m =? V3.BYTESTRING)
    && negb (m =? V3.ENTITY_PROTO)
  | _ => false
  end.

(** ** The values of a modern entity

    The values of the properties of a v4 entity in order, a list value
    replaced by its elements; each comes with the name of its property
    and with whether it is the element of a list. *)
Fixpoint v4_entity_values (props : list V4.Property)
  : list (text * bool * V4.Value) :=
  match props with
  | [] => []
  | v4_property :: rest =>
    match V4.list_value (V4.value v4_property) with
    | [] => [(V4.p_name v4_property, false, V4.value v4_property)]
    | _ :: _ =>
      List.map (fun v => (V4.p_name v4_property, true, v))
               (V4.list_value (V4.value v4_property))
    end ++ v4_entity_values rest
  end.

(** The v3 Property of one of these values. *)
Definition v4_entity_value_to_v3 (is_projection : bool)
    (named : text * bool * V4.Value) : result V3.Property :=
  let '(property_name, is_multi, v4_value) := named in
  v4_to_v3_property property_name is_multi is_projection v4_value.

(** The flag of one of these values. *)
Definition v4_entity_value_indexed (named : text * bool * V4.Value) : bool :=
  V4.indexed (snd named).

(** The values of the properties of a v1 entity in order, an array with
    elements replaced by its elements. *)
Fixpoint v1_entity_values (items : list (text * V1.Value))
  : list (text * bool * V1.Value) :=
  match items with
  | [] => []
  | (property_name, v1_value) :: rest =>
    match V1.value_type v1_value with
    | V1.array_value ((_ :: _) as values) =>
      List.map (fun v => (property_name, true, v)) values
    | _ => [(property_name, false, v1_value)]
    end ++ v1_entity_values rest
  end.

(** The v3 Property of one of these values: that of an array with no
    element is the empty-list Property. *)
Definition v1_entity_value_to_v3 (is_projection : bool)
    (named : text * bool * V1.Value) : result V3.Property :=
  let '(property_name, is_multi, v1_value) := named in
  if is_multi then
    v1_to_v3_property property_name true is_projection v1_value
  else
    match V1.value_type v1_value with
    | V1.array_value [] => Ok (v3_empty_list property_name)
    | _ => v1_to_v3_property property_name false is_projection v1_value
    end.

Definition v1_entity_value_indexed (named : text * bool * V1.Value) : bool :=
  negb (V1.exclude_from_indexes (snd named)).

(** What a run of conversions adds to the v3 entity under construction:
    the Property of every indexed value at the end of [property], that
    of every other value at the end of [raw_property], in order, and
    nothing else. *)
Definition v3_entity_extends {J : Type} (convert : J -> result V3.Property)
    (indexed : J -> bool) (values : list J) (acc e : V3.EntityProto)
  : Prop :=
  V3.key e = V3.key acc /\
  V3.entity_group e = V3.entity_group acc /\
  exists ps raws,
    V3.property e = V3.property acc ++ ps /\
    V3.raw_property e = V3.raw_property acc ++ raws /\
    Forall2 (fun named p => convert named = Ok p)
            (List.filter indexed values) ps /\
    Forall2 (fun named p => convert named = Ok p)
            (List.filter (fun named => negb (indexed named)) values) raws.

(** ** Entities under construction

    The dict [v4_properties] of [v3_to_v4_entity] holds the position of
    every property of the v4 entity under construction, by name. *)
Definition v4_state_ok (state : list V4.Property * gmap text nat) : Prop :=
  forall n i,
    snd state !! n = Some i <-> (V4.p_name <$> fst state) !! i = Some n.

(** The v3 entity with more Properties at the end of [property] or of
    [raw_property]. *)
Definition v3_entity_append (indexed : bool) (e : V3.EntityProto)
    (ps : list V3.Property) : V3.EntityProto :=
  if indexed then
    V3.mkEntityProto (V3.key e) (V3.entity_group e)
      (V3.property e ++ ps) (V3.raw_property e)
  else
    V3.mkEntityProto (V3.key e) (V3.entity_group e)
      (V3.property e) (V3.raw_property e ++ ps).

(** ** Entities that survive the round trip through v4

    The Properties of the entity come in groups: a group is one Property,
    or several Properties of one name that are all multiple; every
    Property of a group comes back unchanged from its v4 Value. *)
Definition v3_group_name (group : list V3.Property) : text :=
  match group with
  | p :: _ => V3.p_name p
  | [] => []
  end.

Definition v3_group_ok (depth : nat) (indexed : bool)
    (group : list V3.Property) : Prop :=
  group <> [] /\
  Forall (fun p => V3.p_name p = v3_group_name group /\
                   round_trips_v4 depth p indexed) group /\
  (Forall (fun p => V3.multiple p = true) group \/
   exists p, group = [p] /\ V3.multiple p = false).

(** The key, when there is one, is a Reference that survives the round
    trip, with a path, and the entity group is its first element. *)
Definition v3_entity_key_ok (e : V3.EntityProto) : Prop :=
  match V3.key e with
  | Some v3_ref =>
    v3_key_for_v4 v3_ref = true /\ V3.path v3_ref <> [] /\
    V3.entity_group e = take 1 (V3.path v3_ref)
  | None => V3.entity_group e = []
  end.

(** ** Entities that survive the round trip through v1

    As for v4: groups of Properties that come back unchanged from their
    v1 Values, and a key that comes back unchanged from its v1 Key. *)
Definition v3_group_ok_v1 (depth : nat) (indexed : bool)
    (group : list V3.Property) : Prop :=
  group <> [] /\
  Forall (fun p => V3.p_name p = v3_group_name group /\
                   round_trips_v1 depth p indexed) group /\
  (Forall (fun p => V3.multiple p = true) group \/
   exists p, group = [p] /\ V3.multiple p = false).

Definition v3_entity_key_ok_v1 (e : V3.EntityProto) : Prop :=
  match V3.key e with
  | Some v3_ref =>
    has (V3.app v3_ref) = true /\
    (exists v1_key,
        v3_to_v1_key v3_ref = Ok v1_key /\
        v1_to_v3_reference v1_key = Ok v3_ref) /\
    V3.path v3_ref <> [] /\
    V3.entity_group e = take 1 (V3.path v3_ref)
  | None => V3.entity_group e = []
  end.

(** ** Entities for the examples *)

(** The resolver built from the application id ["s~myapp"]. *)
Definition example_resolver : IdResolver :=
  TableIdResolver (<[str "myapp" := str "s~myapp"]> ∅).

Definition example_int_property (name : string) (i : Z) (multiple : bool)
  : V3.Property :=
  V3.mkProperty None None (str name)
    (V3.set_int64Value V3.PropertyValue_Clear i) multiple.

(** A v3 entity with a key, an integer, a list of two integers and a
    string that is not indexed. *)
Definition example_groups : list (list V3.Property) :=
  [ [example_int_property "count" 3 false];
    [example_int_property "scores" 1 true;
     example_int_property "scores" 2 true] ].
Definition example_raw_groups : list (list V3.Property) :=
  [ [example_string] ].
Definition example_v3_entity : V3.EntityProto :=
  V3.mkEntityProto (Some example_reference)
    [V3.mkElement (Some (str "Parent")) (Some 7) None]
    (concat example_groups) (concat example_raw_groups).

(** The same entity in v4, and a v1 entity with an empty array. *)
Definition example_v4_entity : V4.Entity :=
  V4.mkEntity (Some example_v4_key)
    [ V4.mkProperty (str "count")
        (V4.set_integer_value V4.Value_Clear 3);
      V4.mkProperty (str "scores")
        (V4.set_list_value V4.Value_Clear
           [V4.set_integer_value V4.Value_Clear 1;
            V4.set_integer_value V4.Value_Clear 2]);
      V4.mkProperty (str "title")
        (V4.set_string_value (V4.set_indexed V4.Value_Clear false)
           [945]) ].
Definition example_v1_entity : V1.Entity :=
  V1.mkEntity (Some example_v1_key)
    [ (str "count", V1.mkValue (V1.integer_value 3) 0 false);
      (str "scores",
       V1.mkValue (V1.array_value
                     [V1.mkValue (V1.integer_value 1) 0 false;
                      V1.mkValue (V1.integer_value 2) 0 true]) 0 false);
      (str "tags", V1.mkValue (V1.array_value []) 0 false) ].

(** Properties whose meaning the value cannot carry: two value fields
    under TEXT and ["ZLIB"], and a string under GD_WHEN. *)
Definition example_two_values : V3.Property :=
  V3.mkProperty (Some V3.TEXT) (Some URI_MEANING_ZLIB) (str "both")
    (V3.set_int64Value
       (V3.set_booleanValue V3.PropertyValue_Clear true) 5) false.
Definition example_string_when : V3.Property :=
  V3.mkProperty (Some V3.GD_WHEN) None (str "title")
    (V3.set_stringValue V3.PropertyValue_Clear [206; 177]) false.

(** A reference value with an app and a path. *)
Definition example_reference_value : V3.ReferenceValue :=
  V3.mkReferenceValue (Some (str "s~myapp")) (Some (str "ns")) example_path.

(** A v1 Key of a project that [example_resolver] does not know. *)
Definition example_v1_key_other : V1.Key :=
  V1.mkKey (Some (V1.mkPartitionId (str "other") []))
    [V1.mkPathElement (str "Kind") (V1.id 1)].

(** * Properties *)

(** A proof that calls an arithmetic solver first drops the runtime of
    the section, which the solver would otherwise generalise. *)
Local Ltac no_runtime :=
  clear id_resolver ParsePartialFromString ParseFromString
        SerializePartialToString micros_to_timestamp micros_from_timestamp.

(** ** The UTF-8 codec *)

Section Utf8Facts.

Local Ltac Zify.zify_post_hook ::= Z.to_euclidean_division_equations.

Local Ltac bool_to_prop :=
  repeat match goal with
  | H : _ && _ = true |- _ => apply andb_prop in H; destruct H
  | H : negb _ = true |- _ => apply negb_true_iff in H
  end.

Lemma encode_char_decode (c : Z) (bs rest : bytes) :
  Utf8.encode_char c = Some bs ->
  Utf8.decode (bs ++ rest) = option_map (cons c) (Utf8.decode rest).
Proof. no_runtime.
  unfold Utf8.encode_char, Utf8.is_surrogate.
  destruct ((0 <=? c) && (c <=? 127)) eqn:H1.
  { intros [= <-]. cbn [app Utf8.decode]. rewrite H1. reflexivity. }
  destruct ((128 <=? c) && (c <=? 2047)) eqn:H2.
  { intros [= <-]. cbn [app Utf8.decode]. unfold Utf8.is_cont.
    replace ((0 <=? 192 + c / 64) && (192 + c / 64 <=? 127)) with false by lia.
    replace ((194 <=? 192 + c / 64) && (192 + c / 64 <=? 223)) with true by lia.
    replace ((128 <=? 128 + c mod 64) && (128 + c mod 64 <=? 191)) with true by lia.
    do 2 f_equal. lia. }
  destruct ((2048 <=? c) && (c <=? 65535)) eqn:H3.
  { destruct ((55296 <=? c) && (c <=? 57343)) eqn:H4; [discriminate|].
    intros [= <-]. cbn [app Utf8.decode]. unfold Utf8.is_cont, Utf8.is_surrogate.
    replace ((0 <=? 224 + c / 4096) && (224 + c / 4096 <=? 127)) with false by lia.
    replace ((194 <=? 224 + c / 4096) && (224 + c / 4096 <=? 223)) with false by lia.
    replace ((224 <=? 224 + c / 4096) && (224 + c / 4096 <=? 239)) with true by lia.
    replace ((224 + c / 4096 - 224) * 4096 + (128 + (c / 64) mod 64 - 128) * 64
             + (128 + c mod 64 - 128)) with c by lia.
    apply andb_prop in H3 as [Ha Hb]. rewrite Ha, H4.
    replace ((128 <=? 128 + (c / 64) mod 64) && (128 + (c / 64) mod 64 <=? 191)) with true by lia.
    replace ((128 <=? 128 + c mod 64) && (128 + c mod 64 <=? 191)) with true by lia.
    reflexivity. }
  destruct ((65536 <=? c) && (c <=? 1114111)) eqn:H4; [|discriminate].
  intros [= <-]. cbn [app Utf8.decode]. unfold Utf8.is_cont.
  replace ((0 <=? 240 + c / 262144) && (240 + c / 262144 <=? 127)) with false by lia.
  replace ((194 <=? 240 + c / 262144) && (240 + c / 262144 <=? 223)) with false by lia.
  replace ((224 <=? 240 + c / 262144) && (240 + c / 262144 <=? 239)) with false by lia.
  replace ((240 <=? 240 + c / 262144) && (240 + c / 262144 <=? 244)) with true by lia.
  replace ((240 + c / 262144 - 240) * 262144 + (128 + (c / 4096) mod 64 - 128) * 4096
           + (128 + (c / 64) mod 64 - 128) * 64 + (128 + c mod 64 - 128)) with c by lia.
  replace ((128 <=? 128 + (c / 4096) mod 64) && (128 + (c / 4096) mod 64 <=? 191)) with true by lia.
  replace ((128 <=? 128 + (c / 64) mod 64) && (128 + (c / 64) mod 64 <=? 191)) with true by lia.
  replace ((128 <=? 128 + c mod 64) && (128 + c mod 64 <=? 191)) with true by lia.
  apply andb_prop in H4 as [Ha Hb]. rewrite Ha, Hb. reflexivity.
Qed.

Lemma decode_encode (t : text) (bs : bytes) :
  Utf8.encode t = Ok bs -> Utf8.decode bs = Some t.
Proof.
  revert bs. induction t as [|c t IH]; intros bs; cbn [Utf8.encode].
  - intros [= <-]. reflexivity.
  - destruct (Utf8.encode_char c) as [pre|] eqn:Hc; [|discriminate].
    destruct (Utf8.encode t) as [rest|] eqn:Ht; cbn; [|discriminate].
    intros [= <-]. rewrite (encode_char_decode _ _ _ Hc), (IH rest eq_refl).
    reflexivity.
Qed.

(** One step of the decoder: a successful decoding splits off the
    encoding of its first code point. *)
Lemma decode_cons (b0 : Z) (r0 : bytes) (t : text) :
  Utf8.decode (b0 :: r0) = Some t ->
  exists c pre rest t',
    b0 :: r0 = pre ++ rest /\ t = c :: t' /\
    Utf8.encode_char c = Some pre /\ Utf8.decode rest = Some t' /\
    (length rest < length (b0 :: r0))%nat.
Proof. no_runtime.
  cbn [Utf8.decode].
  destruct ((0 <=? b0) && (b0 <=? 127)) eqn:H1.
  { destruct (Utf8.decode r0) as [t'|] eqn:Hr; [|discriminate].
    intros [= <-]. exists b0, [b0], r0, t'.
    repeat split; auto; try (cbn; lia).
    unfold Utf8.encode_char. rewrite H1. reflexivity. }
  destruct ((194 <=? b0) && (b0 <=? 223)) eqn:H2.
  { destruct r0 as [|b1 r1]; [discriminate|].
    unfold Utf8.is_cont.
    destruct ((128 <=? b1) && (b1 <=? 191)) eqn:Hb1; [|discriminate].
    destruct (Utf8.decode r1) as [t'|] eqn:Hr; [|discriminate].
    intros [= <-].
    exists ((b0 - 192) * 64 + (b1 - 128)), [b0; b1], r1, t'.
    repeat split; auto; try (cbn; lia).
    unfold Utf8.encode_char.
    set (c := (b0 - 192) * 64 + (b1 - 128)).
    replace ((0 <=? c) && (c <=? 127)) with false by (subst c; lia).
    replace ((128 <=? c) && (c <=? 2047)) with true by (subst c; lia).
    do 3 f_equal; subst c; lia. }
  destruct ((224 <=? b0) && (b0 <=? 239)) eqn:H3.
  { destruct r0 as [|b1 [|b2 r2]]; [discriminate..|].
    cbv zeta. unfold Utf8.is_cont, Utf8.is_surrogate.
    set (c := (b0 - 224) * 4096 + (b1 - 128) * 64 + (b2 - 128)).
    destruct ((128 <=? b1) && (b1 <=? 191)) eqn:Hb1; [|discriminate].
    destruct ((128 <=? b2) && (b2 <=? 191)) eqn:Hb2; [|discriminate].
    destruct (2048 <=? c) eqn:Hlo; [|discriminate].
    destruct ((55296 <=? c) && (c <=? 57343)) eqn:Hs; [discriminate|].
    cbn [andb negb].
    destruct (Utf8.decode r2) as [t'|] eqn:Hr; [|discriminate].
    intros [= <-]. exists c, [b0; b1; b2], r2, t'.
    repeat split; auto; try (cbn; lia).
    unfold Utf8.encode_char, Utf8.is_surrogate. rewrite Hs.
    replace ((0 <=? c) && (c <=? 127)) with false by (subst c; lia).
    replace ((128 <=? c) && (c <=? 2047)) with false by (subst c; lia).
    replace ((2048 <=? c) && (c <=? 65535)) with true by (subst c; lia).
    do 2 f_equal; [|f_equal; [|f_equal]]; subst c; lia. }
  destruct ((240 <=? b0) && (b0 <=? 244)) eqn:H4; [|discriminate].
  destruct r0 as [|b1 [|b2 [|b3 r3]]]; [discriminate..|].
  cbv zeta. unfold Utf8.is_cont.
  set (c := (b0 - 240) * 262144 + (b1 - 128) * 4096 + (b2 - 128) * 64 + (b3 - 128)).
  destruct ((128 <=? b1) && (b1 <=? 191)) eqn:Hb1; [|discriminate].
  destruct ((128 <=? b2) && (b2 <=? 191)) eqn:Hb2; [|discriminate].
  destruct ((128 <=? b3) && (b3 <=? 191)) eqn:Hb3; [|discriminate].
  destruct (65536 <=? c) eqn:Hlo; [|discriminate].
  destruct (c <=? 1114111) eqn:Hhi; [|discriminate].
  cbn [andb].
  destruct (Utf8.decode r3) as [t'|] eqn:Hr; [|discriminate].
  intros [= <-]. exists c, [b0; b1; b2; b3], r3, t'.
  repeat split; auto; try (cbn; lia).
  unfold Utf8.encode_char.
  replace ((0 <=? c) && (c <=? 127)) with false by (subst c; lia).
  replace ((128 <=? c) && (c <=? 2047)) with false by (subst c; lia).
  replace ((2048 <=? c) && (c <=? 65535)) with false by (subst c; lia).
  rewrite Hlo, Hhi. cbn [andb].
  do 2 f_equal; [|f_equal; [|f_equal; [|f_equal]]]; subst c; lia.
Qed.

Lemma encode_decode (bs : bytes) (t : text) :
  Utf8.decode bs = Some t -> Utf8.encode t = Ok bs.
Proof. no_runtime.
  remember (length bs) as n eqn:Hn. revert bs t Hn.
  induction n as [n IH] using lt_wf_ind. intros bs t Hn Hd.
  destruct bs as [|b0 r0].
  - cbn in Hd. injection Hd as <-. reflexivity.
  - apply decode_cons in Hd as (c & pre & rest & t' & Hsplit & -> & Hc & Hr & Hlen).
    cbn [Utf8.encode]. rewrite Hc.
    rewrite (IH (length rest) ltac:(lia) rest t' eq_refl Hr). cbn.
    rewrite Hsplit. reflexivity.
Qed.

End Utf8Facts.

(** ** The identifier resolver *)

Lemma rsplit_pieces (sep : Z) (s : text) :
  exists pieces piece,
    rsplit sep s = pieces ++ [piece] /\ (sep ∉ piece) /\
    (pieces = [] -> s = piece) /\
    (pieces <> [] -> exists prefix, s = prefix ++ sep :: piece).
Proof.
  induction s as [|c s (pieces & piece & Hsplit & Hsep & Hnil & Hcons)];
    cbn [rsplit].
  - exists [], []. split; [reflexivity|]. split; [apply not_elem_of_nil|].
    split; [reflexivity | congruence].
  - destruct (c =? sep) eqn:Hc.
    + apply Z.eqb_eq in Hc as ->. exists ([] :: pieces), piece.
      rewrite Hsplit. split; [reflexivity|]. split; [assumption|].
      split; [discriminate|]. intros _.
      destruct pieces as [|p ps].
      * exists []. by rewrite (Hnil eq_refl).
      * destruct (Hcons ltac:(discriminate)) as [prefix ->].
        by exists (sep :: prefix).
    + apply Z.eqb_neq in Hc. rewrite Hsplit.
      destruct pieces as [|p ps]; cbn [app].
      * exists [], (c :: piece). split; [reflexivity|]. split.
        -- rewrite not_elem_of_cons. split; [congruence | assumption].
        -- split; [|congruence]. intros _. by rewrite (Hnil eq_refl).
      * exists ((c :: p) :: ps), piece. split; [reflexivity|].
        split; [assumption|]. split; [discriminate|]. intros _.
        destruct (Hcons ltac:(discriminate)) as [prefix ->].
        by exists (c :: prefix).
Qed.

Lemma rsplit_last (sep : Z) (s : text) :
  exists piece,
    last (rsplit sep s) = Some piece /\ (sep ∉ piece) /\
    (s = piece \/ exists prefix, s = prefix ++ sep :: piece).
Proof.
  destruct (rsplit_pieces sep s) as (pieces & piece & -> & Hsep & Hnil & Hcons).
  exists piece. split; [apply last_snoc|]. split; [assumption|].
  destruct pieces as [|p ps]; [left; by apply Hnil|].
  right. apply Hcons. discriminate.
Qed.

Lemma resolve_project_id_total (r : IdResolver) (app_id : text) :
  exists project_id, resolve_project_id r app_id = Ok project_id.
Proof.
  destruct r as [m|]; cbn; [|by eexists].
  destruct (rsplit_last tilde app_id) as (piece & Hlast & _).
  exists piece. unfold index_last. by rewrite Hlast.
Qed.

Lemma IdResolver_init_loop_spec (app_ids : list text) (m : gmap text text) :
  exists m',
    IdResolver_init_loop m app_ids = Ok m' /\
    forall project_id app_id,
      m' !! project_id = Some app_id ->
      m !! project_id = Some app_id \/
      (app_id ∈ app_ids /\
       resolve_project_id (TableIdResolver ∅) app_id = Ok project_id).
Proof.
  revert m. induction app_ids as [|a app_ids IH]; intros m; cbn [IdResolver_init_loop].
  - exists m. split; [reflexivity|]. intros ? ? ?. by left.
  - destruct (resolve_project_id_total (TableIdResolver ∅) a) as [p Hp].
    rewrite Hp. cbn [bind].
    destruct (IH (<[p:=a]> m)) as (m' & Hm' & Hlookup).
    exists m'. split; [exact Hm'|].
    intros project_id app_id Hin.
    destruct (Hlookup _ _ Hin) as [Hm|[Hel Hres]].
    + destruct (decide (p = project_id)) as [->|Hne].
      * rewrite lookup_insert_eq in Hm. injection Hm as <-.
        right. split; [apply list_elem_of_here | exact Hp].
      * rewrite lookup_insert_ne in Hm by done. by left.
    + right. split; [by apply list_elem_of_further | exact Hres].
Qed.

(** C9: [resolve_project_id] always returns, and returns the part of its
    argument after the last ['~'] (the whole argument when there is
    none); [resolve_project_id("s~myapp")] is ["myapp"]; on the resolver
    built from [["s~myapp"]], [resolve_app_id("myapp")] is ["s~myapp"];
    and [resolve_app_id] of a project id that no application id of the
    construction list resolves to raises [InvalidConversionError] with a
    message that names the id, as it does for ["unknown"]. *)
Theorem id_resolver_resolution :
  (forall (m : gmap text text) (app_id : text),
      exists project_id,
        resolve_project_id (TableIdResolver m) app_id = Ok project_id /\
        (tilde ∉ project_id) /\
        (app_id = project_id \/
         exists prefix, app_id = prefix ++ tilde :: project_id)) /\
  resolve_project_id (TableIdResolver ∅) (str "s~myapp") = Ok (str "myapp") /\
  (exists r,
      IdResolver_init [str "s~myapp"] = Ok r /\
      resolve_app_id r (str "myapp") = Ok (str "s~myapp")) /\
  (forall (app_ids : list text) (project_id : text),
      (forall app_id,
          app_id ∈ app_ids ->
          resolve_project_id (TableIdResolver ∅) app_id <> Ok project_id) ->
      exists r,
        IdResolver_init app_ids = Ok r /\
        resolve_app_id r project_id =
        Raise (InvalidConversionError (unknown_project_message project_id))) /\
  (exists r,
      IdResolver_init [str "s~myapp"] = Ok r /\
      resolve_app_id r (str "unknown") =
      Raise (InvalidConversionError
               (str "Cannot determine application id for provided project id: "
                ++ [dquote] ++ str "unknown" ++ [dquote] ++ str "."))).
Proof.
  split; [|split; [|split; [|split]]].
  - intros m app_id.
    destruct (rsplit_last tilde app_id) as (piece & Hlast & Hsep & Hs).
    exists piece. split; [|by split].
    cbn. unfold index_last. by rewrite Hlast.
  - reflexivity.
  - eexists. split; [reflexivity|]. vm_compute. reflexivity.
  - intros app_ids project_id Hnot.
    destruct (IdResolver_init_loop_spec app_ids ∅) as (m' & Hm' & Hlookup).
    exists (TableIdResolver m'). unfold IdResolver_init. rewrite Hm'.
    split; [reflexivity|]. cbn [resolve_app_id].
    destruct (m' !! project_id) as [app_id|] eqn:Hl.
    + exfalso. destruct (Hlookup _ _ Hl) as [Hempty|[Hel Hres]].
      * by rewrite lookup_empty in Hempty.
      * exact (Hnot _ Hel Hres).
    + reflexivity.
  - eexists. split; [reflexivity|]. vm_compute. reflexivity.
Qed.

(** ** Key completeness *)

Lemma last_length_ge_1 {A} (l : list A) (a : A) :
  last l = Some a -> bool_decide (1 <= length l)%nat = true.
Proof.
  destruct l; [discriminate|]. intros _. apply bool_decide_eq_true. cbn. lia.
Qed.

(** C10, amended: on a key with at least one path element,
    [is_complete_v3_key] returns a truthy value if and only if the final
    element has a non-zero id or a non-empty name, and
    [is_complete_v1_key] returns [True] if and only if the final element
    has its id or its name set, whatever its content; a final element
    with neither is reported incomplete and one with id 5 complete. *)
Theorem is_complete_key_amended :
  (forall (v3_key : V3.Reference) (last_element : V3.Element),
      last (V3.path v3_key) = Some last_element ->
      exists r,
        is_complete_v3_key v3_key = Ok r /\
        (truthy r = true <->
         (exists i, V3.id last_element = Some i /\ i <> 0) \/
         (exists n, V3.name last_element = Some n /\ n <> []))) /\
  (forall (v1_key : V1.Key) (last_element : V1.PathElement),
      last (V1.path v1_key) = Some last_element ->
      exists b,
        is_complete_v1_key v1_key = Ok b /\
        (b = true <-> V1.id_type last_element <> V1.id_type_not_set)) /\
  (forall app name_space path type,
      (exists r,
          is_complete_v3_key
            (V3.mkReference app name_space
               (path ++ [V3.mkElement type None None])) = Ok r /\
          truthy r = false) /\
      (exists r,
          is_complete_v3_key
            (V3.mkReference app name_space
               (path ++ [V3.mkElement type (Some 5) None])) = Ok r /\
          truthy r = true)) /\
  (forall partition_id path kind,
      is_complete_v1_key
        (V1.mkKey partition_id
           (path ++ [V1.mkPathElement kind V1.id_type_not_set])) = Ok false /\
      is_complete_v1_key
        (V1.mkKey partition_id
           (path ++ [V1.mkPathElement kind (V1.id 5)])) = Ok true).
Proof. no_runtime.
  split; [|split; [|split]].
  - intros v3_key e Hlast. unfold is_complete_v3_key.
    rewrite (last_length_ge_1 _ _ Hlast), Hlast. eexists. split; [reflexivity|].
    destruct e as [type [i|] [n|]]; cbn; unfold py_or, py_and; cbn.
    all: repeat (match goal with
                 | |- context [?i =? 0] => destruct (Z.eqb_spec i 0); subst
                 end; cbn);
           rewrite ?negb_true_iff, ?bool_decide_eq_false; naive_solver.
  - intros v1_key e Hlast. unfold is_complete_v1_key.
    rewrite (last_length_ge_1 _ _ Hlast), Hlast. eexists. split; [reflexivity|].
    destruct (V1.id_type e); naive_solver.
  - intros app name_space path type.
    unfold is_complete_v3_key; cbn [V3.path].
    rewrite !(last_length_ge_1 _ _ (last_snoc _ _)), !last_snoc.
    split; eexists; (split; [reflexivity|]); reflexivity.
  - intros partition_id path kind.
    unfold is_complete_v1_key; cbn [V1.path].
    rewrite !(last_length_ge_1 _ _ (last_snoc _ _)), !last_snoc.
    split; reflexivity.
Qed.

(** What [is_complete_v4_key] does on every key: the assertion fails on
    an empty path, and on any other path the call of the repeated field
    raises [TypeError]. *)
Lemma is_complete_v4_key_raises (v4_key : V4.Key) :
  is_complete_v4_key v4_key = Raise TypeError \/
  is_complete_v4_key v4_key = Raise AssertionError.
Proof. unfold is_complete_v4_key. case_bool_decide; auto. Qed.

(** ** Keys *)

Lemma nonempty_true (s : text) : nonempty s = true <-> s <> [].
Proof.
  unfold nonempty. rewrite negb_true_iff, bool_decide_eq_false. reflexivity.
Qed.

Lemma nonempty_false (s : text) : nonempty s = false <-> s = [].
Proof.
  unfold nonempty. rewrite negb_false_iff, bool_decide_eq_true. reflexivity.
Qed.

Lemma v3_to_v1_element_spec (e : V3.Element) :
  v3_to_v1_element e =
  V1.mkPathElement (V3.get_text (V3.type e))
    match V3.name e, V3.id e with
    | Some n, _ => V1.name n
    | None, Some i => V1.id i
    | None, None => V1.id_type_not_set
    end.
Proof. unfold v3_to_v1_element. by destruct (V3.name e), (V3.id e). Qed.

(** C7, amended: when the [app] of the v3 Reference is absent or empty,
    [v3_to_v4_key] and [v3_to_v1_key] leave the destination key empty,
    with no partition id and no path element; when it is not empty they
    populate the partition id from it (through [resolve_project_id] for
    v1), copy the namespace when it is not empty, and convert the path
    elements in order, each with its kind and with its id and name as
    they are populated. *)
Theorem v3_to_key_amended (v3_ref : V3.Reference) :
  (V3.get_text (V3.app v3_ref) = [] ->
   v3_to_v4_key v3_ref = V4.Key_Clear /\
   v3_to_v1_key v3_ref = Ok V1.Key_Clear) /\
  (V3.get_text (V3.app v3_ref) <> [] ->
   (V4.partition_id (v3_to_v4_key v3_ref) =
    Some (V4.mkPartitionId
            (Some (V3.get_text (V3.app v3_ref)))
            (if nonempty (V3.get_text (V3.name_space v3_ref))
             then Some (V3.get_text (V3.name_space v3_ref)) else None)) /\
    spec_path_v4 v3_ref (v3_to_v4_key v3_ref)) /\
   (exists project_id v1_key,
       resolve_project_id id_resolver (V3.get_text (V3.app v3_ref))
       = Ok project_id /\
       v3_to_v1_key v3_ref = Ok v1_key /\
       V1.partition_id v1_key =
       Some (V1.mkPartitionId project_id
               (V3.get_text (V3.name_space v3_ref))) /\
       spec_path_v1 v3_ref v1_key)).
Proof.
  unfold v3_to_v4_key, v3_to_v1_key, spec_path_v4, spec_path_v1. split.
  - intros Happ. apply nonempty_false in Happ. by rewrite Happ.
  - intros Happ. apply nonempty_true in Happ. rewrite Happ. cbn [negb].
    split; [by split|].
    destruct (resolve_project_id_total id_resolver
                (V3.get_text (V3.app v3_ref))) as [project_id Hp].
    exists project_id. eexists. rewrite Hp. cbn [bind].
    split; [reflexivity|]. split; [reflexivity|]. cbn [V1.partition_id V1.path].
    split.
    + destruct (nonempty (V3.get_text (V3.name_space v3_ref))) eqn:Hns;
        [reflexivity|].
      apply nonempty_false in Hns. by rewrite Hns.
    + apply map_ext. intros e. apply v3_to_v1_element_spec.
Qed.

(** ** Scalar values *)

Lemma is_text_encode (t : text) :
  is_text t = true -> exists b, Utf8.encode t = Ok b.
Proof. unfold is_text. destruct (Utf8.encode t); [by eexists | discriminate]. Qed.

(** A string survives [encode] followed by the assignment to a proto
    string field. *)
Lemma string_field_of_encoded (t : text) (b : bytes) :
  Utf8.encode t = Ok b -> string_field_of_bytes b = Ok t.
Proof.
  intros H. unfold string_field_of_bytes. by rewrite (decode_encode _ _ H).
Qed.

Lemma is_valid_utf8_decode (s : bytes) :
  is_valid_utf8 s = true -> exists t, Utf8.decode s = Some t.
Proof.
  unfold is_valid_utf8. destruct (Utf8.decode s); [by eexists | discriminate].
Qed.

Lemma v3_meaning_and_zlib_no_meaning (p : V3.Property) :
  V3.get_int (V3.meaning p) = V3.NO_MEANING ->
  V3.get_text (V3.meaning_uri p) = [] ->
  v3_meaning_and_zlib p = (None, false).
Proof.
  intros Hm Hu. unfold v3_meaning_and_zlib. rewrite Hm, Hu. cbn.
  by destruct (__is_v3_property_value_union_valid (V3.value p)).
Qed.

(** The round trip of a scalar through the conversions of one Property;
    on the v1 path the name must be a [str] that encodes. *)
Lemma scalar_property_round_trip (depth : nat) (p : V3.Property) (indexed : bool)
    (property_name : text) (is_multi is_projection : bool) :
  unambiguous_scalar p ->
  (exists v4_value,
      v3_property_to_v4_value depth p indexed = Ok v4_value /\
      V4.indexed v4_value = indexed /\
      exists p',
        v4_to_v3_property property_name is_multi is_projection v4_value
        = Ok p' /\
        V3.value p' = V3.value p) /\
  (is_text property_name = true ->
   exists v1_value,
     v3_property_to_v1_value depth p indexed = Ok v1_value /\
     V1.exclude_from_indexes v1_value = negb indexed /\
     exists p',
       v1_to_v3_property property_name is_multi is_projection v1_value
       = Ok p' /\
       V3.value p' = V3.value p).
Proof.
  intros (Hm & Hu & Hv).
  unfold v3_property_to_v4_value, v3_property_to_v4_value_with,
    v3_property_to_v1_value, v3_property_to_v1_value_with,
    v4_to_v3_property, v1_to_v3_property,
    v4_to_v3_property_with, v1_to_v3_property_with.
  rewrite (v3_meaning_and_zlib_no_meaning p Hm Hu), Hm.
  split.
  - destruct Hv as [[b ->]|[[d ->]|(s & -> & Hs)]].
    + destruct indexed, is_projection; cbn;
        (eexists; split; [reflexivity|]; split; [reflexivity|]); cbn;
        eexists; split; reflexivity.
    + destruct indexed, is_projection; cbn;
        (eexists; split; [reflexivity|]; split; [reflexivity|]); cbn;
        eexists; split; reflexivity.
    + destruct (is_valid_utf8_decode s Hs) as [t Ht].
      pose proof (encode_decode _ _ Ht) as Het.
      destruct indexed, is_projection; cbn; rewrite Hs;
        unfold string_field_of_bytes; rewrite Ht; cbn;
        (eexists; split; [reflexivity|]; split; [reflexivity|]); cbn;
        rewrite Het; cbn; eexists; split; reflexivity.
  - intros Hname. apply is_text_encode in Hname as [encoded_name Hname].
    pose proof (string_field_of_encoded _ _ Hname) as Hfield.
    destruct Hv as [[b ->]|[[d ->]|(s & -> & Hs)]].
    + destruct indexed, is_projection; cbn;
        (eexists; split; [reflexivity|]; split; [reflexivity|]); cbn;
        rewrite Hname; cbn; rewrite Hfield; cbn;
        eexists; split; reflexivity.
    + destruct indexed, is_projection; cbn;
        (eexists; split; [reflexivity|]; split; [reflexivity|]); cbn;
        rewrite Hname; cbn; rewrite Hfield; cbn;
        eexists; split; reflexivity.
    + destruct (is_valid_utf8_decode s Hs) as [t Ht].
      pose proof (encode_decode _ _ Ht) as Het.
      destruct indexed, is_projection; cbn; rewrite Hs;
        unfold string_field_of_bytes at 1; rewrite Ht; cbn;
        (eexists; split; [reflexivity|]; split; [reflexivity|]); cbn;
        rewrite Hname; cbn; rewrite Hfield; cbn; rewrite Het; cbn;
        eexists; split; reflexivity.
Qed.

(** ** Byte strings that are not UTF-8 *)

Lemma zlib_forces_blob (p : V3.Property) :
  snd (v3_meaning_and_zlib p) = true ->
  meaning_is (fst (v3_meaning_and_zlib p)) V3.BLOB = true.
Proof.
  unfold v3_meaning_and_zlib.
  repeat case_match; simplify_eq/=; try discriminate; intros _.
  all: first [reflexivity | by apply negb_false_iff].
Qed.

(** C2, amended: a v3 Property whose stringValue bytes are not valid
    UTF-8, and whose meaning selects none of the entity, blob and
    bytestring branches, converts to a modern Value whose blob_value
    holds those bytes; converting that Value back gives a string-typed v3
    value with the same bytes, in a Property whose meaning is BYTESTRING
    when the Value is indexed and BLOB when it is not (INDEX_VALUE for a
    projection).  For v1 the meaning of the original must not be the
    empty-list marker (and the name, which the v1 converter encodes and
    decodes, must be a [str] that encodes). *)
Theorem blob_demotion_amended (depth : nat) (p : V3.Property) (s : bytes)
    (indexed : bool) (property_name : text) (is_multi is_projection : bool) :
  non_utf8_string p s ->
  (exists v4_value,
      v3_property_to_v4_value depth p indexed = Ok v4_value /\
      V4.blob_value v4_value = Some s /\
      exists p',
        v4_to_v3_property property_name is_multi is_projection v4_value
        = Ok p' /\
        string_typed (V3.value p') s /\
        V3.meaning p' = Some (blob_meaning indexed is_projection)) /\
  (V3.get_int (V3.meaning p) <> V3.EMPTY_LIST ->
   is_text property_name = true ->
   exists v1_value,
     v3_property_to_v1_value depth p indexed = Ok v1_value /\
     V1.value_type v1_value = V1.blob_value s /\
     exists p',
       v1_to_v3_property property_name is_multi is_projection v1_value
       = Ok p' /\
       string_typed (V3.value p') s /\
       V3.meaning p' = Some (blob_meaning indexed is_projection)).
Proof.
  intros (Hb & Hi & Hd & Hr & Hs & Hutf & He & Hblob & Hbs).
  pose proof (zlib_forces_blob p) as Hz.
  unfold v3_property_to_v4_value, v3_property_to_v4_value_with,
    v3_property_to_v1_value, v3_property_to_v1_value_with,
    v4_to_v3_property, v1_to_v3_property,
    v4_to_v3_property_with, v1_to_v3_property_with, string_typed.
  destruct (v3_meaning_and_zlib p) as [m z]. cbn [fst snd] in He, Hblob, Hbs, Hz.
  rewrite Hb, Hi, Hd, Hr, Hs, He, Hblob, Hbs, Hutf. cbn [orb negb].
  destruct z; [rewrite Hz in Hblob by reflexivity; discriminate|].
  split.
  - destruct (meaning_is m V3.INDEX_VALUE) eqn:Hidx; cbn [negb bind].
    + destruct m as [x|]; [|discriminate]. apply Z.eqb_eq in Hidx as ->.
      destruct indexed, is_projection; cbn;
        (eexists; split; [reflexivity|]; split; [reflexivity|]); cbn;
        eexists; (split; [reflexivity|]); split; reflexivity.
    + destruct indexed, is_projection; cbn;
        (eexists; split; [reflexivity|]; split; [reflexivity|]); cbn;
        eexists; (split; [reflexivity|]); split; reflexivity.
  - intros Hempty Hname. apply Z.eqb_neq in Hempty. rewrite Hempty.
    apply is_text_encode in Hname as [encoded_name Hname].
    pose proof (string_field_of_encoded _ _ Hname) as Hfield.
    destruct (meaning_is m V3.INDEX_VALUE) eqn:Hidx; cbn [negb bind].
    + destruct m as [x|]; [|discriminate]. apply Z.eqb_eq in Hidx as ->.
      destruct indexed, is_projection; cbn;
        (eexists; split; [reflexivity|]; split; [reflexivity|]); cbn;
        rewrite Hname; cbn; rewrite Hfield; cbn;
        eexists; (split; [reflexivity|]); split; reflexivity.
    + destruct indexed, is_projection; cbn;
        (eexists; split; [reflexivity|]; split; [reflexivity|]); cbn;
        rewrite Hname; cbn; rewrite Hfield; cbn;
        eexists; (split; [reflexivity|]); split; reflexivity.
Qed.

(** ** Embedded points and users *)

Lemma point_round_trip (pv : V3.PointValue) :
  __v4_to_v3_point_value (__v3_to_v4_point_entity pv) = Ok pv.
Proof. destruct pv as [x y]. vm_compute. reflexivity. Qed.

Lemma user_round_trip_v4 (u : V3.UserValue) :
  V3.nickname u = None ->
  v4_entity_to_v3_user_value (v3_user_value_to_v4_entity u) = Ok u.
Proof.
  destruct u as [email auth_domain nickname gaiaid obf fid fprov].
  cbn [V3.nickname]. intros ->.
  unfold v3_user_value_to_v4_entity. cbn [V3.gaiaid].
  destruct (Z.eqb_spec gaiaid 0) as [->|Hg]; cbn [negb];
    destruct obf, fid, fprov; vm_compute; reflexivity.
Qed.

(** Reading back a string property written by [__v1_string_property]. *)
Lemma v1_user_string_ok (properties : list (text * V1.Value)) (name : text)
    (meaning : Z) (exclude : bool) (s : text) :
  map_getitem properties name = V1.mkValue (V1.string_value s) meaning exclude ->
  is_text s = true ->
  v1_user_string properties name = Ok s.
Proof.
  intros Hget Hs. apply is_text_encode in Hs as [b Hb].
  unfold v1_user_string. rewrite Hget. cbn. rewrite Hb. cbn.
  by apply string_field_of_encoded.
Qed.

Lemma user_round_trip_v1 (u : V3.UserValue) :
  V3.nickname u = None ->
  user_is_text u = true ->
  v1_entity_to_v3_user_value (v3_user_value_to_v1_entity u) = Ok u.
Proof.
  destruct u as [email auth_domain nickname gaiaid obf fid fprov].
  unfold user_is_text. cbn [V3.nickname V3.email V3.auth_domain
    V3.obfuscated_gaiaid V3.federated_identity V3.federated_provider].
  intros -> Htext.
  repeat (apply andb_prop in Htext as [Htext ?]).
  unfold v3_user_value_to_v1_entity. cbn [V3.gaiaid].
  destruct (Z.eqb_spec gaiaid 0) as [->|Hg]; cbn [negb];
    destruct obf, fid, fprov; cbn [opt_is_text] in *;
    match goal with
    | |- v1_entity_to_v3_user_value ?e = _ =>
      let e' := eval vm_compute in e in change e with e'
    end;
    unfold v1_entity_to_v3_user_value; cbn [V1.properties];
    repeat match goal with
    | |- context [map_get ?m ?k] =>
      let r := eval vm_compute in (map_get m k) in change (map_get m k) with r
    | |- context [map_getitem ?m ?k] =>
      let r := eval vm_compute in (map_getitem m k) in
      change (map_getitem m k) with r
    end.
  all: repeat match goal with
       | |- context [v1_user_string ?m ?k] =>
         let r := eval vm_compute in (map_getitem m k) in
         match r with
         | V1.mkValue (V1.string_value ?s) ?mn ?ex =>
           rewrite (v1_user_string_ok m k mn ex s)
             by first [assumption | vm_compute; reflexivity]
         end
       end; reflexivity.
Qed.

Lemma no_string_no_zlib (p : V3.Property) :
  V3.stringValue (V3.value p) = None ->
  snd (v3_meaning_and_zlib p) = false.
Proof.
  intros Hs. unfold v3_meaning_and_zlib. rewrite Hs. cbn [has].
  repeat case_match; simplify_eq/=; reflexivity.
Qed.

(** The same round trips through the conversion of a Property: a point
    goes to the embedded entity, or to a geo point under the GEORSS_POINT
    meaning, and a user to the embedded entity. *)
Lemma embedded_property_round_trip_v4 (depth : nat) (p : V3.Property)
    (indexed : bool) (property_name : text) (is_multi is_projection : bool) :
  (exists pv, V3.value p = V3.set_pointvalue V3.PropertyValue_Clear pv) \/
  (exists u, V3.value p = V3.set_uservalue V3.PropertyValue_Clear u /\
             V3.nickname u = None) ->
  exists v4_value,
    v3_property_to_v4_value depth p indexed = Ok v4_value /\
    exists p',
      v4_to_v3_property property_name is_multi is_projection v4_value
      = Ok p' /\
      V3.value p' = V3.value p.
Proof.
  intros Hv.
  assert (Hz : snd (v3_meaning_and_zlib p) = false).
  { apply no_string_no_zlib. by destruct Hv as [[pv ->]|(u & -> & _)]. }
  unfold v3_property_to_v4_value, v3_property_to_v4_value_with,
    v4_to_v3_property, v4_to_v3_property_with.
  destruct (v3_meaning_and_zlib p) as [m z]. cbn [snd] in Hz. subst z.
  destruct Hv as [[pv ->]|(u & -> & Hnick)]; cbn [V3.booleanValue
    V3.int64Value V3.doubleValue V3.referencevalue V3.stringValue
    V3.pointvalue V3.uservalue V3.set_pointvalue V3.set_uservalue
    V3.PropertyValue_Clear bind].
  - destruct (meaning_is m MEANING_GEORSS_POINT).
    + destruct pv as [x y].
      destruct indexed, is_projection; cbn;
        (eexists; split; [reflexivity|]); cbn; eexists; split; reflexivity.
    + pose proof (point_round_trip pv) as Hrt.
      destruct indexed, is_projection;
        (eexists; split; [reflexivity|]);
        cbn -[__v4_to_v3_point_value __v3_to_v4_point_entity];
        rewrite Hrt; cbn; eexists; split; reflexivity.
  - pose proof (user_round_trip_v4 u Hnick) as Hrt.
    destruct indexed, is_projection;
      (eexists; split; [reflexivity|]);
      cbn -[v4_entity_to_v3_user_value v3_user_value_to_v4_entity];
      rewrite Hrt; cbn; eexists; split; reflexivity.
Qed.

(** C3: a v3 PointValue converted to the embedded v4 entity and back has
    the same x and y, as for x = 1.5 and y = -2.25; a v3 UserValue
    converted to the embedded v4 or v1 entity and back is the same
    UserValue, so that one with email, auth_domain and gaiaid 42 and no
    optional field keeps the three and has no obfuscated_gaiaid,
    federated_identity or federated_provider. *)
Theorem point_user_round_trip :
  (forall pv : V3.PointValue,
      __v4_to_v3_point_value (__v3_to_v4_point_entity pv) = Ok pv) /\
  __v4_to_v3_point_value
    (__v3_to_v4_point_entity (V3.mkPointValue 1.5%float (-2.25)%float))
  = Ok (V3.mkPointValue 1.5%float (-2.25)%float) /\
  (forall u : V3.UserValue,
      V3.nickname u = None ->
      v4_entity_to_v3_user_value (v3_user_value_to_v4_entity u) = Ok u) /\
  (forall u : V3.UserValue,
      V3.nickname u = None ->
      user_is_text u = true ->
      v1_entity_to_v3_user_value (v3_user_value_to_v1_entity u) = Ok u) /\
  (forall email auth_domain : text,
      let u := V3.mkUserValue email auth_domain None 42 None None None in
      v4_entity_to_v3_user_value (v3_user_value_to_v4_entity u) = Ok u /\
      (is_text email = true -> is_text auth_domain = true ->
       v1_entity_to_v3_user_value (v3_user_value_to_v1_entity u) = Ok u)).
Proof.
  split; [exact point_round_trip|].
  split; [apply point_round_trip|].
  split; [exact user_round_trip_v4|].
  split; [exact user_round_trip_v1|].
  intros email auth_domain u. split.
  - by apply user_round_trip_v4.
  - intros He Ha. apply user_round_trip_v1; [reflexivity|].
    unfold user_is_text. cbn. by rewrite He, Ha.
Qed.

(** ** Empty lists *)

(** C4: a v1 property set to an array with no element becomes a v3
    Property with the empty-list meaning, which [v3_to_v1_entity] turns
    back into a property holding an array with no element, with the same
    name and flag; a v4 Value with the empty-list meaning becomes the
    same v3 Property and comes back with that meaning and flag; in both
    schemas the result differs from that of an entity whose property was
    never set. *)
Theorem empty_list_round_trip (depth : nat) (property_name : text)
    (is_projection : bool) :
  (forall (meaning : Z) (exclude : bool),
      v1_to_v3_entity
        (V1.mkEntity None
           [(property_name, V1.mkValue (V1.array_value []) meaning exclude)])
        is_projection
      = Ok (v3_entity_of (v3_empty_list property_name) (negb exclude)) /\
      v3_to_v1_entity (S depth)
        (v3_entity_of (v3_empty_list property_name) (negb exclude))
      = Ok (V1.mkEntity None
              [(property_name, V1.mkValue (V1.array_value []) 0 exclude)])) /\
  (forall v4_value : V4.Value,
      V4.meaning v4_value = Some MEANING_EMPTY_LIST ->
      V4.list_value v4_value = [] ->
      v4_to_v3_entity
        (V4.mkEntity None [V4.mkProperty property_name v4_value])
        is_projection
      = Ok (v3_entity_of (v3_empty_list property_name)
              (V4.indexed v4_value)) /\
      v3_to_v4_entity (S depth)
        (v3_entity_of (v3_empty_list property_name) (V4.indexed v4_value))
      = Ok (V4.mkEntity None
              [V4.mkProperty property_name
                 (v4_empty_list (V4.indexed v4_value))])) /\
  (v1_to_v3_entity V1.Entity_Clear is_projection = Ok EntityProto_Clear /\
   v3_to_v1_entity (S depth) EntityProto_Clear = Ok V1.Entity_Clear /\
   v4_to_v3_entity V4.Entity_Clear is_projection = Ok EntityProto_Clear /\
   v3_to_v4_entity (S depth) EntityProto_Clear = Ok V4.Entity_Clear).
Proof.
  split; [|split].
  - intros meaning exclude. split.
    + destruct exclude; reflexivity.
    + destruct exclude; cbn; unfold v3_to_v1_entity_with; cbn;
        unfold __add_v1_property_to_entity, v3_property_to_v1_value_with;
        cbn; reflexivity.
  - intros v4_value Hm Hl. split.
    + cbn. rewrite Hl. unfold v4_to_v3_property_with. rewrite Hl, Hm. cbn.
      by destruct (V4.indexed v4_value).
    + destruct (V4.indexed v4_value); cbn; unfold v3_to_v4_entity_with; cbn;
        unfold __add_v4_property_to_entity, v3_property_to_v4_value_with;
        rewrite lookup_empty; cbn; reflexivity.
  - repeat split; reflexivity.
Qed.

(** ** The indexed flag *)

Lemma v4_finish_flag (v : V4.Value) (z : bool) (m : option Z) (indexed : bool) :
  V4.indexed_field v = None ->
  V4.indexed_field (v4_finish v z m indexed)
  = (if indexed then None else Some false).
Proof.
  intros Hv. unfold v4_finish, V4.indexed.
  destruct z, (meaning_truthy m), indexed; cbn; by rewrite ?Hv.
Qed.

Lemma v1_finish_flag (v : V1.Value) (z : bool) (m : option Z) (indexed : bool) :
  V1.exclude_from_indexes v = false ->
  V1.exclude_from_indexes (v1_finish v z m indexed) = negb indexed.
Proof.
  intros Hv. unfold v1_finish.
  destruct z, (meaning_truthy m), indexed; cbn; by rewrite ?Hv.
Qed.

Lemma v3_property_to_v4_value_flag
    (nested : V3.EntityProto -> result V4.Entity)
    (p : V3.Property) (indexed : bool) (v : V4.Value) :
  v3_property_to_v4_value_with nested p indexed = Ok v ->
  V4.indexed_field v = (if indexed then None else Some false).
Proof.
  unfold v3_property_to_v4_value_with.
  destruct (v3_meaning_and_zlib p) as [m z].
  match goal with
  | |- bind ?branch _ = _ -> _ =>
    assert (Hbranch : forall v' m',
               branch = Ok (v', m') -> V4.indexed_field v' = None);
      [|destruct branch as [[v' m']|]; cbn [bind]; [|discriminate];
        intros [= <-]; apply v4_finish_flag; by eapply Hbranch]
  end.
  intros v' m'.
  destruct (V3.booleanValue (V3.value p)); [by intros [= <- <-]|].
  destruct (V3.int64Value (V3.value p));
    [destruct (meaning_is m V3.GD_WHEN); by intros [= <- <-]|].
  destruct (V3.doubleValue (V3.value p)); [by intros [= <- <-]|].
  destruct (V3.referencevalue (V3.value p)); [by intros [= <- <-]|].
  destruct (V3.stringValue (V3.value p)) as [s|].
  - destruct (meaning_is m V3.ENTITY_PROTO).
    { unfold bind. destruct (ParsePartialFromString s); [|discriminate].
      destruct (nested a); [|discriminate]. by intros [= <- <-]. }
    destruct (meaning_is m V3.BLOB || meaning_is m V3.BYTESTRING);
      [by intros [= <- <-]|].
    destruct (is_valid_utf8 s); [|by intros [= <- <-]].
    destruct (meaning_is m V3.BLOBKEY); [by intros [= <- <-]|].
    unfold bind. destruct (string_field_of_bytes s); [|discriminate].
    by intros [= <- <-].
  - destruct (V3.pointvalue (V3.value p));
      [destruct (meaning_is m MEANING_GEORSS_POINT); by intros [= <- <-]|].
    destruct (V3.uservalue (V3.value p)); by intros [= <- <-].
Qed.

Lemma v3_property_to_v1_value_flag
    (nested : V3.EntityProto -> result V1.Entity)
    (p : V3.Property) (indexed : bool) (v : V1.Value) :
  v3_property_to_v1_value_with nested p indexed = Ok v ->
  V1.exclude_from_indexes v = negb indexed.
Proof.
  unfold v3_property_to_v1_value_with.
  destruct (v3_meaning_and_zlib p) as [m z].
  match goal with
  | |- bind ?branch _ = _ -> _ =>
    assert (Hbranch : forall v' m',
               branch = Ok (v', m') -> V1.exclude_from_indexes v' = false);
      [|destruct branch as [[v' m']|]; cbn [bind]; [|discriminate];
        intros [= <-]; apply v1_finish_flag; by eapply Hbranch]
  end.
  intros v' m'.
  destruct (V3.get_int (V3.meaning p) =? V3.EMPTY_LIST);
    [by intros [= <- <-]|].
  destruct (V3.booleanValue (V3.value p)); [by intros [= <- <-]|].
  destruct (V3.int64Value (V3.value p));
    [destruct (meaning_is m V3.GD_WHEN && is_in_rfc_3339_bounds z0);
     by intros [= <- <-]|].
  destruct (V3.doubleValue (V3.value p)); [by intros [= <- <-]|].
  destruct (V3.referencevalue (V3.value p)) as [rv|].
  { unfold bind.
    destruct (v3_to_v1_key (__v3_reference_value_to_v3_reference rv));
      [|discriminate].
    by intros [= <- <-]. }
  destruct (V3.stringValue (V3.value p)) as [s|].
  - destruct (meaning_is m V3.ENTITY_PROTO).
    { unfold bind. destruct (ParseFromString s); [|discriminate].
      destruct (nested a); [|discriminate]. by intros [= <- <-]. }
    destruct (meaning_is m V3.BLOB || meaning_is m V3.BYTESTRING);
      [by intros [= <- <-]|].
    destruct (is_valid_utf8 s); [|by intros [= <- <-]].
    unfold bind. destruct (string_field_of_bytes s); [|discriminate].
    by intros [= <- <-].
  - destruct (V3.pointvalue (V3.value p));
      [destruct (meaning_is m MEANING_GEORSS_POINT); by intros [= <- <-]|].
    destruct (V3.uservalue (V3.value p)); by intros [= <- <-].
Qed.

Lemma v3_to_v1_key_total (v3_ref : V3.Reference) :
  exists v1_key, v3_to_v1_key v3_ref = Ok v1_key.
Proof.
  unfold v3_to_v1_key. case_match; [by eexists|].
  destruct (resolve_project_id_total id_resolver
              (V3.get_text (V3.app v3_ref))) as [project_id ->].
  by eexists.
Qed.

Lemma v3_property_to_v4_value_total
    (nested : V3.EntityProto -> result V4.Entity)
    (p : V3.Property) (indexed : bool) :
  embeds_entity p = false ->
  exists v, v3_property_to_v4_value_with nested p indexed = Ok v.
Proof.
  unfold embeds_entity, v3_property_to_v4_value_with.
  destruct (v3_meaning_and_zlib p) as [m z]. cbn [fst]. intros H.
  destruct (V3.booleanValue (V3.value p)); [by eexists|].
  destruct (V3.int64Value (V3.value p)); [case_match; by eexists|].
  destruct (V3.doubleValue (V3.value p)); [by eexists|].
  destruct (V3.referencevalue (V3.value p)); [by eexists|].
  destruct (V3.stringValue (V3.value p)) as [s|].
  - cbn in H. rewrite H.
    destruct (meaning_is m V3.BLOB || meaning_is m V3.BYTESTRING);
      [by eexists|].
    destruct (is_valid_utf8 s) eqn:Hs; [|by eexists].
    destruct (meaning_is m V3.BLOBKEY); [by eexists|].
    destruct (is_valid_utf8_decode s Hs) as [t Ht].
    unfold string_field_of_bytes. rewrite Ht. by eexists.
  - destruct (V3.pointvalue (V3.value p)); [case_match; by eexists|].
    destruct (V3.uservalue (V3.value p)); by eexists.
Qed.

Lemma v3_property_to_v1_value_total
    (nested : V3.EntityProto -> result V1.Entity)
    (p : V3.Property) (indexed : bool) :
  embeds_entity p = false ->
  exists v, v3_property_to_v1_value_with nested p indexed = Ok v.
Proof.
  unfold embeds_entity, v3_property_to_v1_value_with.
  destruct (v3_meaning_and_zlib p) as [m z]. cbn [fst]. intros H.
  destruct (V3.get_int (V3.meaning p) =? V3.EMPTY_LIST); [by eexists|].
  destruct (V3.booleanValue (V3.value p)); [by eexists|].
  destruct (V3.int64Value (V3.value p)); [case_match; by eexists|].
  destruct (V3.doubleValue (V3.value p)); [by eexists|].
  destruct (V3.referencevalue (V3.value p)) as [rv|].
  { destruct (v3_to_v1_key_total (__v3_reference_value_to_v3_reference rv))
      as [k ->]. by eexists. }
  destruct (V3.stringValue (V3.value p)) as [s|].
  - cbn in H. rewrite H.
    destruct (meaning_is m V3.BLOB || meaning_is m V3.BYTESTRING);
      [by eexists|].
    destruct (is_valid_utf8 s) eqn:Hs; [|by eexists].
    destruct (is_valid_utf8_decode s Hs) as [t Ht].
    unfold string_field_of_bytes. rewrite Ht. by eexists.
  - destruct (V3.pointvalue (V3.value p)); [by eexists|].
    destruct (V3.uservalue (V3.value p)); by eexists.
Qed.

Lemma v4_finish_list (v : V4.Value) (z : bool) (m : option Z)
    (indexed : bool) :
  V4.list_value (v4_finish v z m indexed) = V4.list_value v.
Proof.
  unfold v4_finish. repeat case_match; reflexivity.
Qed.

Lemma v1_finish_type (v : V1.Value) (z : bool) (m : option Z)
    (indexed : bool) :
  V1.value_type (v1_finish v z m indexed) = V1.value_type v.
Proof.
  unfold v1_finish. repeat case_match; reflexivity.
Qed.

(** The conversion of one Property never fills [list_value]. *)
Lemma v3_property_to_v4_value_no_list
    (nested : V3.EntityProto -> result V4.Entity)
    (p : V3.Property) (indexed : bool) (v : V4.Value) :
  v3_property_to_v4_value_with nested p indexed = Ok v ->
  V4.list_value v = [].
Proof.
  unfold v3_property_to_v4_value_with.
  destruct (v3_meaning_and_zlib p) as [m z].
  match goal with
  | |- bind ?branch _ = _ -> _ =>
    assert (Hbranch : forall v' m',
               branch = Ok (v', m') -> V4.list_value v' = []);
      [|destruct branch as [[v' m']|]; cbn [bind]; [|discriminate];
        intros [= <-]; rewrite v4_finish_list; by eapply Hbranch]
  end.
  intros v' m'.
  destruct (V3.booleanValue (V3.value p)); [by intros [= <- <-]|].
  destruct (V3.int64Value (V3.value p));
    [destruct (meaning_is m V3.GD_WHEN); by intros [= <- <-]|].
  destruct (V3.doubleValue (V3.value p)); [by intros [= <- <-]|].
  destruct (V3.referencevalue (V3.value p)); [by intros [= <- <-]|].
  destruct (V3.stringValue (V3.value p)) as [s|].
  - destruct (meaning_is m V3.ENTITY_PROTO).
    { unfold bind. destruct (ParsePartialFromString s); [|discriminate].
      destruct (nested a); [|discriminate]. by intros [= <- <-]. }
    destruct (meaning_is m V3.BLOB || meaning_is m V3.BYTESTRING);
      [by intros [= <- <-]|].
    destruct (is_valid_utf8 s); [|by intros [= <- <-]].
    destruct (meaning_is m V3.BLOBKEY); [by intros [= <- <-]|].
    unfold bind. destruct (string_field_of_bytes s); [|discriminate].
    by intros [= <- <-].
  - destruct (V3.pointvalue (V3.value p));
      [destruct (meaning_is m MEANING_GEORSS_POINT); by intros [= <- <-]|].
    destruct (V3.uservalue (V3.value p)); by intros [= <- <-].
Qed.

(** It yields an array only for the empty-list meaning. *)
Lemma v3_property_to_v1_value_no_array
    (nested : V3.EntityProto -> result V1.Entity)
    (p : V3.Property) (indexed : bool) (v : V1.Value) :
  v3_property_to_v1_value_with nested p indexed = Ok v ->
  V3.get_int (V3.meaning p) <> V3.EMPTY_LIST ->
  forall values, V1.value_type v <> V1.array_value values.
Proof.
  unfold v3_property_to_v1_value_with. intros H Hne. revert H.
  apply Z.eqb_neq in Hne. rewrite Hne.
  destruct (v3_meaning_and_zlib p) as [m z].
  match goal with
  | |- bind ?branch _ = _ -> _ =>
    assert (Hbranch : forall v' m',
               branch = Ok (v', m') ->
               forall values, V1.value_type v' <> V1.array_value values);
      [|destruct branch as [[v' m']|]; cbn [bind]; [|discriminate];
        intros [= <-]; rewrite v1_finish_type; by eapply Hbranch]
  end.
  intros v' m'.
  destruct (V3.booleanValue (V3.value p)); [by intros [= <- <-]|].
  destruct (V3.int64Value (V3.value p));
    [destruct (meaning_is m V3.GD_WHEN && is_in_rfc_3339_bounds _);
     by intros [= <- <-]|].
  destruct (V3.doubleValue (V3.value p)); [by intros [= <- <-]|].
  destruct (V3.referencevalue (V3.value p)) as [rv|].
  { unfold bind.
    destruct (v3_to_v1_key (__v3_reference_value_to_v3_reference rv));
      [|discriminate].
    by intros [= <- <-]. }
  destruct (V3.stringValue (V3.value p)) as [s|].
  - destruct (meaning_is m V3.ENTITY_PROTO).
    { unfold bind. destruct (ParseFromString s); [|discriminate].
      destruct (nested a); [|discriminate]. by intros [= <- <-]. }
    destruct (meaning_is m V3.BLOB || meaning_is m V3.BYTESTRING);
      [by intros [= <- <-]|].
    destruct (is_valid_utf8 s); [|by intros [= <- <-]].
    unfold bind. destruct (string_field_of_bytes s); [|discriminate].
    by intros [= <- <-].
  - destruct (V3.pointvalue (V3.value p));
      [destruct (meaning_is m MEANING_GEORSS_POINT); by intros [= <- <-]|].
    destruct (V3.uservalue (V3.value p)); by intros [= <- <-].
Qed.

(** ** Entities with one property *)

Lemma v4_to_v3_entity_single (property_name : text) (v : V4.Value)
    (is_projection : bool) :
  V4.list_value v = [] ->
  v4_to_v3_entity (V4.mkEntity None [V4.mkProperty property_name v])
    is_projection
  = (let* prop := v4_to_v3_property property_name false is_projection v in
     Ok (v3_entity_of prop (V4.indexed v))).
Proof.
  intros Hl. cbn. rewrite Hl. unfold v4_to_v3_property.
  destruct (v4_to_v3_property_with _ _ _ _ _); [|reflexivity].
  cbn. by destruct (V4.indexed v).
Qed.

Lemma v1_to_v3_entity_single (property_name : text) (v : V1.Value)
    (is_projection : bool) :
  (forall values, V1.value_type v <> V1.array_value values) ->
  v1_to_v3_entity (V1.mkEntity None [(property_name, v)]) is_projection
  = (let* prop := v1_to_v3_property property_name false is_projection v in
     Ok (v3_entity_of prop (negb (V1.exclude_from_indexes v)))).
Proof.
  intros Hne. cbn. unfold v1_to_v3_property.
  destruct (V1.value_type v) eqn:Ht;
    try (by destruct (Hne values));
    (destruct (v1_to_v3_property_with _ _ _ _ _); [|reflexivity]);
    cbn; by destruct (V1.exclude_from_indexes v).
Qed.

(** C1: a v3 Property that holds a boolean, a double or a valid-UTF-8
    string, with no special meaning and no meaning_uri, converted to a
    v4 Value and back, or to a v1 Value and back, gives a v3 Property
    with the value of the original.  The modern Value carries the indexed
    flag of the conversion, and the entity converter stores the Property
    that comes back in [property] when the flag is true and in
    [raw_property] when it is false.  (The v1 converter encodes and
    decodes the name, which must be a [str] that encodes.) *)
Theorem scalar_round_trip (depth : nat) (p : V3.Property) (indexed : bool)
    (property_name : text) (is_multi is_projection : bool) :
  unambiguous_scalar p ->
  (exists v4_value,
      v3_property_to_v4_value depth p indexed = Ok v4_value /\
      V4.indexed v4_value = indexed /\
      (exists p',
          v4_to_v3_property property_name is_multi is_projection v4_value
          = Ok p' /\
          V3.value p' = V3.value p) /\
      (exists p',
          v4_to_v3_entity
            (V4.mkEntity None [V4.mkProperty property_name v4_value])
            is_projection
          = Ok (v3_entity_of p' indexed) /\
          V3.value p' = V3.value p)) /\
  (is_text property_name = true ->
   exists v1_value,
     v3_property_to_v1_value depth p indexed = Ok v1_value /\
     V1.exclude_from_indexes v1_value = negb indexed /\
     (exists p',
         v1_to_v3_property property_name is_multi is_projection v1_value
         = Ok p' /\
         V3.value p' = V3.value p) /\
     (exists p',
         v1_to_v3_entity (V1.mkEntity None [(property_name, v1_value)])
           is_projection
         = Ok (v3_entity_of p' indexed) /\
         V3.value p' = V3.value p)).
Proof.
  intros Hp.
  destruct (scalar_property_round_trip depth p indexed property_name
              is_multi is_projection Hp) as [(v4 & Hv4 & Hi4 & Hb4) Hv1].
  destruct (scalar_property_round_trip depth p indexed property_name
              false is_projection Hp) as [(v4' & Hv4' & _ & Hb4') Hv1'].
  split.
  - exists v4. split; [exact Hv4|]. split; [exact Hi4|]. split; [exact Hb4|].
    rewrite Hv4 in Hv4'. injection Hv4' as <-.
    destruct Hb4' as (p' & Hp' & Hval). exists p'. split; [|exact Hval].
    rewrite v4_to_v3_entity_single
      by (eapply v3_property_to_v4_value_no_list; exact Hv4).
    rewrite Hp'. cbn. by rewrite Hi4.
  - intros Hname.
    destruct (Hv1 Hname) as (v1 & Hc1 & Hi1 & Hb1).
    destruct (Hv1' Hname) as (v1' & Hc1' & _ & Hb1').
    exists v1. split; [exact Hc1|]. split; [exact Hi1|]. split; [exact Hb1|].
    rewrite Hc1 in Hc1'. injection Hc1' as <-.
    destruct Hb1' as (p' & Hp' & Hval). exists p'. split; [|exact Hval].
    rewrite v1_to_v3_entity_single.
    + rewrite Hp'. cbn. rewrite Hi1. by destruct indexed.
    + eapply v3_property_to_v1_value_no_array; [exact Hc1|].
      destruct Hp as (Hm & _). rewrite Hm. discriminate.
Qed.

(** C5, amended: after [v3_property_to_v4_value] the getter [indexed] of
    the destination returns the flag of the call, and the field itself is
    written only when the flag is false, the value it does not already
    read; after [v3_property_to_v1_value], [exclude_from_indexes] is the
    negation of the flag.  Both conversions return a Value whenever the
    Property does not hold a serialized entity. *)
Theorem indexed_flag_amended (depth : nat) (p : V3.Property)
    (indexed : bool) :
  (forall v4_value,
      v3_property_to_v4_value depth p indexed = Ok v4_value ->
      V4.indexed v4_value = indexed /\
      V4.indexed_field v4_value = (if indexed then None else Some false)) /\
  (forall v1_value,
      v3_property_to_v1_value depth p indexed = Ok v1_value ->
      V1.exclude_from_indexes v1_value = negb indexed) /\
  (embeds_entity p = false ->
   (exists v4_value, v3_property_to_v4_value depth p indexed = Ok v4_value) /\
   (exists v1_value, v3_property_to_v1_value depth p indexed = Ok v1_value)).
Proof.
  split; [|split].
  - intros v H. apply v3_property_to_v4_value_flag in H.
    split; [|exact H]. unfold V4.indexed. rewrite H. by destruct indexed.
  - intros v H. by apply v3_property_to_v1_value_flag in H.
  - intros H. split.
    + by apply v3_property_to_v4_value_total.
    + by apply v3_property_to_v1_value_total.
Qed.

(** ** Embedded entities with a missing field *)

Lemma foldl_insert_lookup_None (k : text) (props : list V4.Property)
    (m : gmap text V4.Property) :
  m !! k = None ->
  (forall prop, prop ∈ props -> V4.p_name prop <> k) ->
  foldl (fun property_map prop => <[V4.p_name prop := prop]> property_map)
        m props !! k = None.
Proof.
  revert m. induction props as [|prop props IH]; intros m Hm Hne; [exact Hm|].
  cbn [foldl]. apply IH.
  - rewrite lookup_insert_ne; [exact Hm|]. apply Hne, list_elem_of_here.
  - intros prop' Hin. by apply Hne, list_elem_of_further.
Qed.

Lemma name_to_v4_property_absent (k : text) (v4_entity : V4.Entity) :
  (forall prop, prop ∈ V4.property v4_entity -> V4.p_name prop <> k) ->
  __build_name_to_v4_property_map v4_entity !! k = None.
Proof.
  intros H. unfold __build_name_to_v4_property_map.
  by apply foldl_insert_lookup_None.
Qed.

(** C6, on the code: decoding an embedded v4 entity that has no property
    named [x] (for a point) or [email] (for a user) raises [KeyError],
    the error of the dict lookup, and not [InvalidConversionError]; a
    property [x] that holds no double raises [InvalidConversionError];
    the v1 decoder raises [InvalidConversionError] for an entity with
    no [email] property, because its map creates a cleared value for
    the missing key; and so the conversion of a v4 Value that carries the
    point meaning and an entity with no property raises [KeyError]. *)
Theorem embedded_entity_missing_field :
  (forall v4_entity : V4.Entity,
      (forall prop, prop ∈ V4.property v4_entity ->
                    V4.p_name prop <> PROPERTY_NAME_X) ->
      __v4_to_v3_point_value v4_entity = Raise (KeyError PROPERTY_NAME_X)) /\
  (forall v4_entity : V4.Entity,
      (forall prop, prop ∈ V4.property v4_entity ->
                    V4.p_name prop <> PROPERTY_NAME_EMAIL) ->
      v4_entity_to_v3_user_value v4_entity
      = Raise (KeyError PROPERTY_NAME_EMAIL)) /\
  (forall (v4_entity : V4.Entity) (px : V4.Property),
      __build_name_to_v4_property_map v4_entity !! PROPERTY_NAME_X
      = Some px ->
      V4.double_value (V4.value px) = None ->
      __v4_to_v3_point_value v4_entity
      = Raise (InvalidConversionError
                 (str "Property does not contain a double value."))) /\
  (forall v1_entity : V1.Entity,
      map_get (V1.properties v1_entity) PROPERTY_NAME_EMAIL = None ->
      v1_entity_to_v3_user_value v1_entity
      = Raise (InvalidConversionError
                 (str "Value does not contain a string value."))) /\
  v4_value_to_v3_property_value
    (V4.set_meaning (V4.set_entity_value V4.Value_Clear V4.Entity_Clear)
       MEANING_PREDEFINED_ENTITY_POINT)
  = Raise (KeyError PROPERTY_NAME_X).
Proof.
  split; [|split; [|split; [|split]]].
  - intros e H. unfold __v4_to_v3_point_value, dict_getitem.
    by rewrite (name_to_v4_property_absent _ _ H).
  - intros e H. unfold v4_entity_to_v3_user_value, dict_getitem.
    by rewrite (name_to_v4_property_absent _ _ H).
  - intros e px Hx Hd. unfold __v4_to_v3_point_value, dict_getitem.
    rewrite Hx. cbn [bind]. unfold __get_v4_double_value. by rewrite Hd.
  - intros e H. unfold v1_entity_to_v3_user_value, v1_user_string, map_getitem.
    by rewrite H.
  - reflexivity.
Qed.

(** What the decoders do with the optional fields of a user: each is
    set exactly when the entity has a property of its name, and the
    gaiaid is 0 when the entity has no [internal_id]. *)
Lemma v4_user_optional_fields (v4_entity : V4.Entity) (u : V3.UserValue) :
  v4_entity_to_v3_user_value v4_entity = Ok u ->
  (is_Some (V3.obfuscated_gaiaid u) <->
   is_Some (__build_name_to_v4_property_map v4_entity
              !! PROPERTY_NAME_USER_ID)) /\
  (is_Some (V3.federated_identity u) <->
   is_Some (__build_name_to_v4_property_map v4_entity
              !! PROPERTY_NAME_FEDERATED_IDENTITY)) /\
  (is_Some (V3.federated_provider u) <->
   is_Some (__build_name_to_v4_property_map v4_entity
              !! PROPERTY_NAME_FEDERATED_PROVIDER)) /\
  (__build_name_to_v4_property_map v4_entity !! PROPERTY_NAME_INTERNAL_ID
   = None -> V3.gaiaid u = 0).
Proof.
  unfold v4_entity_to_v3_user_value, dict_getitem, __get_v4_string_value,
    __get_v4_integer_value, check_conversion, bind.
  generalize (__build_name_to_v4_property_map v4_entity). intros m H.
  repeat (case_match; simplify_eq/=);
    (split_and?; [try split..|]);
    first [done | by eexists | by intros [? ?] | intros; by eexists].
Qed.

Lemma v1_user_optional_fields (v1_entity : V1.Entity) (u : V3.UserValue) :
  v1_entity_to_v3_user_value v1_entity = Ok u ->
  (is_Some (V3.obfuscated_gaiaid u) <->
   is_Some (map_get (V1.properties v1_entity) PROPERTY_NAME_USER_ID)) /\
  (is_Some (V3.federated_identity u) <->
   is_Some (map_get (V1.properties v1_entity)
              PROPERTY_NAME_FEDERATED_IDENTITY)) /\
  (is_Some (V3.federated_provider u) <->
   is_Some (map_get (V1.properties v1_entity)
              PROPERTY_NAME_FEDERATED_PROVIDER)) /\
  (map_get (V1.properties v1_entity) PROPERTY_NAME_INTERNAL_ID = None ->
   V3.gaiaid u = 0).
Proof.
  unfold v1_entity_to_v3_user_value, v1_user_string, has, bind.
  generalize (V1.properties v1_entity). intros m H.
  repeat (case_match; simplify_eq/=);
    (split_and?; [try split..|]);
    first [done | by eexists | by intros [? ?] | intros; by eexists].
Qed.

(** ** Filters *)

(** C8: [_v3_filter_to_v1_property_filter] and
    [_v3_filter_to_v4_property_filter] raise [InvalidConversionError]
    when the filter does not have exactly one property, in particular
    when it has more than one; with one property and an operator above
    5, the last operator of the range, they raise
    [InvalidConversionError] with a message that ends in the operator
    code; otherwise the result has the operator and the property name of
    the filter and the Value that the property converts to as an indexed
    property, and it fails only when that conversion fails. *)
Theorem filter_conversion (depth : nat) (v3_filter : V3.Filter) :
  (length (V3.f_property v3_filter) <> 1%nat ->
   _v3_filter_to_v1_property_filter depth v3_filter
   = Raise (InvalidConversionError (str "invalid filter")) /\
   _v3_filter_to_v4_property_filter depth v3_filter
   = Raise (InvalidConversionError (str "invalid filter"))) /\
  (length (V3.f_property v3_filter) = 1%nat ->
   5 < V3.op v3_filter ->
   _v3_filter_to_v1_property_filter depth v3_filter
   = Raise (InvalidConversionError
              (str "unsupported filter op: " ++ format_d (V3.op v3_filter))) /\
   _v3_filter_to_v4_property_filter depth v3_filter
   = Raise (InvalidConversionError
              (str "unsupported filter op: " ++ format_d (V3.op v3_filter)))) /\
  (forall property_0,
      V3.f_property v3_filter = [property_0] ->
      V3.op v3_filter <= 5 ->
      _v3_filter_to_v1_property_filter depth v3_filter
      = (let* value := v3_property_to_v1_value depth property_0 true in
         Ok (V1.mkPropertyFilter (V3.op v3_filter)
               (V3.p_name property_0) value)) /\
      _v3_filter_to_v4_property_filter depth v3_filter
      = (let* value := v3_property_to_v4_value depth property_0 true in
         Ok (V4.mkPropertyFilter (V3.op v3_filter)
               (V3.p_name property_0) value)) /\
      forall f4,
        _v3_filter_to_v4_property_filter depth v3_filter = Ok f4 ->
        V4.pf_operator f4 = V3.op v3_filter /\
        V4.pf_property_name f4 = V3.p_name property_0 /\
        V4.indexed (V4.pf_value f4) = true).
Proof.
  unfold _v3_filter_to_v1_property_filter, _v3_filter_to_v4_property_filter,
    check_conversion.
  split; [|split].
  - intros Hlen. rewrite bool_decide_eq_false_2 by exact Hlen. by split.
  - intros Hlen Hop. rewrite bool_decide_eq_true_2 by exact Hlen.
    apply Z.leb_gt in Hop. rewrite Hop. by split.
  - intros p Hp Hop. rewrite Hp. cbn [length].
    rewrite bool_decide_eq_true_2 by reflexivity.
    apply Z.leb_le in Hop. rewrite Hop. cbn [negb bind].
    split; [reflexivity|]. split; [reflexivity|].
    intros f4.
    destruct (v3_property_to_v4_value depth p true) as [v|] eqn:Hv;
      cbn [bind]; [|discriminate].
    intros [= <-]. cbn. split; [reflexivity|]. split; [reflexivity|].
    unfold v3_property_to_v4_value in Hv.
    apply v3_property_to_v4_value_flag in Hv. unfold V4.indexed. by rewrite Hv.
Qed.

(** ** Round trips of keys *)

Lemma namespace_round_trip (ns : option text) :
  (if nonempty (V3.get_text ns) then Some (V3.get_text ns) else None) = ns
  <-> unset_or_nonempty ns = true.
Proof. no_runtime.
  destruct ns as [s|]; cbn; [|done].
  destruct (nonempty s); naive_solver.
Qed.

Lemma v3_v4_path_round_trip (path : list V3.Element) :
  List.map (fun v4_element =>
              V3.mkElement (Some (V4.kind v4_element))
                           (V4.id v4_element) (V4.name v4_element))
    (List.map (fun v3_element =>
                 V4.mkPathElement (V3.get_text (V3.type v3_element))
                                  (V3.id v3_element) (V3.name v3_element))
       path) = path
  <-> forallb (fun e => has (V3.type e)) path = true.
Proof. no_runtime.
  induction path as [|[t i n] path IH]; cbn; [done|].
  rewrite andb_true_iff, <- IH. destruct t; cbn.
  - split; [intros [= H]; by split | intros [_ H]; by rewrite H].
  - split; [discriminate | intros [[=] _]].
Qed.

Lemma v4_v3_path_round_trip (path : list V4.PathElement) :
  List.map (fun v3_element =>
              V4.mkPathElement (V3.get_text (V3.type v3_element))
                               (V3.id v3_element) (V3.name v3_element))
    (List.map (fun v4_element =>
                 V3.mkElement (Some (V4.kind v4_element))
                              (V4.id v4_element) (V4.name v4_element))
       path) = path.
Proof. no_runtime.
  induction path as [|[k i n] path IH]; cbn; [done|]. by rewrite IH.
Qed.

(** X1: converting a v3 Reference to a v4 Key and back returns the
    Reference exactly when the Reference has a non-empty app, no
    name_space set to the empty string and a type in every path element,
    or is the Reference with no field at all.  Any other Reference comes
    back changed. *)
Theorem v3_v4_key_round_trip (v3_ref : V3.Reference) :
  v4_to_v3_reference (v3_to_v4_key v3_ref) = v3_ref
  <-> v3_key_for_v4 v3_ref = true \/ v3_ref = V3.Reference_Clear.
Proof. no_runtime.
  destruct v3_ref as [a ns path].
  unfold v3_key_for_v4, v3_to_v4_key, v4_to_v3_reference.
  cbn [V3.app V3.name_space V3.path].
  destruct (nonempty (V3.get_text a)) eqn:Ha; cbn [negb andb].
  - cbn [V4.partition_id V4.path_element V4.dataset_id V4.namespace
         V3.app V3.name_space V3.path V3.Reference_Clear].
    rewrite andb_true_iff, <- namespace_round_trip, <- v3_v4_path_round_trip.
    destruct a as [s|]; [|discriminate]. cbn [V3.get_text default].
    split.
    + intros [= Hns Hpath]. left. by split.
    + intros [[Hns Hpath]|[=]]. by rewrite Hns, Hpath.
  - cbn. unfold V3.Reference_Clear. naive_solver.
Qed.

(** X2: converting a v4 Key to a v3 Reference and back returns the Key
    exactly when its partition id holds a non-empty dataset id and no
    empty namespace, or the Key has no field at all.  A Key with path
    elements and no dataset id loses them. *)
Theorem v4_v3_key_round_trip (v4_key : V4.Key) :
  v3_to_v4_key (v4_to_v3_reference v4_key) = v4_key
  <-> v4_key_for_v3 v4_key = true \/ v4_key = V4.Key_Clear.
Proof. no_runtime.
  destruct v4_key as [[[d n]|] path];
    unfold v4_key_for_v3, v3_to_v4_key, v4_to_v3_reference;
    cbn [V4.partition_id V4.path_element V4.dataset_id V4.namespace
         V3.app V3.name_space V3.path V3.Reference_Clear].
  - destruct (nonempty (V3.get_text d)) eqn:Hd; cbn [negb andb].
    + rewrite v4_v3_path_round_trip, <- namespace_round_trip.
      destruct d as [s|]; [|discriminate]. cbn [V3.get_text default].
      split.
      * intros [= Hn]. by left.
      * intros [Hn|[=]]. by rewrite Hn.
    + unfold V4.Key_Clear. naive_solver.
  - cbn. unfold V4.Key_Clear. destruct path; naive_solver.
Qed.

Lemma nonempty_get_text (f : option text) :
  nonempty (V3.get_text f) = true -> f = Some (V3.get_text f).
Proof. no_runtime. by destruct f. Qed.

Lemma namespace_id_round_trip (namespace_id : text) :
  (if nonempty (V3.get_text (if nonempty namespace_id
                             then Some namespace_id else None))
   then V3.get_text (if nonempty namespace_id
                     then Some namespace_id else None)
   else []) = namespace_id.
Proof. no_runtime.
  destruct (nonempty namespace_id) eqn:Hn; cbn; [by rewrite Hn|].
  by apply nonempty_false in Hn.
Qed.

Lemma v3_v1_element_round_trip (e : V3.Element) :
  v3_element_for_v1 e = true ->
  v1_to_v3_element (v3_to_v1_element e) = Ok e.
Proof. no_runtime.
  destruct e as [[t|] i n]; unfold v3_element_for_v1; cbn; [|discriminate].
  intros [Ht Hn]%andb_prop.
  apply is_text_encode in Ht as [bt Hbt].
  unfold v1_to_v3_element, v3_to_v1_element. cbn.
  destruct n as [n|].
  - apply andb_prop in Hn as [Hn Hi]. destruct i; [discriminate|].
    apply is_text_encode in Hn as [bn Hbn].
    cbn. rewrite Hbt. cbn. rewrite (string_field_of_encoded _ _ Hbt). cbn.
    rewrite Hbn. cbn. by rewrite (string_field_of_encoded _ _ Hbn).
  - destruct i; cbn; rewrite Hbt; cbn;
      by rewrite (string_field_of_encoded _ _ Hbt).
Qed.

Lemma v3_v1_path_round_trip (path : list V3.Element) :
  forallb v3_element_for_v1 path = true ->
  v1_to_v3_elements (List.map v3_to_v1_element path) = Ok path.
Proof. no_runtime.
  induction path as [|e path IH]; cbn; [done|].
  intros [He Hpath]%andb_prop.
  by rewrite (v3_v1_element_round_trip e He), (IH Hpath).
Qed.

Lemma v1_v3_element_round_trip (e : V1.PathElement) :
  v1_element_is_text e = true ->
  exists v3_element,
    v1_to_v3_element e = Ok v3_element /\ v3_to_v1_element v3_element = e.
Proof. no_runtime.
  destruct e as [kind id_type]. unfold v1_element_is_text. cbn.
  intros [Hk Hn]%andb_prop.
  apply is_text_encode in Hk as [bk Hbk].
  unfold v1_to_v3_element. cbn. rewrite Hbk. cbn.
  rewrite (string_field_of_encoded _ _ Hbk). cbn.
  destruct id_type as [|i|n]; [by eexists..|].
  apply is_text_encode in Hn as [bn Hbn]. rewrite Hbn. cbn.
  rewrite (string_field_of_encoded _ _ Hbn). cbn. by eexists.
Qed.

Lemma v1_v3_path_round_trip (path : list V1.PathElement) :
  forallb v1_element_is_text path = true ->
  exists elements,
    v1_to_v3_elements path = Ok elements /\
    List.map v3_to_v1_element elements = path.
Proof. no_runtime.
  induction path as [|e path IH]; cbn; [by exists []|].
  intros [He Hpath]%andb_prop.
  destruct (v1_v3_element_round_trip e He) as (e3 & -> & He3).
  destruct (IH Hpath) as (elements & -> & Hels).
  exists (e3 :: elements). cbn. by rewrite He3, Hels.
Qed.

(** X3: a v3 Reference with a non-empty app, no empty name_space and path
    elements that fit a v1 element, converted to a v1 Key and back, is
    the same Reference, provided the resolver maps the app to a non-empty
    project id and that project id back to the app. *)
Theorem v3_v1_key_round_trip (v3_ref : V3.Reference) (project_id : text) :
  v3_key_for_v1 v3_ref = true ->
  app_to_project_id (V3.get_text (V3.app v3_ref)) = Ok project_id ->
  nonempty project_id = true ->
  project_to_app_id project_id = Ok (V3.get_text (V3.app v3_ref)) ->
  exists v1_key,
    v3_to_v1_key v3_ref = Ok v1_key /\
    v1_to_v3_reference v1_key = Ok v3_ref.
Proof.
  clear ParsePartialFromString ParseFromString SerializePartialToString
        micros_to_timestamp micros_from_timestamp.
  destruct v3_ref as [a ns path].
  unfold v3_key_for_v1, app_to_project_id, project_to_app_id.
  cbn [V3.app V3.name_space V3.path].
  intros [[Ha Hns]%andb_prop Hpath]%andb_prop Hproject Hp Happ.
  unfold v3_to_v1_key. cbn [V3.app V3.name_space V3.path].
  rewrite Ha, Hproject. cbn [negb bind]. eexists. split; [reflexivity|].
  unfold v1_to_v3_reference.
  cbn [V1.partition_id V1.path V1.project_id V1.namespace_id].
  rewrite Hp, Happ. cbn [bind].
  rewrite (v3_v1_path_round_trip path Hpath). cbn [bind].
  rewrite <- (nonempty_get_text a Ha).
  apply namespace_round_trip in Hns.
  destruct (nonempty (V3.get_text ns)) eqn:Hn.
  - rewrite Hn. by rewrite Hns.
  - cbn. by rewrite <- Hns.
Qed.

(** X4: a v1 Key with a non-empty project id and strings that encode,
    converted to a v3 Reference and back, is the same Key, provided the
    resolver maps the project id to a non-empty app and that app back to
    the project id. *)
Theorem v1_v3_key_round_trip (v1_key : V1.Key) (partition_id : V1.PartitionId)
    (app_id : text) :
  V1.partition_id v1_key = Some partition_id ->
  nonempty (V1.project_id partition_id) = true ->
  forallb v1_element_is_text (V1.path v1_key) = true ->
  project_to_app_id (V1.project_id partition_id) = Ok app_id ->
  nonempty app_id = true ->
  app_to_project_id app_id = Ok (V1.project_id partition_id) ->
  exists v3_ref,
    v1_to_v3_reference v1_key = Ok v3_ref /\
    v3_to_v1_key v3_ref = Ok v1_key.
Proof.
  clear ParsePartialFromString ParseFromString SerializePartialToString
        micros_to_timestamp micros_from_timestamp.
  destruct v1_key as [pid path], partition_id as [project_id namespace_id].
  unfold app_to_project_id, project_to_app_id.
  cbn [V1.partition_id V1.path V1.project_id].
  intros -> Hp Hpath Happ Ha Hproject.
  destruct (v1_v3_path_round_trip path Hpath) as (elements & Hels & Hback).
  unfold v1_to_v3_reference.
  cbn [V1.partition_id V1.path V1.project_id V1.namespace_id].
  rewrite Hp, Happ, Hels. cbn [bind]. eexists. split; [reflexivity|].
  unfold v3_to_v1_key.
  cbn [V3.app V3.name_space V3.path V3.get_text default from_option id].
  rewrite Ha, Hproject, Hback. cbn [negb bind].
  pose proof (namespace_id_round_trip namespace_id) as Hns.
  unfold V3.get_text in Hns. by rewrite Hns.
Qed.

(** ** Lists of keys *)

(** X6: [v3_to_v1_keys] never fails and converts the References in
    order; [v1_to_v3_references] returns a list exactly when every Key
    converts, in order, and otherwise raises: one Key of an unknown
    project fails the whole list. *)
Theorem key_lists_in_order :
  (forall v3_refs,
      exists v1_keys,
        v3_to_v1_keys v3_refs = Ok v1_keys /\
        Forall2 (fun v3_ref v1_key => v3_to_v1_key v3_ref = Ok v1_key)
                v3_refs v1_keys) /\
  (forall v1_keys v3_refs,
      v1_to_v3_references v1_keys = Ok v3_refs <->
      Forall2 (fun v1_key v3_ref => v1_to_v3_reference v1_key = Ok v3_ref)
              v1_keys v3_refs) /\
  (forall v1_keys v1_key e,
      v1_key ∈ v1_keys ->
      v1_to_v3_reference v1_key = Raise e ->
      exists e', v1_to_v3_references v1_keys = Raise e').
Proof.
  clear ParsePartialFromString ParseFromString SerializePartialToString
        micros_to_timestamp micros_from_timestamp.
  split; [|split].
  - induction v3_refs as [|r rs (ks & Hks & Hall)]; cbn.
    + exists []. by split.
    + destruct (v3_to_v1_key_total r) as [k Hk]. rewrite Hk, Hks. cbn.
      exists (k :: ks). split; [reflexivity|]. by constructor.
  - induction v1_keys as [|k ks IH]; intros rs; cbn.
    + split; [intros [= <-]; constructor | by intros ->%Forall2_nil_inv_l].
    + split.
      * destruct (v1_to_v3_reference k) as [r|] eqn:Hk; [|discriminate].
        cbn. destruct (v1_to_v3_references ks) as [rs'|] eqn:Hks;
          [|discriminate].
        intros [= <-]. constructor; [exact Hk|]. by apply IH.
      * intros (r & rs' & Hk & Hall & ->)%Forall2_cons_inv_l.
        apply IH in Hall. by rewrite Hk, Hall.
  - induction v1_keys as [|k ks IH]; intros k0 e Hin Hraise.
    + by apply elem_of_nil in Hin.
    + cbn. apply elem_of_cons in Hin as [<-|Hin].
      * rewrite Hraise. by eexists.
      * destruct (v1_to_v3_reference k); [|by eexists]. cbn.
        destruct (IH _ _ Hin Hraise) as [e' ->]. by eexists.
Qed.

(** ** Keys as strings *)

(** X7: the v4 Key and the v1 Key made from one v3 Reference print as the
    same string, as long as no path element of the Reference has both an
    id and a name (a v1 element keeps the name, and the v4 string shows
    the id). *)
Theorem key_strings_agree (v3_ref : V3.Reference) :
  forallb id_xor_name (V3.path v3_ref) = true ->
  exists v1_key,
    v3_to_v1_key v3_ref = Ok v1_key /\
    v1_key_to_string v1_key = v4_key_to_string (v3_to_v4_key v3_ref).
Proof.
  clear ParsePartialFromString ParseFromString SerializePartialToString
        micros_to_timestamp micros_from_timestamp.
  intros Hpath. unfold v3_to_v1_key, v3_to_v4_key.
  destruct (nonempty (V3.get_text (V3.app v3_ref))); cbn [negb].
  - destruct (resolve_project_id_total id_resolver
                (V3.get_text (V3.app v3_ref))) as [project_id ->].
    cbn [bind]. eexists. split; [reflexivity|].
    unfold v1_key_to_string, v4_key_to_string.
    cbn [V1.path V4.path_element]. rewrite !List.map_map.
    do 3 f_equal. apply List.map_ext_in. intros e He.
    rewrite forallb_forall in Hpath. specialize (Hpath e He).
    destruct e as [t [i|] [n|]]; first [discriminate | reflexivity].
  - eexists. split; reflexivity.
Qed.


(** ** The resolver built from a list *)

Lemma IdResolver_init_loop_app (m : gmap text text) (l1 l2 : list text) :
  IdResolver_init_loop m (l1 ++ l2)
  = (let* m' := IdResolver_init_loop m l1 in IdResolver_init_loop m' l2).
Proof. no_runtime.
  revert m. induction l1 as [|a l1 IH]; intros m; cbn; [done|].
  destruct (index_last (rsplit tilde a)); cbn; [apply IH | done].
Qed.

Lemma IdResolver_init_loop_other (l : list text) (m : gmap text text)
    (project_id : text) :
  (forall a, a ∈ l ->
             resolve_project_id (TableIdResolver ∅) a <> Ok project_id) ->
  exists m', IdResolver_init_loop m l = Ok m' /\
             m' !! project_id = m !! project_id.
Proof. no_runtime.
  revert m. induction l as [|a l IH]; intros m Hl; cbn [IdResolver_init_loop].
  - by exists m.
  - destruct (resolve_project_id_total (TableIdResolver ∅) a) as [p Hp].
    rewrite Hp. cbn [bind].
    destruct (IH (<[p:=a]> m)) as (m' & Hm' & Hlookup).
    { intros a' Ha'. apply Hl. by apply list_elem_of_further. }
    exists m'. split; [exact Hm'|]. rewrite Hlookup.
    apply lookup_insert_ne. intros ->.
    exact (Hl a (list_elem_of_here _ _) Hp).
Qed.

(** X9: on the resolver built from a list of application ids,
    [resolve_app_id] of the project id of an application id of the list
    returns that application id, unless a later application id of the
    list has the same project id: the last one wins. *)
Theorem id_resolver_last_wins (before after : list text)
    (app_id project_id : text) :
  resolve_project_id (TableIdResolver ∅) app_id = Ok project_id ->
  (forall a, a ∈ after ->
             resolve_project_id (TableIdResolver ∅) a <> Ok project_id) ->
  exists r,
    IdResolver_init (before ++ app_id :: after) = Ok r /\
    resolve_project_id r app_id = Ok project_id /\
    resolve_app_id r project_id = Ok app_id.
Proof. no_runtime.
  intros Hp Hafter. unfold IdResolver_init.
  rewrite IdResolver_init_loop_app.
  destruct (IdResolver_init_loop_spec before ∅) as (m1 & -> & _).
  cbn [bind IdResolver_init_loop]. rewrite Hp. cbn [bind].
  destruct (IdResolver_init_loop_other after (<[project_id:=app_id]> m1)
              project_id Hafter) as (m2 & -> & Hlookup).
  rewrite lookup_insert_eq in Hlookup.
  cbn [bind]. eexists. split; [reflexivity|]. split; [exact Hp|].
  cbn [resolve_app_id]. rewrite Hlookup.
  rewrite bool_decide_eq_true_2 by (by eexists). reflexivity.
Qed.

(** ** Values with a meaning *)

Local Ltac unfold_conversions :=
  unfold round_trips_v4, round_trips_v1,
    v3_property_to_v4_value, v3_property_to_v4_value_with,
    v3_property_to_v1_value, v3_property_to_v1_value_with,
    v4_to_v3_property, v1_to_v3_property,
    v4_to_v3_property_with, v1_to_v3_property_with.

(** X10: an integer Property with no meaning, with the meaning GD_RATING
    or with the meaning GD_WHEN comes back unchanged from the v4 Value it
    converts to.  It comes back unchanged from the v1 Value too; for a
    GD_WHEN value inside the RFC 3339 range this rests on the timestamp
    helpers, which must return the microseconds they were given. *)
Theorem integer_round_trip (depth : nat) (m : option Z) (name : text)
    (multiple indexed : bool) (i : Z) :
  m = None \/ m = Some V3.GD_RATING \/ m = Some V3.GD_WHEN ->
  round_trips_v4 depth
    (V3.mkProperty m None name
       (V3.set_int64Value V3.PropertyValue_Clear i) multiple) indexed /\
  (is_text name = true ->
   (m = Some V3.GD_WHEN -> is_in_rfc_3339_bounds i = true ->
    micros_from_timestamp (micros_to_timestamp i) = i) ->
   round_trips_v1 depth
     (V3.mkProperty m None name
        (V3.set_int64Value V3.PropertyValue_Clear i) multiple) indexed).
Proof.
  intros Hm. split.
  - unfold_conversions.
    destruct Hm as [->|[->| ->]]; destruct multiple, indexed; cbn;
      (eexists; split; [reflexivity|]); reflexivity.
  - intros Hname Hhelpers.
    apply is_text_encode in Hname as [encoded_name Hname].
    pose proof (string_field_of_encoded _ _ Hname) as Hfield.
    unfold_conversions.
    destruct Hm as [->|[->| ->]].
    + destruct multiple, indexed; cbn;
        (eexists; split; [reflexivity|]); cbn;
        rewrite Hname; cbn; rewrite Hfield; reflexivity.
    + destruct multiple, indexed; cbn;
        (eexists; split; [reflexivity|]); cbn;
        rewrite Hname; cbn; rewrite Hfield; reflexivity.
    + cbn. destruct (is_in_rfc_3339_bounds i) eqn:Hbounds.
      * specialize (Hhelpers eq_refl eq_refl).
        destruct multiple, indexed; cbn;
          (eexists; split; [reflexivity|]); cbn;
          rewrite Hname; cbn; rewrite Hfield; cbn; rewrite Hhelpers;
          reflexivity.
      * destruct multiple, indexed; cbn;
          (eexists; split; [reflexivity|]); cbn;
          rewrite Hname; cbn; rewrite Hfield; reflexivity.
Qed.

Lemma is_in_rfc_3339_bounds_spec (i : Z) :
  is_in_rfc_3339_bounds i = true <->
  -62135596800000000 <= i <= 253402300799999999.
Proof. no_runtime.
  unfold is_in_rfc_3339_bounds, RFC_3339_MIN_MICROSECONDS_INCLUSIVE,
    RFC_3339_MAX_MICROSECONDS_INCLUSIVE.
  rewrite andb_true_iff, !Z.leb_le. lia.
Qed.

(** X11: of an integer with the meaning GD_WHEN, [v3_property_to_v4_value]
    makes a timestamp with no meaning; [v3_property_to_v1_value] makes a
    timestamp when the microseconds are inside the RFC 3339 range, which
    runs from year 1 to year 9999, and otherwise an integer with the
    meaning [MEANING_NON_RFC_3339_TIMESTAMP]. *)
Theorem timestamp_representation (depth : nat) (name : text)
    (multiple indexed : bool) (i : Z) :
  (exists v4_value,
      v3_property_to_v4_value depth
        (V3.mkProperty (Some V3.GD_WHEN) None name
           (V3.set_int64Value V3.PropertyValue_Clear i) multiple) indexed
      = Ok v4_value /\
      V4.timestamp_microseconds_value v4_value = Some i /\
      V4.integer_value v4_value = None /\
      V4.meaning v4_value = None) /\
  (exists v1_value,
      v3_property_to_v1_value depth
        (V3.mkProperty (Some V3.GD_WHEN) None name
           (V3.set_int64Value V3.PropertyValue_Clear i) multiple) indexed
      = Ok v1_value /\
      V1.value_type v1_value
      = (if is_in_rfc_3339_bounds i
         then V1.timestamp_value (micros_to_timestamp i)
         else V1.integer_value i) /\
      V1.meaning v1_value
      = (if is_in_rfc_3339_bounds i then 0
         else MEANING_NON_RFC_3339_TIMESTAMP)) /\
  (is_in_rfc_3339_bounds i = true <->
   -62135596800000000 <= i <= 253402300799999999).
Proof.
  split; [|split].
  - unfold_conversions. destruct indexed; cbn; eexists; by repeat split.
  - unfold_conversions. cbn.
    destruct (is_in_rfc_3339_bounds i), indexed; cbn; eexists;
      by repeat split.
  - apply is_in_rfc_3339_bounds_spec.
Qed.

Lemma v3_property_to_v4_value_ext (depth : nat) (p q : V3.Property)
    (indexed : bool) :
  V3.value p = V3.value q ->
  v3_meaning_and_zlib p = v3_meaning_and_zlib q ->
  v3_property_to_v4_value depth p indexed
  = v3_property_to_v4_value depth q indexed.
Proof.
  unfold v3_property_to_v4_value, v3_property_to_v4_value_with.
  by intros -> ->.
Qed.

Lemma v3_property_to_v1_value_ext (depth : nat) (p q : V3.Property)
    (indexed : bool) :
  V3.value p = V3.value q ->
  v3_meaning_and_zlib p = v3_meaning_and_zlib q ->
  (V3.get_int (V3.meaning p) =? V3.EMPTY_LIST)
  = (V3.get_int (V3.meaning q) =? V3.EMPTY_LIST) ->
  v3_property_to_v1_value depth p indexed
  = v3_property_to_v1_value depth q indexed.
Proof.
  unfold v3_property_to_v1_value, v3_property_to_v1_value_with.
  by intros -> -> ->.
Qed.

Lemma union_invalid_no_meaning (p : V3.Property) :
  __is_v3_property_value_union_valid (V3.value p) = false ->
  v3_meaning_and_zlib p = (None, false).
Proof. no_runtime.
  intros H. unfold v3_meaning_and_zlib. by rewrite H.
Qed.

Lemma meaning_invalid_no_meaning (p : V3.Property) :
  __is_v3_property_value_meaning_valid (V3.value p)
    (V3.get_int (V3.meaning p)) = false ->
  v3_meaning_and_zlib p = v3_meaning_and_zlib (without_meaning p).
Proof. no_runtime.
  intros H. unfold v3_meaning_and_zlib, without_meaning.
  cbn [V3.value V3.meaning V3.meaning_uri V3.get_int default from_option id].
  rewrite H. cbn [negb meaning_is].
  destruct (__is_v3_property_value_union_valid (V3.value p)); [|reflexivity].
  cbn [negb]. by destruct (V3.get_int (V3.meaning p) =? V3.NO_MEANING).
Qed.

(** X12: a meaning that the value cannot carry is ignored.  When more
    than one value field of the Property is set, the conversions to v4
    and to v1 give what they give for the Property without its meaning
    and its meaning_uri (for v1, unless the meaning is the empty-list
    marker, which is tested first); when the table of meanings rejects
    the meaning for the value, they give what they give for the Property
    without its meaning. *)
Theorem ignored_meanings (depth : nat) (p : V3.Property) (indexed : bool) :
  (__is_v3_property_value_union_valid (V3.value p) = false ->
   v3_property_to_v4_value depth p indexed
   = v3_property_to_v4_value depth (without_meanings p) indexed /\
   (V3.get_int (V3.meaning p) <> V3.EMPTY_LIST ->
    v3_property_to_v1_value depth p indexed
    = v3_property_to_v1_value depth (without_meanings p) indexed)) /\
  (__is_v3_property_value_meaning_valid (V3.value p)
     (V3.get_int (V3.meaning p)) = false ->
   v3_property_to_v4_value depth p indexed
   = v3_property_to_v4_value depth (without_meaning p) indexed /\
   v3_property_to_v1_value depth p indexed
   = v3_property_to_v1_value depth (without_meaning p) indexed).
Proof.
  split.
  - intros Hunion.
    assert (Hmz : v3_meaning_and_zlib p
                  = v3_meaning_and_zlib (without_meanings p)).
    { rewrite !union_invalid_no_meaning; done. }
    split.
    + by apply v3_property_to_v4_value_ext.
    + intros Hne. apply v3_property_to_v1_value_ext; [done..|].
      by apply Z.eqb_neq in Hne as ->.
  - intros Hmeaning.
    pose proof (meaning_invalid_no_meaning p Hmeaning) as Hmz.
    split.
    + by apply v3_property_to_v4_value_ext.
    + apply v3_property_to_v1_value_ext; [done..|].
      cbn. destruct (Z.eqb_spec (V3.get_int (V3.meaning p)) V3.EMPTY_LIST)
        as [Heq|]; [|done].
      rewrite Heq in Hmeaning. discriminate.
Qed.

Lemma zlib_string_meaning (m : option Z) (name : text) (s : bytes)
    (multiple : bool) :
  v3_meaning_and_zlib
    (V3.mkProperty m (Some URI_MEANING_ZLIB) name
       (V3.set_stringValue V3.PropertyValue_Clear s) multiple)
  = (Some V3.BLOB, true).
Proof. no_runtime.
  unfold v3_meaning_and_zlib.
  cbn [V3.value V3.meaning V3.meaning_uri V3.get_text V3.get_int default
       from_option id].
  change (__is_v3_property_value_union_valid
            (V3.set_stringValue V3.PropertyValue_Clear s)) with true.
  change (nonempty URI_MEANING_ZLIB) with true.
  cbn [negb meaning_is].
  assert (Hfinal : forall v3_meaning,
             (let '(v3_meaning, v3_uri_meaning) :=
                (v3_meaning, Some URI_MEANING_ZLIB) in
              match v3_uri_meaning with
              | Some uri =>
                if bool_decide (uri = URI_MEANING_ZLIB) then
                  if has (V3.stringValue
                            (V3.set_stringValue V3.PropertyValue_Clear s))
                  then (if negb (meaning_is v3_meaning V3.BLOB)
                        then Some V3.BLOB else v3_meaning, true)
                  else (v3_meaning, false)
                else (v3_meaning, false)
              | None => (v3_meaning, false)
              end) = (Some V3.BLOB, true)).
  { intros [x|]; cbn; [|reflexivity].
    by destruct (Z.eqb_spec x V3.BLOB) as [->|]. }
  destruct (_ =? V3.NO_MEANING); [apply Hfinal|].
  destruct (negb _); apply Hfinal.
Qed.


(** X14: a byte string with the meaning BYTESTRING or BLOB converts to a
    blob, whether or not its bytes are UTF-8.  Converting the modern
    Value back gives the same bytes; BYTESTRING comes back as BYTESTRING,
    and BLOB comes back as BLOB when the Value is not indexed and as
    BYTESTRING when it is. *)
Theorem blob_meaning_round_trip (depth : nat) (m : Z) (name : text)
    (multiple indexed : bool) (s : bytes) :
  m = V3.BLOB \/ m = V3.BYTESTRING ->
  (exists v4_value,
      v3_property_to_v4_value depth
        (V3.mkProperty (Some m) None name
           (V3.set_stringValue V3.PropertyValue_Clear s) multiple) indexed
      = Ok v4_value /\
      V4.blob_value v4_value = Some s /\
      v4_to_v3_property name multiple false v4_value
      = Ok (V3.mkProperty (Some (if indexed then V3.BYTESTRING else m))
              None name (V3.set_stringValue V3.PropertyValue_Clear s)
              multiple)) /\
  (is_text name = true ->
   exists v1_value,
     v3_property_to_v1_value depth
       (V3.mkProperty (Some m) None name
          (V3.set_stringValue V3.PropertyValue_Clear s) multiple) indexed
     = Ok v1_value /\
     V1.value_type v1_value = V1.blob_value s /\
     v1_to_v3_property name multiple false v1_value
     = Ok (V3.mkProperty (Some (if indexed then V3.BYTESTRING else m))
             None name (V3.set_stringValue V3.PropertyValue_Clear s)
             multiple)).
Proof.
  intros Hm. split.
  - unfold_conversions.
    destruct Hm as [->| ->]; destruct multiple, indexed; cbn;
      eexists; by repeat split.
  - intros Hname.
    apply is_text_encode in Hname as [encoded_name Hname].
    pose proof (string_field_of_encoded _ _ Hname) as Hfield.
    unfold_conversions.
    destruct Hm as [->| ->]; destruct multiple, indexed; cbn;
      (eexists; split; [reflexivity|]; split; [reflexivity|]);
      cbn; rewrite Hname; cbn; rewrite Hfield; reflexivity.
Qed.

Lemma string_meaning_cases (m : Z) :
  string_meaning m = true ->
  m ∈ [V3.TEXT; V3.ATOM_CATEGORY; V3.ATOM_LINK; V3.ATOM_TITLE;
       V3.ATOM_CONTENT; V3.ATOM_SUMMARY; V3.ATOM_AUTHOR; V3.GD_EMAIL;
       V3.GD_IM; V3.GD_PHONENUMBER; V3.GD_POSTALADDRESS; V3.BLOBKEY].
Proof. no_runtime.
  unfold string_meaning, value_checkers, checkers_get.
  repeat match goal with
         | |- context [?a =? m] =>
           destruct (Z.eqb_spec a m) as [<-|?]
         end;
    cbn; intros H; try discriminate; set_solver.
Qed.

(** X15: a string Property whose bytes are valid UTF-8 and whose meaning
    is one of the string meanings of the table (TEXT, BLOBKEY, the ATOM
    and GD meanings) comes back unchanged, meaning included, from the v4
    Value and from the v1 Value it converts to. *)
Theorem string_meaning_round_trip (depth : nat) (m : Z) (name : text)
    (multiple indexed : bool) (s : bytes) :
  string_meaning m = true ->
  is_valid_utf8 s = true ->
  round_trips_v4 depth
    (V3.mkProperty (Some m) None name
       (V3.set_stringValue V3.PropertyValue_Clear s) multiple) indexed /\
  (is_text name = true ->
   round_trips_v1 depth
     (V3.mkProperty (Some m) None name
        (V3.set_stringValue V3.PropertyValue_Clear s) multiple) indexed).
Proof.
  intros Hm Hs. apply string_meaning_cases in Hm.
  destruct (is_valid_utf8_decode s Hs) as [t Ht].
  pose proof (encode_decode _ _ Ht) as Het.
  split.
  - unfold_conversions.
    repeat (apply elem_of_cons in Hm as [->|Hm]);
      [..|by apply elem_of_nil in Hm].
    all: destruct multiple, indexed; cbn; rewrite Hs; cbn;
      unfold string_field_of_bytes; rewrite ?Ht; cbn;
      (eexists; split; [reflexivity|]); cbn; rewrite ?Het; reflexivity.
  - intros Hname.
    apply is_text_encode in Hname as [encoded_name Hname].
    pose proof (string_field_of_encoded _ _ Hname) as Hfield.
    unfold_conversions.
    repeat (apply elem_of_cons in Hm as [->|Hm]);
      [..|by apply elem_of_nil in Hm].
    all: destruct multiple, indexed; cbn; rewrite Hs; cbn;
      unfold string_field_of_bytes at 1; rewrite Ht; cbn;
      (eexists; split; [reflexivity|]); cbn;
      rewrite Hname; cbn; rewrite Hfield; cbn; rewrite Het; reflexivity.
Qed.

(** X16: a point Property with the meaning GEORSS_POINT converts to a
    geo point, and one with no meaning to an embedded entity in v4 and to
    a geo point marked [MEANING_POINT_WITHOUT_V3_MEANING] in v1; either
    way the Property comes back unchanged, so the two kinds of point stay
    apart. *)
Theorem geo_point_round_trip (depth : nat) (name : text)
    (multiple indexed : bool) (pv : V3.PointValue) :
  (exists v4_value,
      v3_property_to_v4_value depth
        (V3.mkProperty (Some V3.GEORSS_POINT) None name
           (V3.set_pointvalue V3.PropertyValue_Clear pv) multiple) indexed
      = Ok v4_value /\
      V4.geo_point_value v4_value
      = Some (V4.mkGeoPoint (V3.x pv) (V3.y pv)) /\
      V4.entity_value v4_value = None) /\
  (exists v4_value,
      v3_property_to_v4_value depth
        (V3.mkProperty None None name
           (V3.set_pointvalue V3.PropertyValue_Clear pv) multiple) indexed
      = Ok v4_value /\
      V4.geo_point_value v4_value = None /\
      V4.entity_value v4_value = Some (__v3_to_v4_point_entity pv) /\
      V4.meaning v4_value = Some MEANING_PREDEFINED_ENTITY_POINT) /\
  (exists v1_value,
      v3_property_to_v1_value depth
        (V3.mkProperty None None name
           (V3.set_pointvalue V3.PropertyValue_Clear pv) multiple) indexed
      = Ok v1_value /\
      V1.value_type v1_value
      = V1.geo_point_value (V1.mkLatLng (V3.x pv) (V3.y pv)) /\
      V1.meaning v1_value = MEANING_POINT_WITHOUT_V3_MEANING) /\
  (forall m, m = None \/ m = Some V3.GEORSS_POINT ->
     round_trips_v4 depth
       (V3.mkProperty m None name
          (V3.set_pointvalue V3.PropertyValue_Clear pv) multiple) indexed /\
     (is_text name = true ->
      round_trips_v1 depth
        (V3.mkProperty m None name
           (V3.set_pointvalue V3.PropertyValue_Clear pv) multiple) indexed)).
Proof.
  split; [|split; [|split]].
  - unfold_conversions. destruct indexed; cbn; eexists; by repeat split.
  - unfold_conversions. destruct indexed; cbn; eexists; by repeat split.
  - unfold_conversions. destruct indexed; cbn; eexists; by repeat split.
  - intros m Hm. split.
    + unfold_conversions. destruct pv as [x y].
      destruct Hm as [->| ->]; destruct multiple, indexed;
        (eexists; split; [reflexivity|]); reflexivity.
    + intros Hname.
      apply is_text_encode in Hname as [encoded_name Hname].
      pose proof (string_field_of_encoded _ _ Hname) as Hfield.
      unfold_conversions. destruct pv as [x y].
      destruct Hm as [->| ->]; destruct multiple, indexed; cbn;
        (eexists; split; [reflexivity|]); cbn;
        rewrite Hname; cbn; rewrite Hfield; reflexivity.
Qed.

(** X17: a Property with no value field set, no meaning and no
    meaning_uri converts to a v4 Value with no value field and to the v1
    null value, and comes back unchanged from both. *)
Theorem null_round_trip (depth : nat) (name : text)
    (multiple indexed : bool) :
  (exists v1_value,
      v3_property_to_v1_value depth
        (V3.mkProperty None None name V3.PropertyValue_Clear multiple)
        indexed
      = Ok v1_value /\
      V1.value_type v1_value = V1.null_value) /\
  v3_property_to_v4_value depth
    (V3.mkProperty None None name V3.PropertyValue_Clear multiple) indexed
  = Ok (V4.mkValue None None None None None None None None None None []
                   None (if indexed then None else Some false)) /\
  round_trips_v4 depth
    (V3.mkProperty None None name V3.PropertyValue_Clear multiple) indexed /\
  (is_text name = true ->
   round_trips_v1 depth
     (V3.mkProperty None None name V3.PropertyValue_Clear multiple) indexed).
Proof.
  split; [|split; [|split]].
  - unfold_conversions. destruct indexed; cbn; eexists; by split.
  - unfold_conversions. by destruct indexed.
  - unfold_conversions.
    destruct multiple, indexed; (eexists; split; [reflexivity|]); reflexivity.
  - intros Hname.
    apply is_text_encode in Hname as [encoded_name Hname].
    pose proof (string_field_of_encoded _ _ Hname) as Hfield.
    unfold_conversions.
    destruct multiple, indexed; cbn;
      (eexists; split; [reflexivity|]); cbn;
      rewrite Hname; cbn; rewrite Hfield; reflexivity.
Qed.

(** X18: a user Property with no meaning converts to an embedded entity
    with the meaning [MEANING_PREDEFINED_ENTITY_USER], and comes back
    unchanged from the v4 Value and from the v1 Value, as long as the
    user has no nickname, which the converter does not carry (and, for
    v1, its strings and the name encode). *)
Theorem user_property_round_trip (depth : nat) (name : text)
    (multiple indexed : bool) (u : V3.UserValue) :
  V3.nickname u = None ->
  (exists v4_value,
      v3_property_to_v4_value depth
        (V3.mkProperty None None name
           (V3.set_uservalue V3.PropertyValue_Clear u) multiple) indexed
      = Ok v4_value /\
      V4.entity_value v4_value = Some (v3_user_value_to_v4_entity u) /\
      V4.meaning v4_value = Some MEANING_PREDEFINED_ENTITY_USER /\
      v4_to_v3_property name multiple false v4_value
      = Ok (V3.mkProperty None None name
              (V3.set_uservalue V3.PropertyValue_Clear u) multiple)) /\
  (user_is_text u = true -> is_text name = true ->
   exists v1_value,
     v3_property_to_v1_value depth
       (V3.mkProperty None None name
          (V3.set_uservalue V3.PropertyValue_Clear u) multiple) indexed
     = Ok v1_value /\
     V1.value_type v1_value
     = V1.entity_value (v3_user_value_to_v1_entity u) /\
     V1.meaning v1_value = MEANING_PREDEFINED_ENTITY_USER /\
     v1_to_v3_property name multiple false v1_value
     = Ok (V3.mkProperty None None name
             (V3.set_uservalue V3.PropertyValue_Clear u) multiple)).
Proof.
  intros Hnick. split.
  - pose proof (user_round_trip_v4 u Hnick) as Hrt.
    unfold_conversions.
    destruct multiple, indexed;
      (eexists; split; [reflexivity|]; split; [reflexivity|];
       split; [reflexivity|]);
      cbn -[v4_entity_to_v3_user_value v3_user_value_to_v4_entity];
      rewrite Hrt; reflexivity.
  - intros Hu Hname.
    pose proof (user_round_trip_v1 u Hnick Hu) as Hrt.
    apply is_text_encode in Hname as [encoded_name Hname].
    pose proof (string_field_of_encoded _ _ Hname) as Hfield.
    unfold_conversions.
    destruct multiple, indexed;
      (eexists; split; [reflexivity|]; split; [reflexivity|];
       split; [reflexivity|]);
      cbn -[v1_entity_to_v3_user_value v3_user_value_to_v1_entity];
      rewrite Hname; cbn -[v1_entity_to_v3_user_value
                           v3_user_value_to_v1_entity];
      rewrite Hfield;
      cbn -[v1_entity_to_v3_user_value v3_user_value_to_v1_entity];
      rewrite Hrt; reflexivity.
Qed.

Lemma v4_property_meaning_projection (v : V4.Value) (p : V3.Property) :
  V3.meaning (v4_property_meaning true v p) = Some V3.INDEX_VALUE.
Proof. no_runtime.
  unfold v4_property_meaning. repeat case_match; reflexivity.
Qed.

Lemma v1_property_meaning_projection (v : V1.Value) (p : V3.Property) :
  V3.meaning (v1_property_meaning true v p) = Some V3.INDEX_VALUE.
Proof. no_runtime.
  unfold v1_property_meaning. repeat case_match; reflexivity.
Qed.

(** X19: a Property made for a projection carries the meaning
    INDEX_VALUE whatever the meaning and the type of the modern Value,
    with one exception: a v4 Value with the empty-list meaning gives the
    empty-list Property. *)
Theorem projection_meaning :
  (forall name is_multi v4_value p,
      v4_to_v3_property name is_multi true v4_value = Ok p ->
      V3.meaning p
      = Some (if meaning_is (V4.meaning v4_value) MEANING_EMPTY_LIST
              then V3.EMPTY_LIST else V3.INDEX_VALUE)) /\
  (forall name is_multi v1_value p,
      v1_to_v3_property name is_multi true v1_value = Ok p ->
      V3.meaning p = Some V3.INDEX_VALUE).
Proof.
  split.
  - intros name is_multi v p. unfold v4_to_v3_property, v4_to_v3_property_with.
    destruct (V4.list_value v); [|discriminate].
    destruct (V4.meaning v) as [m|]; cbn [has andb meaning_is V3.get_int
      default from_option id].
    + destruct (m =? MEANING_EMPTY_LIST); [by intros [= <-]|].
      destruct (v4_value_to_v3_property_value v); cbn [bind]; [|discriminate].
      intros [= <-]. apply v4_property_meaning_projection.
    + destruct (v4_value_to_v3_property_value v); cbn [bind]; [|discriminate].
      intros [= <-]. apply v4_property_meaning_projection.
  - intros name is_multi v p. unfold v1_to_v3_property, v1_to_v3_property_with.
    destruct (V1.value_type v) eqn:Ht; try discriminate.
    all: destruct (Utf8.encode name); cbn [bind]; [|discriminate].
    all: destruct (string_field_of_bytes _); cbn [bind]; [|discriminate].
    all: destruct (v1_value_to_v3_property_value v); cbn [bind];
      [|discriminate].
    all: intros [= <-]; apply v1_property_meaning_projection.
Qed.

(** ** Keys as values *)

Lemma copy_path_element_id (e : V3.Element) : copy_path_element e = e.
Proof. no_runtime. by destruct e as [[?|] [?|] [?|]]. Qed.

Lemma map_copy_path_element (path : list V3.Element) :
  List.map copy_path_element path = path.
Proof. no_runtime.
  induction path as [|e path IH]; cbn; [done|].
  by rewrite copy_path_element_id, IH.
Qed.

Lemma v3_reference_value_to_v3_reference_spec (rv : V3.ReferenceValue) :
  __v3_reference_value_to_v3_reference rv
  = V3.mkReference (V3.rv_app rv) (V3.rv_name_space rv) (V3.pathelement rv).
Proof. no_runtime.
  unfold __v3_reference_value_to_v3_reference.
  rewrite map_copy_path_element.
  by destruct (V3.rv_app rv), (V3.rv_name_space rv).
Qed.

Lemma v3_to_v4_key_and_back (v3_ref : V3.Reference) :
  v3_key_for_v4 v3_ref = true ->
  v4_to_v3_reference (v3_to_v4_key v3_ref) = v3_ref.
Proof. no_runtime.
  destruct v3_ref as [a ns path].
  unfold v3_key_for_v4, v3_to_v4_key, v4_to_v3_reference.
  cbn [V3.app V3.name_space V3.path].
  intros [[Ha Hns]%andb_prop Hpath]%andb_prop. rewrite Ha.
  cbn [negb V4.partition_id V4.path_element V4.dataset_id V4.namespace
       V3.app V3.name_space V3.path V3.Reference_Clear].
  apply namespace_round_trip in Hns. apply v3_v4_path_round_trip in Hpath.
  by rewrite Hns, Hpath, <- (nonempty_get_text a Ha).
Qed.

(** X20: a Property whose value is a reference with a non-empty app, no
    empty name_space and a type in every path element converts to a v4
    Value whose key_value is the v4 Key of that reference, and comes back
    unchanged. *)
Theorem key_property_round_trip (depth : nat) (name : text)
    (multiple indexed : bool) (rv : V3.ReferenceValue) :
  v3_key_for_v4 (__v3_reference_value_to_v3_reference rv) = true ->
  exists v4_value,
    v3_property_to_v4_value depth
      (V3.mkProperty None None name
         (V3.set_referencevalue V3.PropertyValue_Clear rv) multiple) indexed
    = Ok v4_value /\
    V4.key_value v4_value
    = Some (v3_to_v4_key (__v3_reference_value_to_v3_reference rv)) /\
    v4_to_v3_property name multiple false v4_value
    = Ok (V3.mkProperty None None name
            (V3.set_referencevalue V3.PropertyValue_Clear rv) multiple).
Proof.
  intros Hwf. pose proof (v3_to_v4_key_and_back _ Hwf) as Hrt.
  rewrite v3_reference_value_to_v3_reference_spec in Hrt, Hwf.
  assert (Hback : v3_reference_to_v3_property_value
                    (V3.mkReference (V3.rv_app rv) (V3.rv_name_space rv)
                       (V3.pathelement rv))
                  = V3.set_referencevalue V3.PropertyValue_Clear rv).
  { unfold v3_reference_to_v3_property_value.
    cbn [V3.app V3.name_space V3.path]. rewrite map_copy_path_element.
    unfold v3_key_for_v4 in Hwf. cbn [V3.app] in Hwf.
    destruct rv as [[a|] ns path]; [|discriminate].
    by destruct ns. }
  unfold_conversions.
  destruct multiple, indexed;
    (eexists; split; [reflexivity|]; split; [reflexivity|]);
    cbn -[v3_to_v4_key v4_to_v3_reference
          __v3_reference_value_to_v3_reference
          v3_reference_to_v3_property_value];
    rewrite v3_reference_value_to_v3_reference_spec, Hrt, Hback;
    reflexivity.
Qed.

(** ** The loops of the entity converters *)

Lemma v4_to_v3_entity_loops (v4_entity : V4.Entity) (is_projection : bool) :
  v4_to_v3_entity v4_entity is_projection
  = (let* v3_entity :=
       v4_properties_to_v3 is_projection (V4.property v4_entity)
         EntityProto_Clear in
     match V4.key v4_entity with
     | Some v4_key =>
       let v3_ref := v4_to_v3_reference v4_key in
       let* group := v3_reference_to_group v3_ref in
       Ok (V3.mkEntityProto (Some v3_ref) group
             (V3.property v3_entity) (V3.raw_property v3_entity))
     | None => Ok v3_entity
     end).
Proof.
  destruct v4_entity as [k props]. cbn [v4_to_v3_entity V4.property V4.key].
  f_equal. generalize EntityProto_Clear.
  induction props as [|[name v] props IH]; intros acc; [reflexivity|].
  cbn [v4_properties_to_v3 V4.p_name V4.value].
  match goal with
  | |- bind ?X1 _ = bind ?X2 _ => assert (Hx : X1 = X2)
  end.
  { destruct (V4.list_value v) as [|v0 vs]; [reflexivity|].
    revert v0 acc.
    induction vs as [|v1 vs IHvs]; intros v0 acc;
      cbn [v4_list_value_to_v3];
      unfold __add_v3_property_from_v4, v4_to_v3_property;
      (destruct (v4_to_v3_property_with _ _ _ _ _); cbn [bind];
       [|reflexivity]).
    - reflexivity.
    - apply IHvs. }
  rewrite Hx.
  match goal with
  | |- bind ?X _ = _ => destruct X; cbn [bind]; [apply IH | reflexivity]
  end.
Qed.

Lemma v1_to_v3_entity_loops (v1_entity : V1.Entity) (is_projection : bool) :
  v1_to_v3_entity v1_entity is_projection
  = (let* v3_entity :=
       v1_properties_to_v3 is_projection (V1.properties v1_entity)
         EntityProto_Clear in
     match V1.key v1_entity with
     | Some v1_key =>
       let* v3_ref := v1_to_v3_reference v1_key in
       let* group := v3_reference_to_group v3_ref in
       Ok (V3.mkEntityProto (Some v3_ref) group
             (V3.property v3_entity) (V3.raw_property v3_entity))
     | None => Ok v3_entity
     end).
Proof.
  destruct v1_entity as [k items].
  cbn [v1_to_v3_entity V1.properties V1.key].
  f_equal. generalize EntityProto_Clear.
  induction items as [|[name v] items IH]; intros acc; [reflexivity|].
  cbn [v1_properties_to_v3].
  match goal with
  | |- bind ?X1 _ = bind ?X2 _ => assert (Hx : X1 = X2)
  end.
  { destruct (V1.value_type v) as [| | | | | | | | | | |values];
      try reflexivity.
    destruct values as [|v0 vs]; [reflexivity|].
    revert v0 acc.
    induction vs as [|v1 vs IHvs]; intros v0 acc;
      cbn [v1_array_value_to_v3];
      unfold add_v3_property_from_v1, v1_to_v3_property;
      (destruct (v1_to_v3_property_with _ _ _ _ _); cbn [bind];
       [|reflexivity]).
    - reflexivity.
    - apply IHvs. }
  rewrite Hx.
  match goal with
  | |- bind ?X _ = _ => destruct X; cbn [bind]; [apply IH | reflexivity]
  end.
Qed.



Lemma __new_v3_property_spec (e : V3.EntityProto) (b : bool)
    (p : V3.Property) :
  V3.key (__new_v3_property e b p) = V3.key e /\
  V3.entity_group (__new_v3_property e b p) = V3.entity_group e /\
  V3.property (__new_v3_property e b p)
  = V3.property e ++ (if b then [p] else []) /\
  V3.raw_property (__new_v3_property e b p)
  = V3.raw_property e ++ (if b then [] else [p]).
Proof. no_runtime. destruct b; cbn; by rewrite ?app_nil_r. Qed.

Lemma v3_entity_extends_nil {J : Type} (convert : J -> result V3.Property)
    (indexed : J -> bool) (acc : V3.EntityProto) :
  v3_entity_extends convert indexed [] acc acc.
Proof. no_runtime.
  split; [done|]. split; [done|]. exists [], [].
  rewrite !app_nil_r. by repeat split.
Qed.

Lemma v3_entity_extends_app {J : Type} (convert : J -> result V3.Property)
    (indexed : J -> bool) (l1 l2 : list J) (acc e1 e2 : V3.EntityProto) :
  v3_entity_extends convert indexed l1 acc e1 ->
  v3_entity_extends convert indexed l2 e1 e2 ->
  v3_entity_extends convert indexed (l1 ++ l2) acc e2.
Proof. no_runtime.
  intros (Hk1 & Hg1 & ps1 & raws1 & Hp1 & Hr1 & Hps1 & Hraws1)
         (Hk2 & Hg2 & ps2 & raws2 & Hp2 & Hr2 & Hps2 & Hraws2).
  split; [congruence|]. split; [congruence|].
  exists (ps1 ++ ps2), (raws1 ++ raws2).
  rewrite Hp2, Hp1, Hr2, Hr1, !List.filter_app, <- !app_assoc.
  split; [done|]. split; [done|]. split; by apply Forall2_app.
Qed.

Lemma __add_v3_property_from_v4_extends (name : text)
    (is_multi is_projection : bool) (v : V4.Value) (acc e : V3.EntityProto) :
  __add_v3_property_from_v4 name is_multi is_projection v acc = Ok e ->
  v3_entity_extends (v4_entity_value_to_v3 is_projection)
    v4_entity_value_indexed [(name, is_multi, v)] acc e.
Proof.
  unfold __add_v3_property_from_v4.
  destruct (v4_to_v3_property name is_multi is_projection v) as [p|] eqn:Hp;
    cbn [bind]; [|discriminate].
  intros [= <-].
  destruct (__new_v3_property_spec acc (V4.indexed v) p)
    as (Hk & Hg & Hprop & Hraw).
  split; [done|]. split; [done|].
  eexists _, _. split; [exact Hprop|]. split; [exact Hraw|].
  cbn. unfold v4_entity_value_indexed. cbn.
  destruct (V4.indexed v); cbn; split; by repeat constructor.
Qed.

Lemma v4_list_value_to_v3_extends (name : text) (is_projection : bool)
    (values : list V4.Value) (acc e : V3.EntityProto) :
  v4_list_value_to_v3 name is_projection values acc = Ok e ->
  v3_entity_extends (v4_entity_value_to_v3 is_projection)
    v4_entity_value_indexed
    (List.map (fun v => (name, true, v)) values) acc e.
Proof.
  revert acc. induction values as [|v values IH]; intros acc;
    cbn [v4_list_value_to_v3 List.map].
  - intros [= <-]. apply v3_entity_extends_nil.
  - destruct (__add_v3_property_from_v4 name true is_projection v acc)
      as [e1|] eqn:He1; cbn [bind]; [|discriminate].
    intros He. apply (v3_entity_extends_app _ _ [_] _ _ e1).
    + by apply __add_v3_property_from_v4_extends.
    + by apply IH.
Qed.

Lemma v4_properties_to_v3_extends (is_projection : bool)
    (props : list V4.Property) (acc e : V3.EntityProto) :
  v4_properties_to_v3 is_projection props acc = Ok e ->
  v3_entity_extends (v4_entity_value_to_v3 is_projection)
    v4_entity_value_indexed (v4_entity_values props) acc e.
Proof.
  revert acc. induction props as [|[name v] props IH]; intros acc;
    cbn [v4_properties_to_v3 v4_entity_values V4.p_name V4.value].
  - intros [= <-]. apply v3_entity_extends_nil.
  - match goal with
    | |- bind ?X _ = _ -> _ => destruct X as [e1|] eqn:He1
    end; cbn [bind]; [|discriminate].
    intros He. apply (v3_entity_extends_app _ _ _ _ _ e1); [|by apply IH].
    destruct (V4.list_value v) as [|v0 vs] eqn:Hl.
    + by apply __add_v3_property_from_v4_extends.
    + by apply v4_list_value_to_v3_extends.
Qed.

(** X21: when [v4_to_v3_entity] returns, the v3 entity holds one Property
    for every value of the v4 entity, a list counting for its elements:
    the Properties of the indexed values in [property] and those of the
    other values in [raw_property], each list in the order of the v4
    entity; an element of a list is converted as a multiple value.  The
    key of the v3 entity is the Reference of the v4 key and its entity
    group the first path element; a v4 key with no path element makes
    the conversion fail. *)
Theorem v4_to_v3_entity_shape (v4_entity : V4.Entity)
    (is_projection : bool) (v3_entity : V3.EntityProto) :
  v4_to_v3_entity v4_entity is_projection = Ok v3_entity ->
  Forall2 (fun named p => v4_entity_value_to_v3 is_projection named = Ok p)
    (List.filter v4_entity_value_indexed
       (v4_entity_values (V4.property v4_entity)))
    (V3.property v3_entity) /\
  Forall2 (fun named p => v4_entity_value_to_v3 is_projection named = Ok p)
    (List.filter (fun named => negb (v4_entity_value_indexed named))
       (v4_entity_values (V4.property v4_entity)))
    (V3.raw_property v3_entity) /\
  match V4.key v4_entity with
  | Some v4_key =>
    V4.path_element v4_key <> [] /\
    V3.key v3_entity = Some (v4_to_v3_reference v4_key) /\
    V3.entity_group v3_entity
    = take 1 (V3.path (v4_to_v3_reference v4_key))
  | None => V3.key v3_entity = None /\ V3.entity_group v3_entity = []
  end.
Proof.
  rewrite v4_to_v3_entity_loops.
  destruct (v4_properties_to_v3 is_projection (V4.property v4_entity)
              EntityProto_Clear) as [e|] eqn:He; cbn [bind]; [|discriminate].
  apply v4_properties_to_v3_extends in He
    as (Hk & Hg & ps & raws & Hp & Hr & Hps & Hraws).
  cbn in Hp, Hr, Hk, Hg.
  destruct (V4.key v4_entity) as [k|].
  - cbn zeta. unfold v3_reference_to_group, v4_to_v3_reference.
    cbn [V3.path]. destruct (V4.path_element k) as [|el els]; [discriminate|].
    cbn [List.map bind]. intros [= <-].
    cbn [V3.property V3.raw_property V3.key V3.entity_group].
    rewrite Hp, Hr. by repeat split.
  - intros [= <-]. rewrite Hp, Hr. by repeat split.
Qed.

(** ** The names of a converted entity *)

(** As [no_runtime], for a statement about the conversion to v4, which
    reads wire bytes. *)
Local Ltac v4_runtime :=
  clear id_resolver ParseFromString SerializePartialToString
        micros_to_timestamp micros_from_timestamp.

Lemma v4_names_alter (f : V4.Property -> V4.Property) (i : nat)
    (props : list V4.Property) :
  (forall x, V4.p_name (f x) = V4.p_name x) ->
  V4.p_name <$> alter f i props = V4.p_name <$> props.
Proof. no_runtime.
  intros Hf. rewrite (list_fmap_alter _ f id).
  - by apply list_alter_id.
  - apply Forall_forall. intros x _. apply Hf.
Qed.

Lemma v4_state_ok_absent (props : list V4.Property) (pmap : gmap text nat)
    (n : text) :
  v4_state_ok (props, pmap) ->
  (pmap !! n = None <-> n ∉ (V4.p_name <$> props)).
Proof. no_runtime.
  intros Hok. split.
  - intros Hnone [i Hi]%list_elem_of_lookup_1.
    apply (Hok n i) in Hi. cbn in Hi. congruence.
  - intros Hnot. destruct (pmap !! n) as [i|] eqn:Hl; [|done].
    exfalso. apply Hnot. apply (Hok n i) in Hl.
    by eapply list_elem_of_lookup_2.
Qed.

Lemma v4_state_ok_snoc (props : list V4.Property) (pmap : gmap text nat)
    (p : V4.Property) :
  v4_state_ok (props, pmap) ->
  V4.p_name p ∉ (V4.p_name <$> props) ->
  v4_state_ok (props ++ [p], <[V4.p_name p := length props]> pmap).
Proof. no_runtime.
  intros Hok Hnot n i. cbn [fst snd].
  rewrite fmap_app, lookup_app_Some, length_fmap.
  destruct (decide (n = V4.p_name p)) as [->|Hne].
  - rewrite lookup_insert_eq. split.
    + intros [= <-]. right. split; [done|]. by rewrite Nat.sub_diag.
    + intros [Hi|[Hle Hi]].
      * exfalso. apply Hnot. by eapply list_elem_of_lookup_2.
      * cbn in Hi. apply list_lookup_singleton_Some in Hi as [Hi _].
        f_equal. lia.
  - rewrite lookup_insert_ne by done. split.
    + intros Hl. left. by apply (Hok n i).
    + intros [Hi|[Hle Hi]]; [by apply (Hok n i)|].
      cbn in Hi. apply list_lookup_singleton_Some in Hi as [_ Hi].
      congruence.
Qed.

Lemma v4_state_ok_NoDup (props : list V4.Property) (pmap : gmap text nat) :
  v4_state_ok (props, pmap) -> NoDup (V4.p_name <$> props).
Proof. no_runtime.
  intros Hok. apply NoDup_alt. intros i j n Hi Hj.
  apply (Hok n i) in Hi. apply (Hok n j) in Hj. cbn in Hi, Hj. congruence.
Qed.

(** One step of the loops of [v3_to_v4_entity]: the name of the Property
    is the name of an entry, at the end when it is new. *)
Lemma __add_v4_property_to_entity_names
    (nested : V3.EntityProto -> result V4.Entity)
    (state state' : list V4.Property * gmap text nat)
    (p : V3.Property) (indexed : bool) :
  v4_state_ok state ->
  __add_v4_property_to_entity nested state p indexed = Ok state' ->
  v4_state_ok state' /\
  ((V3.p_name p ∈ (V4.p_name <$> fst state) /\
    V4.p_name <$> fst state' = V4.p_name <$> fst state) \/
   ((V3.p_name p ∉ (V4.p_name <$> fst state)) /\
    V4.p_name <$> fst state' = (V4.p_name <$> fst state) ++ [V3.p_name p])).
Proof.
  destruct state as [props pmap]. intros Hok.
  unfold __add_v4_property_to_entity.
  destruct (pmap !! V3.p_name p) as [i|] eqn:Hl.
  - destruct (v3_property_to_v4_value_with nested p indexed) as [v|];
      cbn [bind]; [|discriminate].
    assert (Hin : V3.p_name p ∈ (V4.p_name <$> props)).
    { apply (Hok _ i) in Hl. by eapply list_elem_of_lookup_2. }
    destruct (V3.multiple p); intros [= <-]; cbn [fst snd].
    all: split; [|left; split; [done|]; by apply v4_names_alter].
    all: intros n j; cbn [fst snd]; rewrite v4_names_alter by done;
      apply (Hok n j).
  - destruct (v3_property_to_v4_value_with nested p indexed) as [v|];
      cbn [bind]; [|discriminate].
    assert (Hnot : V3.p_name p ∉ (V4.p_name <$> props)).
    { by apply (v4_state_ok_absent props pmap). }
    pose proof (v4_state_ok_snoc props pmap
                  (V4.mkProperty (V3.p_name p) V4.Value_Clear) Hok Hnot)
      as Hok'.
    destruct (V3.multiple p); intros [= <-]; cbn [fst snd].
    all: split; [|right; split; [done|];
                  rewrite v4_names_alter by done; by rewrite fmap_app].
    all: intros n j; cbn [fst snd]; rewrite v4_names_alter by done;
      apply (Hok' n j).
Qed.

Lemma add_v4_properties_names
    (nested : V3.EntityProto -> result V4.Entity)
    (ps : list V3.Property) (indexed : bool)
    (state state' : list V4.Property * gmap text nat) :
  v4_state_ok state ->
  add_v4_properties nested state ps indexed = Ok state' ->
  v4_state_ok state' /\
  forall n, n ∈ (V4.p_name <$> fst state') <->
            n ∈ (V4.p_name <$> fst state) \/ n ∈ (V3.p_name <$> ps).
Proof. v4_runtime.
  revert state. induction ps as [|p ps IH]; intros state Hok;
    cbn [add_v4_properties].
  - intros [= <-]. split; [done|]. intros n. rewrite elem_of_nil. tauto.
  - destruct (__add_v4_property_to_entity nested state p indexed)
      as [state1|] eqn:Hstep; cbn [bind]; [|discriminate].
    intros Hrest.
    destruct (__add_v4_property_to_entity_names _ _ _ _ _ Hok Hstep)
      as [Hok1 Hnames].
    destruct (IH _ Hok1 Hrest) as [Hok' Hin].
    split; [done|]. intros n. rewrite Hin, fmap_cons, elem_of_cons.
    destruct Hnames as [[Hp ->]|[Hp ->]].
    + split; [tauto|]. intros [?|[->|?]]; tauto.
    + rewrite elem_of_app, list_elem_of_singleton. tauto.
Qed.


Lemma map_set_keys (m : list (text * V1.Value)) (k : text) (v : V1.Value) :
  (k ∈ m.*1 /\ (map_set m k v).*1 = m.*1) \/
  ((k ∉ m.*1) /\ (map_set m k v).*1 = m.*1 ++ [k]).
Proof. no_runtime.
  induction m as [|[k' v'] m IH]; cbn [map_set].
  - right. split; [apply not_elem_of_nil | done].
  - case_bool_decide as Hk.
    + subst k'. left. split; [apply list_elem_of_here | done].
    + destruct IH as [[Hin Heq]|[Hnot Heq]].
      * left. split; [by apply list_elem_of_further|].
        cbn. by rewrite Heq.
      * right. split.
        -- cbn. rewrite not_elem_of_cons. split; [congruence | done].
        -- cbn. by rewrite Heq.
Qed.

Lemma add_v1_properties_names
    (nested : V3.EntityProto -> result V1.Entity)
    (ps : list V3.Property) (indexed : bool)
    (m m' : list (text * V1.Value)) :
  NoDup m.*1 ->
  add_v1_properties nested m ps indexed = Ok m' ->
  NoDup m'.*1 /\
  forall n, n ∈ m'.*1 <-> n ∈ m.*1 \/ n ∈ (V3.p_name <$> ps).
Proof.
  clear ParsePartialFromString SerializePartialToString
        micros_from_timestamp.
  revert m. induction ps as [|p ps IH]; intros m Hm;
    cbn [add_v1_properties].
  - intros [= <-]. split; [done|]. intros n. rewrite elem_of_nil. tauto.
  - unfold __add_v1_property_to_entity.
    destruct (v3_property_to_v1_value_with nested p indexed) as [v|];
      cbn [bind]; [|discriminate].
    match goal with
    | |- context [Ok (map_set m ?k ?x)] =>
      assert (Hstep : exists x',
                 (if V3.multiple p
                  then Ok (map_set m k x)
                  else Ok (map_set m (V3.p_name p) v))
                 = Ok (map_set m (V3.p_name p) x'))
        by (destruct (V3.multiple p); by eexists)
    end.
    destruct Hstep as [x' ->]. cbn [bind]. intros Hrest.
    destruct (map_set_keys m (V3.p_name p) x') as [[Hin Heq]|[Hnot Heq]].
    + destruct (IH _ ltac:(by rewrite Heq) Hrest) as [Hnodup Hall].
      split; [done|]. intros n. rewrite Hall, Heq, fmap_cons, elem_of_cons.
      split; [tauto|]. intros [?|[->|?]]; tauto.
    + assert (Hnodup1 : NoDup (map_set m (V3.p_name p) x').*1).
      { rewrite Heq. apply NoDup_app. split; [done|]. split.
        - intros x Hx ->%list_elem_of_singleton. by apply Hnot.
        - apply NoDup_singleton. }
      destruct (IH _ Hnodup1 Hrest) as [Hnodup Hall].
      split; [done|]. intros n.
      rewrite Hall, Heq, fmap_cons, elem_of_cons, elem_of_app,
        list_elem_of_singleton.
      tauto.
Qed.

(** X22: the modern entity made from a v3 entity has one property for
    every name: no two of its properties share a name, and the names are
    those of the Properties in [property] and [raw_property] of the v3
    entity. *)
Theorem modern_entity_names_unique (depth : nat) (v3_entity : V3.EntityProto) :
  (forall v4_entity,
      v3_to_v4_entity depth v3_entity = Ok v4_entity ->
      NoDup (V4.p_name <$> V4.property v4_entity) /\
      forall n, n ∈ (V4.p_name <$> V4.property v4_entity) <->
                n ∈ (V3.p_name <$> (V3.property v3_entity
                                     ++ V3.raw_property v3_entity))) /\
  (forall v1_entity,
      v3_to_v1_entity depth v3_entity = Ok v1_entity ->
      NoDup (V1.properties v1_entity).*1 /\
      forall n, n ∈ (V1.properties v1_entity).*1 <->
                n ∈ (V3.p_name <$> (V3.property v3_entity
                                     ++ V3.raw_property v3_entity))).
Proof.
  clear SerializePartialToString micros_from_timestamp.
  split.
  - intros v4_entity. destruct depth as [|depth]; [discriminate|].
    cbn [v3_to_v4_entity]. unfold v3_to_v4_entity_with.
    destruct (add_v4_properties _ _ (V3.property v3_entity) true)
      as [state1|] eqn:H1; cbn [bind]; [|discriminate].
    destruct (add_v4_properties _ _ (V3.raw_property v3_entity) false)
      as [state2|] eqn:H2; cbn [bind]; [|discriminate].
    intros [= <-]. cbn [V4.property].
    assert (Hok0 : v4_state_ok ([], (∅ : gmap text nat))).
    { intros n i. cbn. by rewrite lookup_empty. }
    destruct (add_v4_properties_names _ _ _ _ _ Hok0 H1) as [Hok1 Hin1].
    destruct (add_v4_properties_names _ _ _ _ _ Hok1 H2) as [Hok2 Hin2].
    split.
    + destruct state2. by eapply v4_state_ok_NoDup.
    + intros n. rewrite Hin2, Hin1, fmap_app, elem_of_app.
      cbn. rewrite elem_of_nil. tauto.
  - intros v1_entity. destruct depth as [|depth]; [discriminate|].
    cbn [v3_to_v1_entity]. unfold v3_to_v1_entity_with.
    destruct (v3_to_v1_key _) as [k|]; cbn [bind]; [|discriminate].
    destruct (add_v1_properties _ _ (V3.property v3_entity) true)
      as [m1|] eqn:H1; cbn [bind]; [|discriminate].
    destruct (add_v1_properties _ _ (V3.raw_property v3_entity) false)
      as [m2|] eqn:H2; cbn [bind]; [|discriminate].
    intros [= <-]. cbn [V1.properties].
    assert (Hn0 : NoDup ([] : list (text * V1.Value)).*1)
      by apply NoDup_nil_2.
    destruct (add_v1_properties_names _ _ _ _ _ Hn0 H1) as [Hn1 Hin1].
    destruct (add_v1_properties_names _ _ _ _ _ Hn1 H2) as [Hn2 Hin2].
    split; [done|].
    intros n. rewrite Hin2, Hin1, fmap_app, elem_of_app.
    cbn. rewrite elem_of_nil. tauto.
Qed.

(** ** Entities through v4 and back *)

Lemma __new_v3_property_append (e : V3.EntityProto) (b : bool)
    (p : V3.Property) :
  __new_v3_property e b p = v3_entity_append b e [p].
Proof. no_runtime. by destruct b. Qed.

Lemma v3_entity_append_nil (b : bool) (e : V3.EntityProto) :
  v3_entity_append b e [] = e.
Proof. no_runtime.
  destruct e, b; unfold v3_entity_append; cbn; by rewrite app_nil_r.
Qed.

Lemma v3_entity_append_app (b : bool) (e : V3.EntityProto)
    (l1 l2 : list V3.Property) :
  v3_entity_append b (v3_entity_append b e l1) l2
  = v3_entity_append b e (l1 ++ l2).
Proof. no_runtime.
  destruct b; unfold v3_entity_append; cbn; by rewrite app_assoc.
Qed.

Lemma add_v4_properties_app
    (nested : V3.EntityProto -> result V4.Entity)
    (l1 l2 : list V3.Property) (indexed : bool)
    (state : list V4.Property * gmap text nat) :
  add_v4_properties nested state (l1 ++ l2) indexed
  = (let* state' := add_v4_properties nested state l1 indexed in
     add_v4_properties nested state' l2 indexed).
Proof.
  revert state. induction l1 as [|p l1 IH]; intros state; cbn; [done|].
  destruct (__add_v4_property_to_entity nested state p indexed); cbn;
    [apply IH | done].
Qed.

Lemma v4_properties_to_v3_cons (is_projection : bool) (p : V4.Property)
    (props : list V4.Property) (acc : V3.EntityProto) :
  v4_properties_to_v3 is_projection (p :: props) acc
  = (let* e := v4_properties_to_v3 is_projection [p] acc in
     v4_properties_to_v3 is_projection props e).
Proof.
  cbn [v4_properties_to_v3].
  match goal with
  | |- bind ?X _ = _ => destruct X; reflexivity
  end.
Qed.

Lemma __add_v4_property_to_entity_new
    (nested : V3.EntityProto -> result V4.Entity)
    (props : list V4.Property) (pmap : gmap text nat)
    (p : V3.Property) (indexed : bool) (v : V4.Value) :
  pmap !! V3.p_name p = None ->
  v3_property_to_v4_value_with nested p indexed = Ok v ->
  __add_v4_property_to_entity nested (props, pmap) p indexed
  = Ok (props
          ++ [V4.mkProperty (V3.p_name p)
                (if V3.multiple p
                 then V4.set_list_value V4.Value_Clear [v] else v)],
        <[V3.p_name p := length props]> pmap).
Proof.
  intros Hnone Hv. unfold __add_v4_property_to_entity.
  rewrite Hnone, Hv. cbn [bind].
  destruct (V3.multiple p);
    rewrite alter_app_r_alt by apply Nat.le_refl;
    by rewrite Nat.sub_diag.
Qed.

Lemma __add_v4_property_to_entity_last
    (nested : V3.EntityProto -> result V4.Entity)
    (props : list V4.Property) (pmap : gmap text nat) (val : V4.Value)
    (p : V3.Property) (indexed : bool) (v : V4.Value) :
  pmap !! V3.p_name p = Some (length props) ->
  V3.multiple p = true ->
  v3_property_to_v4_value_with nested p indexed = Ok v ->
  __add_v4_property_to_entity nested
    (props ++ [V4.mkProperty (V3.p_name p) val], pmap) p indexed
  = Ok (props
          ++ [V4.mkProperty (V3.p_name p)
                (V4.set_list_value val (V4.list_value val ++ [v]))],
        pmap).
Proof.
  intros Hsome Hmulti Hv. unfold __add_v4_property_to_entity.
  rewrite Hsome, Hv, Hmulti. cbn [bind].
  rewrite alter_app_r_alt by apply Nat.le_refl.
  by rewrite Nat.sub_diag.
Qed.

Lemma v4_indexed_of_flag (v : V4.Value) (indexed : bool) :
  V4.indexed_field v = (if indexed then None else Some false) ->
  V4.indexed v = indexed.
Proof. no_runtime. unfold V4.indexed. intros ->. by destruct indexed. Qed.

(** The later Properties of a group of multiple values: each adds its
    Value to the list of the entry, and the list comes back as the
    group. *)
Lemma v3_group_multiple (depth : nat) (indexed : bool) (n : text)
    (group : list V3.Property) :
  Forall (fun p => V3.p_name p = n /\ V3.multiple p = true /\
                   round_trips_v4 depth p indexed) group ->
  exists vs,
    (forall props pmap vs0,
        pmap !! n = Some (length props) ->
        add_v4_properties (v3_to_v4_entity depth)
          (props ++ [V4.mkProperty n
                       (V4.set_list_value V4.Value_Clear vs0)], pmap)
          group indexed
        = Ok (props ++ [V4.mkProperty n
                          (V4.set_list_value V4.Value_Clear (vs0 ++ vs))],
              pmap)) /\
    (forall acc,
        v4_list_value_to_v3 n false vs acc
        = Ok (v3_entity_append indexed acc group)).
Proof.
  induction 1 as [|p group (Hname & Hmulti & v & Hv & Hback) _ (vs & Hfwd & Hbwd)].
  - exists []. split.
    + intros props pmap vs0 _. cbn. by rewrite app_nil_r.
    + intros acc. cbn. by rewrite v3_entity_append_nil.
  - exists (v :: vs). unfold v3_property_to_v4_value in Hv. split.
    + intros props pmap vs0 Hsome. cbn [add_v4_properties].
      rewrite <- Hname in *.
      rewrite (__add_v4_property_to_entity_last _ _ _ _ _ _ v Hsome Hmulti Hv).
      cbn [bind V4.list_value V4.set_list_value V4.Value_Clear].
      change (V4.set_list_value _ (vs0 ++ [v]))
        with (V4.set_list_value V4.Value_Clear (vs0 ++ [v])).
      rewrite (Hfwd props pmap (vs0 ++ [v]) Hsome).
      by rewrite <- app_assoc.
    + intros acc. cbn [v4_list_value_to_v3].
      unfold __add_v3_property_from_v4.
      rewrite Hname, Hmulti in Hback. rewrite Hback. cbn [bind].
      rewrite (v4_indexed_of_flag v indexed)
        by (eapply v3_property_to_v4_value_flag; exact Hv).
      rewrite __new_v3_property_append, Hbwd, v3_entity_append_app.
      reflexivity.
Qed.

(** A whole group, under a name that the entity under construction does
    not have yet: it makes one entry at the end, which comes back as the
    group. *)
Lemma v3_group_to_v4 (depth : nat) (indexed : bool)
    (group : list V3.Property) :
  v3_group_ok depth indexed group ->
  exists p4,
    V4.p_name p4 = v3_group_name group /\
    (forall props pmap,
        pmap !! v3_group_name group = None ->
        add_v4_properties (v3_to_v4_entity depth) (props, pmap)
          group indexed
        = Ok (props ++ [p4], <[v3_group_name group := length props]> pmap)) /\
    (forall acc,
        v4_properties_to_v3 false [p4] acc
        = Ok (v3_entity_append indexed acc group)).
Proof.
  intros (Hne & Hall & Hkind).
  destruct group as [|p rest]; [done|]. cbn [v3_group_name] in *.
  apply Forall_cons in Hall as [[_ (v & Hv & Hback)] Hrest].
  unfold v3_property_to_v4_value in Hv.
  pose proof (v3_property_to_v4_value_flag _ _ _ _ Hv) as Hflag.
  apply v4_indexed_of_flag in Hflag.
  destruct Hkind as [Hmulti|(q & [= Hq Hnil] & Hsingle)];
    [|subst q rest].
  - apply Forall_cons in Hmulti as [Hmulti Hmultis].
    destruct (v3_group_multiple depth indexed (V3.p_name p) rest)
      as (vs & Hfwd & Hbwd).
    { apply Forall_forall. intros q Hq.
      rewrite Forall_forall in Hrest, Hmultis.
      destruct (Hrest q Hq). by split; [|split; [apply Hmultis|]]. }
    exists (V4.mkProperty (V3.p_name p)
              (V4.set_list_value V4.Value_Clear (v :: vs))).
    split; [done|]. split.
    + intros props pmap Hnone. cbn [add_v4_properties].
      rewrite (__add_v4_property_to_entity_new _ _ _ _ _ v Hnone Hv).
      rewrite Hmulti. cbn [bind].
      apply (Hfwd props _ [v]). apply lookup_insert_eq.
    + intros acc.
      cbn [v4_properties_to_v3 V4.p_name V4.value V4.list_value
           V4.set_list_value v4_list_value_to_v3].
      unfold __add_v3_property_from_v4.
      rewrite Hmulti in Hback. rewrite Hback. cbn [bind].
      rewrite Hflag, __new_v3_property_append, Hbwd, v3_entity_append_app.
      reflexivity.
  - exists (V4.mkProperty (V3.p_name p) v).
    split; [done|]. split.
    + intros props pmap Hnone. cbn [add_v4_properties].
      rewrite (__add_v4_property_to_entity_new _ _ _ _ _ v Hnone Hv).
      by rewrite Hsingle.
    + intros acc. cbn [v4_properties_to_v3 V4.p_name V4.value].
      rewrite (v3_property_to_v4_value_no_list _ _ _ _ Hv).
      unfold __add_v3_property_from_v4.
      rewrite Hsingle in Hback. rewrite Hback. cbn [bind].
      by rewrite Hflag, __new_v3_property_append.
Qed.

Lemma v3_groups_to_v4 (depth : nat) (indexed : bool)
    (groups : list (list V3.Property)) (props : list V4.Property)
    (pmap : gmap text nat) :
  Forall (v3_group_ok depth indexed) groups ->
  NoDup ((V4.p_name <$> props) ++ (v3_group_name <$> groups)) ->
  v4_state_ok (props, pmap) ->
  exists p4s pmap',
    add_v4_properties (v3_to_v4_entity depth) (props, pmap)
      (concat groups) indexed
    = Ok (props ++ p4s, pmap') /\
    v4_state_ok (props ++ p4s, pmap') /\
    V4.p_name <$> p4s = v3_group_name <$> groups /\
    (forall acc,
        v4_properties_to_v3 false p4s acc
        = Ok (v3_entity_append indexed acc (concat groups))).
Proof.
  clear id_resolver ParseFromString micros_to_timestamp
        micros_from_timestamp.
  intros Hall. revert props pmap.
  induction Hall as [|g groups Hg _ IH]; intros props pmap Hnodup Hok.
  - exists [], pmap. rewrite app_nil_r. cbn.
    split; [done|]. split; [done|]. split; [done|].
    intros acc. by rewrite v3_entity_append_nil.
  - destruct (v3_group_to_v4 depth indexed g Hg) as (p4 & Hname & Hfwd & Hbwd).
    assert (Hnot : v3_group_name g ∉ (V4.p_name <$> props)).
    { apply NoDup_app in Hnodup as (_ & Hdisj & _). intros Hin.
      apply (Hdisj _ Hin). cbn. apply list_elem_of_here. }
    assert (Hnone : pmap !! v3_group_name g = None).
    { by apply (v4_state_ok_absent props pmap). }
    assert (Hok1 : v4_state_ok (props ++ [p4],
                                <[v3_group_name g := length props]> pmap)).
    { rewrite <- Hname. apply v4_state_ok_snoc; [done|]. by rewrite Hname. }
    destruct (IH (props ++ [p4]) (<[v3_group_name g := length props]> pmap))
      as (p4s & pmap' & Hadd & Hok' & Hnames & Hback); [|done|].
    { rewrite fmap_app, <- app_assoc. cbn. by rewrite Hname. }
    exists (p4 :: p4s), pmap'. cbn [concat].
    rewrite add_v4_properties_app, (Hfwd props pmap Hnone). cbn [bind].
    rewrite Hadd, <- app_assoc. cbn [app].
    split; [done|]. split; [by rewrite <- app_assoc in Hok'|].
    split; [cbn; by rewrite Hname, Hnames|].
    intros acc. rewrite v4_properties_to_v3_cons, Hbwd. cbn [bind].
    by rewrite Hback, v3_entity_append_app.
Qed.


Lemma v4_properties_to_v3_app (is_projection : bool)
    (l1 l2 : list V4.Property) (acc : V3.EntityProto) :
  v4_properties_to_v3 is_projection (l1 ++ l2) acc
  = (let* e := v4_properties_to_v3 is_projection l1 acc in
     v4_properties_to_v3 is_projection l2 e).
Proof.
  revert acc. induction l1 as [|p l1 IH]; intros acc; [reflexivity|].
  cbn [app].
  rewrite (v4_properties_to_v3_cons _ p (l1 ++ l2)),
    (v4_properties_to_v3_cons _ p l1).
  destruct (v4_properties_to_v3 is_projection [p] acc); cbn [bind];
    [apply IH | reflexivity].
Qed.

(** X23: a v3 entity whose Properties come in groups under distinct
    names (a group is one Property, or several multiple Properties of one
    name), each Property one that comes back unchanged from its v4 Value,
    and whose key, if any, is a Reference that comes back unchanged,
    with the entity group its first path element: [v3_to_v4_entity] makes
    of it a v4 entity with one property for every group, in order, and
    [v4_to_v3_entity] makes of that the v3 entity again. *)
Theorem v3_entity_round_trip_v4 (depth : nat) (v3_entity : V3.EntityProto)
    (groups raw_groups : list (list V3.Property)) :
  V3.property v3_entity = concat groups ->
  V3.raw_property v3_entity = concat raw_groups ->
  Forall (v3_group_ok depth true) groups ->
  Forall (v3_group_ok depth false) raw_groups ->
  NoDup (v3_group_name <$> (groups ++ raw_groups)) ->
  v3_entity_key_ok v3_entity ->
  exists v4_entity,
    v3_to_v4_entity (S depth) v3_entity = Ok v4_entity /\
    V4.p_name <$> V4.property v4_entity
    = v3_group_name <$> (groups ++ raw_groups) /\
    v4_to_v3_entity v4_entity false = Ok v3_entity.
Proof.
  clear id_resolver ParseFromString micros_to_timestamp
        micros_from_timestamp.
  destruct v3_entity as [key grp props raws].
  cbn [V3.property V3.raw_property]. intros -> -> Hgroups Hraws Hnodup Hkey.
  rewrite fmap_app in Hnodup.
  assert (Hok0 : v4_state_ok ([], (∅ : gmap text nat))).
  { intros n i. cbn. by rewrite lookup_empty. }
  destruct (v3_groups_to_v4 depth true groups [] ∅ Hgroups)
    as (p4s & pmap1 & Hadd1 & Hok1 & Hnames1 & Hback1); [|done|].
  { cbn. by apply NoDup_app in Hnodup as (? & _). }
  cbn [app] in Hadd1, Hok1.
  destruct (v3_groups_to_v4 depth false raw_groups p4s pmap1 Hraws)
    as (p4s' & pmap2 & Hadd2 & Hok2 & Hnames2 & Hback2); [|done|].
  { by rewrite Hnames1. }
  cbn [v3_to_v4_entity]. unfold v3_to_v4_entity_with.
  cbn [V3.property V3.raw_property V3.key].
  rewrite Hadd1. cbn [bind]. rewrite Hadd2. cbn [bind fst].
  eexists. split; [reflexivity|]. cbn [V4.property].
  split; [by rewrite !fmap_app, Hnames1, Hnames2|].
  rewrite v4_to_v3_entity_loops. cbn [V4.property V4.key].
  rewrite v4_properties_to_v3_app, Hback1. cbn [bind]. rewrite Hback2.
  cbn [bind]. unfold v3_entity_key_ok in Hkey.
  cbn [V3.key V3.entity_group] in Hkey.
  destruct key as [r|].
  - destruct Hkey as (Hwf & Hpath & ->).
    assert (Happ : has (V3.app r) = true).
    { unfold v3_key_for_v4 in Hwf.
      apply andb_prop in Hwf as [[Ha _]%andb_prop _].
      by rewrite (nonempty_get_text _ Ha). }
    cbn [default from_option id]. rewrite Happ. cbn [negb].
    cbn zeta. rewrite (v3_to_v4_key_and_back r Hwf).
    unfold v3_reference_to_group.
    destruct (V3.path r) as [|el els] eqn:Hp; [done|].
    reflexivity.
  - rewrite Hkey. reflexivity.
Qed.


Lemma add_v3_property_from_v1_extends (name : text)
    (is_projection : bool) (v : V1.Value) (acc e : V3.EntityProto) :
  add_v3_property_from_v1 name true is_projection v acc = Ok e ->
  v3_entity_extends (v1_entity_value_to_v3 is_projection)
    v1_entity_value_indexed [(name, true, v)] acc e.
Proof.
  unfold add_v3_property_from_v1.
  destruct (v1_to_v3_property name true is_projection v) as [p|] eqn:Hp;
    cbn [bind]; [|discriminate].
  intros [= <-].
  destruct (__new_v3_property_spec acc (negb (V1.exclude_from_indexes v)) p)
    as (Hk & Hg & Hprop & Hraw).
  split; [done|]. split; [done|].
  eexists _, _. split; [exact Hprop|]. split; [exact Hraw|].
  cbn. unfold v1_entity_value_indexed. cbn.
  destruct (V1.exclude_from_indexes v); cbn; split; by repeat constructor.
Qed.

Lemma v1_array_value_to_v3_extends (name : text) (is_projection : bool)
    (values : list V1.Value) (acc e : V3.EntityProto) :
  v1_array_value_to_v3 name is_projection values acc = Ok e ->
  v3_entity_extends (v1_entity_value_to_v3 is_projection)
    v1_entity_value_indexed
    (List.map (fun v => (name, true, v)) values) acc e.
Proof.
  revert acc. induction values as [|v values IH]; intros acc;
    cbn [v1_array_value_to_v3 List.map].
  - intros [= <-]. apply v3_entity_extends_nil.
  - destruct (add_v3_property_from_v1 name true is_projection v acc)
      as [e1|] eqn:He1; cbn [bind]; [|discriminate].
    intros He. apply (v3_entity_extends_app _ _ [_] _ _ e1).
    + by apply add_v3_property_from_v1_extends.
    + by apply IH.
Qed.

(** The value of a property that is no array with elements. *)
Lemma v1_single_value_extends (name : text) (is_projection : bool)
    (v : V1.Value) (acc e : V3.EntityProto) :
  match V1.value_type v with
  | V1.array_value [] =>
    Ok (__new_v3_property acc (negb (V1.exclude_from_indexes v))
          (V3.mkProperty (Some MEANING_EMPTY_LIST) None name
             V3.PropertyValue_Clear false))
  | V1.array_value values =>
    v1_array_value_to_v3 name is_projection values acc
  | _ => add_v3_property_from_v1 name false is_projection v acc
  end = Ok e ->
  (forall v0 vs, V1.value_type v <> V1.array_value (v0 :: vs)) ->
  v3_entity_extends (v1_entity_value_to_v3 is_projection)
    v1_entity_value_indexed [(name, false, v)] acc e.
Proof.
  intros He Hne.
  assert (Hconv : exists p,
             v1_entity_value_to_v3 is_projection (name, false, v) = Ok p /\
             e = __new_v3_property acc
                   (negb (V1.exclude_from_indexes v)) p).
  { unfold v1_entity_value_to_v3. unfold add_v3_property_from_v1 in He.
    destruct (V1.value_type v) as [| | | | | | | | | | |[|v0 vs]];
      try (destruct (v1_to_v3_property name false is_projection v) as [p|];
           cbn [bind] in He; [|discriminate];
           injection He as <-; by exists p).
    - injection He as <-. by eexists.
    - by destruct (Hne v0 vs). }
  destruct Hconv as (p & Hp & ->).
  destruct (__new_v3_property_spec acc (negb (V1.exclude_from_indexes v)) p)
    as (Hk & Hg & Hprop & Hraw).
  split; [done|]. split; [done|].
  eexists _, _. split; [exact Hprop|]. split; [exact Hraw|].
  cbn -[v1_entity_value_to_v3]. unfold v1_entity_value_indexed. cbn [snd].
  destruct (V1.exclude_from_indexes v); cbn -[v1_entity_value_to_v3];
    split; by repeat constructor.
Qed.

Lemma v1_properties_to_v3_extends (is_projection : bool)
    (items : list (text * V1.Value)) (acc e : V3.EntityProto) :
  v1_properties_to_v3 is_projection items acc = Ok e ->
  v3_entity_extends (v1_entity_value_to_v3 is_projection)
    v1_entity_value_indexed (v1_entity_values items) acc e.
Proof.
  revert acc. induction items as [|[name v] items IH]; intros acc;
    cbn [v1_properties_to_v3 v1_entity_values].
  - intros [= <-]. apply v3_entity_extends_nil.
  - match goal with
    | |- bind ?X _ = _ -> _ => destruct X as [e1|] eqn:He1
    end; cbn [bind]; [|discriminate].
    intros He. apply (v3_entity_extends_app _ _ _ _ _ e1); [|by apply IH].
    destruct (V1.value_type v) as [| | | | | | | | | | |[|v0 vs]] eqn:Ht;
      try (apply v1_single_value_extends;
           [rewrite Ht; exact He1 | intros ? ?; rewrite Ht; discriminate]).
    by apply v1_array_value_to_v3_extends.
Qed.

(** X24: when [v1_to_v3_entity] returns, the v3 entity holds one Property
    for every value of the v1 entity, an array with elements counting for
    its elements and an array with no element for the empty-list
    Property: the Properties of the values that are not excluded from
    the indexes in [property] and those of the other values in
    [raw_property], each list in the order of the v1 entity.  The key of
    the v3 entity is the Reference of the v1 key and its entity group the
    first path element; a v1 key with no path element makes the
    conversion fail. *)
Theorem v1_to_v3_entity_shape (v1_entity : V1.Entity)
    (is_projection : bool) (v3_entity : V3.EntityProto) :
  v1_to_v3_entity v1_entity is_projection = Ok v3_entity ->
  Forall2 (fun named p => v1_entity_value_to_v3 is_projection named = Ok p)
    (List.filter v1_entity_value_indexed
       (v1_entity_values (V1.properties v1_entity)))
    (V3.property v3_entity) /\
  Forall2 (fun named p => v1_entity_value_to_v3 is_projection named = Ok p)
    (List.filter (fun named => negb (v1_entity_value_indexed named))
       (v1_entity_values (V1.properties v1_entity)))
    (V3.raw_property v3_entity) /\
  match V1.key v1_entity with
  | Some v1_key =>
    exists v3_ref,
      v1_to_v3_reference v1_key = Ok v3_ref /\
      V1.path v1_key <> [] /\
      V3.key v3_entity = Some v3_ref /\
      V3.entity_group v3_entity = take 1 (V3.path v3_ref)
  | None => V3.key v3_entity = None /\ V3.entity_group v3_entity = []
  end.
Proof.
  rewrite v1_to_v3_entity_loops.
  destruct (v1_properties_to_v3 is_projection (V1.properties v1_entity)
              EntityProto_Clear) as [e|] eqn:He; cbn [bind]; [|discriminate].
  apply v1_properties_to_v3_extends in He
    as (Hk & Hg & ps & raws & Hp & Hr & Hps & Hraws).
  cbn in Hp, Hr, Hk, Hg.
  destruct (V1.key v1_entity) as [k|].
  - destruct (v1_to_v3_reference k) as [r|] eqn:Hkey; cbn [bind];
      [|discriminate].
    unfold v3_reference_to_group.
    destruct (V3.path r) as [|el els] eqn:Hpath; [discriminate|].
    cbn [bind]. intros [= <-].
    cbn [V3.property V3.raw_property V3.key V3.entity_group].
    rewrite Hp, Hr. split; [done|]. split; [done|].
    exists r. rewrite Hpath. split; [done|]. split; [|done].
    intros Hnil. unfold v1_to_v3_reference in Hkey. rewrite Hnil in Hkey.
    cbn [v1_to_v3_elements] in Hkey.
    destruct (match V1.partition_id k with Some _ => _ | None => _ end)
      as [[a ns]|]; cbn [bind] in Hkey; [|discriminate].
    injection Hkey as <-. discriminate.
  - intros [= <-]. rewrite Hp, Hr. by repeat split.
Qed.

(** X25: a v1 Key whose project id the resolver cannot map to an app is
    not converted: [v1_to_v3_reference] raises the error of the resolver
    before it looks at the path, and [v1_to_v3_entity] fails on every
    entity with that key. *)
Theorem unresolved_project_fails (v1_key : V1.Key)
    (partition_id : V1.PartitionId) (e : exn) :
  V1.partition_id v1_key = Some partition_id ->
  nonempty (V1.project_id partition_id) = true ->
  project_to_app_id (V1.project_id partition_id) = Raise e ->
  v1_to_v3_reference v1_key = Raise e /\
  forall v1_entity is_projection,
    V1.key v1_entity = Some v1_key ->
    exists e', v1_to_v3_entity v1_entity is_projection = Raise e'.
Proof.
  unfold project_to_app_id. intros Hpart Hproject Hraise.
  assert (Hkey : v1_to_v3_reference v1_key = Raise e).
  { unfold v1_to_v3_reference. by rewrite Hpart, Hproject, Hraise. }
  split; [exact Hkey|].
  intros v1_entity is_projection Hk. rewrite v1_to_v3_entity_loops, Hk, Hkey.
  destruct (v1_properties_to_v3 _ _ _); by eexists.
Qed.

(** ** Embedded entities with repeated properties *)

Lemma foldl_insert_lookup_other (k : text) (props : list V4.Property)
    (m : gmap text V4.Property) :
  (forall prop, prop ∈ props -> V4.p_name prop <> k) ->
  foldl (fun property_map prop => <[V4.p_name prop := prop]> property_map)
        m props !! k = m !! k.
Proof. no_runtime.
  revert m. induction props as [|prop props IH]; intros m Hne; [done|].
  cbn [foldl]. rewrite IH.
  - apply lookup_insert_ne. apply Hne, list_elem_of_here.
  - intros prop' Hin. by apply Hne, list_elem_of_further.
Qed.

(** X26: of the properties of an embedded entity that share a name,
    [__build_name_to_v4_property_map] keeps the last; so the decoder of an
    embedded point reads the last [x] and the last [y], whatever other
    properties, earlier [x] and [y] included, and whatever key the entity
    has. *)
Theorem embedded_entity_last_property_wins :
  (forall key before after p,
      (forall q, q ∈ after -> V4.p_name q <> V4.p_name p) ->
      __build_name_to_v4_property_map
        (V4.mkEntity key (before ++ p :: after)) !! V4.p_name p = Some p) /\
  (forall key before x y indexed_x indexed_y,
      __v4_to_v3_point_value
        (V4.mkEntity key
           (before ++ [__v4_double_property PROPERTY_NAME_X x indexed_x;
                       __v4_double_property PROPERTY_NAME_Y y indexed_y]))
      = Ok (V3.mkPointValue x y)).
Proof. no_runtime.
  assert (Hlast : forall key before after p,
             (forall q, q ∈ after -> V4.p_name q <> V4.p_name p) ->
             __build_name_to_v4_property_map
               (V4.mkEntity key (before ++ p :: after)) !! V4.p_name p
             = Some p).
  { intros key before after p Hafter.
    unfold __build_name_to_v4_property_map. cbn [V4.property].
    rewrite foldl_app. cbn [foldl].
    rewrite foldl_insert_lookup_other by done. apply lookup_insert_eq. }
  split; [exact Hlast|].
  intros key before x y bx by_.
  unfold __v4_to_v3_point_value, dict_getitem.
  pose proof (Hlast key before
                [__v4_double_property PROPERTY_NAME_Y y by_]
                (__v4_double_property PROPERTY_NAME_X x bx)) as Hx.
  cbn [V4.p_name __v4_double_property] in Hx. rewrite Hx.
  - pose proof (Hlast key
                  (before ++ [__v4_double_property PROPERTY_NAME_X x bx]) []
                  (__v4_double_property PROPERTY_NAME_Y y by_)) as Hy.
    cbn [V4.p_name __v4_double_property] in Hy.
    rewrite <- app_assoc in Hy. cbn [app] in Hy. rewrite Hy.
    + reflexivity.
    + intros q Hq. by apply elem_of_nil in Hq.
  - intros q ->%list_elem_of_singleton. discriminate.
Qed.

(** ** Byte strings that are UTF-8 *)

(** X27: [is_valid_utf8] accepts exactly the byte strings that are the
    UTF-8 encoding of a string, and a proto string field assigned such
    bytes holds that string. *)
Theorem is_valid_utf8_encodings (s : bytes) :
  (is_valid_utf8 s = true <-> exists t, Utf8.encode t = Ok s) /\
  (forall t, Utf8.encode t = Ok s -> string_field_of_bytes s = Ok t).
Proof. no_runtime.
  split; [split|].
  - intros [t Ht]%is_valid_utf8_decode. exists t. by apply encode_decode.
  - intros [t Ht]. unfold is_valid_utf8. by rewrite (decode_encode _ _ Ht).
  - intros t. apply string_field_of_encoded.
Qed.

(** ** Entities through v1 and back *)

Lemma map_get_absent (m : list (text * V1.Value)) (k : text) :
  k ∉ m.*1 -> map_get m k = None.
Proof. no_runtime.
  induction m as [|[k' v'] m IH]; cbn; [done|].
  rewrite not_elem_of_cons. intros [Hne Hnot].
  rewrite bool_decide_eq_false_2 by congruence. by apply IH.
Qed.

Lemma map_set_absent (m : list (text * V1.Value)) (k : text) (v : V1.Value) :
  k ∉ m.*1 -> map_set m k v = m ++ [(k, v)].
Proof. no_runtime.
  induction m as [|[k' v'] m IH]; cbn; [done|].
  rewrite not_elem_of_cons. intros [Hne Hnot].
  rewrite bool_decide_eq_false_2 by congruence. by rewrite IH.
Qed.

Lemma map_get_last (m : list (text * V1.Value)) (k : text) (v : V1.Value) :
  k ∉ m.*1 -> map_get (m ++ [(k, v)]) k = Some v.
Proof. no_runtime.
  induction m as [|[k' v'] m IH]; cbn.
  - intros _. by rewrite bool_decide_eq_true_2.
  - rewrite not_elem_of_cons. intros [Hne Hnot].
    rewrite bool_decide_eq_false_2 by congruence. by apply IH.
Qed.

Lemma map_set_last (m : list (text * V1.Value)) (k : text)
    (v v' : V1.Value) :
  k ∉ m.*1 -> map_set (m ++ [(k, v)]) k v' = m ++ [(k, v')].
Proof. no_runtime.
  induction m as [|[k0 v0] m IH]; cbn.
  - intros _. by rewrite bool_decide_eq_true_2.
  - rewrite not_elem_of_cons. intros [Hne Hnot].
    rewrite bool_decide_eq_false_2 by congruence. by rewrite IH.
Qed.

Lemma add_v1_properties_app
    (nested : V3.EntityProto -> result V1.Entity)
    (l1 l2 : list V3.Property) (indexed : bool)
    (m : list (text * V1.Value)) :
  add_v1_properties nested m (l1 ++ l2) indexed
  = (let* m' := add_v1_properties nested m l1 indexed in
     add_v1_properties nested m' l2 indexed).
Proof.
  revert m. induction l1 as [|p l1 IH]; intros m; cbn; [done|].
  destruct (__add_v1_property_to_entity nested m p indexed); cbn;
    [apply IH | done].
Qed.

Lemma v1_properties_to_v3_cons (is_projection : bool)
    (item : text * V1.Value) (items : list (text * V1.Value))
    (acc : V3.EntityProto) :
  v1_properties_to_v3 is_projection (item :: items) acc
  = (let* e := v1_properties_to_v3 is_projection [item] acc in
     v1_properties_to_v3 is_projection items e).
Proof.
  destruct item as [name v]. cbn [v1_properties_to_v3].
  match goal with
  | |- bind ?X _ = _ => destruct X; reflexivity
  end.
Qed.

Lemma v1_properties_to_v3_app (is_projection : bool)
    (l1 l2 : list (text * V1.Value)) (acc : V3.EntityProto) :
  v1_properties_to_v3 is_projection (l1 ++ l2) acc
  = (let* e := v1_properties_to_v3 is_projection l1 acc in
     v1_properties_to_v3 is_projection l2 e).
Proof.
  revert acc. induction l1 as [|item l1 IH]; intros acc; [reflexivity|].
  cbn [app].
  rewrite (v1_properties_to_v3_cons _ item (l1 ++ l2)),
    (v1_properties_to_v3_cons _ item l1).
  destruct (v1_properties_to_v3 is_projection [item] acc); cbn [bind];
    [apply IH | reflexivity].
Qed.

Lemma __add_v1_property_to_entity_new
    (nested : V3.EntityProto -> result V1.Entity)
    (props : list (text * V1.Value)) (p : V3.Property) (indexed : bool)
    (v : V1.Value) :
  V3.p_name p ∉ props.*1 ->
  v3_property_to_v1_value_with nested p indexed = Ok v ->
  __add_v1_property_to_entity nested props p indexed
  = Ok (props
          ++ [(V3.p_name p,
               if V3.multiple p
               then V1.mkValue (V1.array_value [v]) 0 false else v)]).
Proof.
  intros Hnot Hv. unfold __add_v1_property_to_entity, map_getitem.
  rewrite Hv, (map_get_absent _ _ Hnot). cbn [bind default from_option id].
  destruct (V3.multiple p); by rewrite map_set_absent.
Qed.

Lemma __add_v1_property_to_entity_last
    (nested : V3.EntityProto -> result V1.Entity)
    (props : list (text * V1.Value)) (vs0 : list V1.Value)
    (p : V3.Property) (indexed : bool) (v : V1.Value) :
  V3.p_name p ∉ props.*1 ->
  V3.multiple p = true ->
  v3_property_to_v1_value_with nested p indexed = Ok v ->
  __add_v1_property_to_entity nested
    (props ++ [(V3.p_name p, V1.mkValue (V1.array_value vs0) 0 false)])
    p indexed
  = Ok (props ++ [(V3.p_name p,
                   V1.mkValue (V1.array_value (vs0 ++ [v])) 0 false)]).
Proof.
  intros Hnot Hmulti Hv. unfold __add_v1_property_to_entity, map_getitem.
  rewrite Hv, Hmulti, (map_get_last _ _ _ Hnot).
  cbn [bind default from_option id]. by rewrite map_set_last.
Qed.

Lemma v1_indexed_of_flag (v : V1.Value) (indexed : bool) :
  V1.exclude_from_indexes v = negb indexed ->
  negb (V1.exclude_from_indexes v) = indexed.
Proof. no_runtime. intros ->. by destruct indexed. Qed.

Lemma v3_group_multiple_v1 (depth : nat) (indexed : bool) (n : text)
    (group : list V3.Property) :
  Forall (fun p => V3.p_name p = n /\ V3.multiple p = true /\
                   round_trips_v1 depth p indexed) group ->
  exists vs,
    (forall props vs0,
        n ∉ props.*1 ->
        add_v1_properties (v3_to_v1_entity depth)
          (props ++ [(n, V1.mkValue (V1.array_value vs0) 0 false)])
          group indexed
        = Ok (props ++ [(n, V1.mkValue (V1.array_value (vs0 ++ vs))
                              0 false)])) /\
    (forall acc,
        v1_array_value_to_v3 n false vs acc
        = Ok (v3_entity_append indexed acc group)).
Proof.
  induction 1 as [|p group (Hname & Hmulti & v & Hv & Hback) _ (vs & Hfwd & Hbwd)].
  - exists []. split.
    + intros props vs0 _. cbn. by rewrite app_nil_r.
    + intros acc. cbn. by rewrite v3_entity_append_nil.
  - exists (v :: vs). unfold v3_property_to_v1_value in Hv. split.
    + intros props vs0 Hnot. cbn [add_v1_properties].
      rewrite <- Hname in *.
      rewrite (__add_v1_property_to_entity_last _ _ _ _ _ v Hnot Hmulti Hv).
      cbn [bind]. rewrite (Hfwd props (vs0 ++ [v]) Hnot).
      by rewrite <- app_assoc.
    + intros acc. cbn [v1_array_value_to_v3].
      unfold add_v3_property_from_v1.
      rewrite Hname, Hmulti in Hback. rewrite Hback. cbn [bind].
      rewrite (v1_indexed_of_flag v indexed)
        by (eapply v3_property_to_v1_value_flag; exact Hv).
      rewrite __new_v3_property_append, Hbwd, v3_entity_append_app.
      reflexivity.
Qed.

Lemma v3_group_to_v1 (depth : nat) (indexed : bool)
    (group : list V3.Property) :
  v3_group_ok_v1 depth indexed group ->
  exists v1_value,
    (forall props,
        v3_group_name group ∉ props.*1 ->
        add_v1_properties (v3_to_v1_entity depth) props group indexed
        = Ok (props ++ [(v3_group_name group, v1_value)])) /\
    (forall acc,
        v1_properties_to_v3 false [(v3_group_name group, v1_value)] acc
        = Ok (v3_entity_append indexed acc group)).
Proof.
  intros (Hne & Hall & Hkind).
  destruct group as [|p rest]; [done|]. cbn [v3_group_name] in *.
  apply Forall_cons in Hall as [[_ (v & Hv & Hback)] Hrest].
  unfold v3_property_to_v1_value in Hv.
  pose proof (v3_property_to_v1_value_flag _ _ _ _ Hv) as Hflag.
  apply v1_indexed_of_flag in Hflag.
  destruct Hkind as [Hmulti|(q & [= Hq Hnil] & Hsingle)];
    [|subst q rest].
  - apply Forall_cons in Hmulti as [Hmulti Hmultis].
    destruct (v3_group_multiple_v1 depth indexed (V3.p_name p) rest)
      as (vs & Hfwd & Hbwd).
    { apply Forall_forall. intros q Hq.
      rewrite Forall_forall in Hrest, Hmultis.
      destruct (Hrest q Hq). by split; [|split; [apply Hmultis|]]. }
    exists (V1.mkValue (V1.array_value (v :: vs)) 0 false). split.
    + intros props Hnot. cbn [add_v1_properties].
      rewrite (__add_v1_property_to_entity_new _ _ _ _ v Hnot Hv).
      rewrite Hmulti. cbn [bind]. apply (Hfwd props [v] Hnot).
    + intros acc.
      cbn [v1_properties_to_v3 V1.value_type v1_array_value_to_v3].
      unfold add_v3_property_from_v1.
      rewrite Hmulti in Hback. rewrite Hback. cbn [bind].
      rewrite Hflag, __new_v3_property_append, Hbwd, v3_entity_append_app.
      reflexivity.
  - exists v. split.
    + intros props Hnot. cbn [add_v1_properties].
      rewrite (__add_v1_property_to_entity_new _ _ _ _ v Hnot Hv).
      by rewrite Hsingle.
    + intros acc. cbn [v1_properties_to_v3].
      rewrite Hsingle in Hback.
      assert (Hadd : add_v3_property_from_v1 (V3.p_name p) false false v acc
                     = Ok (v3_entity_append indexed acc [p])).
      { unfold add_v3_property_from_v1. rewrite Hback. cbn [bind].
        by rewrite Hflag, __new_v3_property_append. }
      unfold v1_to_v3_property, v1_to_v3_property_with in Hback.
      destruct (V1.value_type v); try discriminate; by rewrite Hadd.
Qed.

Lemma v3_groups_to_v1 (depth : nat) (indexed : bool)
    (groups : list (list V3.Property)) (props : list (text * V1.Value)) :
  Forall (v3_group_ok_v1 depth indexed) groups ->
  NoDup (props.*1 ++ (v3_group_name <$> groups)) ->
  exists items,
    add_v1_properties (v3_to_v1_entity depth) props (concat groups) indexed
    = Ok (props ++ items) /\
    items.*1 = v3_group_name <$> groups /\
    (forall acc,
        v1_properties_to_v3 false items acc
        = Ok (v3_entity_append indexed acc (concat groups))).
Proof.
  intros Hall. revert props.
  induction Hall as [|g groups Hg _ IH]; intros props Hnodup.
  - exists []. rewrite app_nil_r. cbn.
    split; [done|]. split; [done|].
    intros acc. by rewrite v3_entity_append_nil.
  - destruct (v3_group_to_v1 depth indexed g Hg) as (v1_value & Hfwd & Hbwd).
    assert (Hnot : v3_group_name g ∉ props.*1).
    { apply NoDup_app in Hnodup as (_ & Hdisj & _). intros Hin.
      apply (Hdisj _ Hin). cbn. apply list_elem_of_here. }
    destruct (IH (props ++ [(v3_group_name g, v1_value)]))
      as (items & Hadd & Hnames & Hback).
    { rewrite fmap_app, <- app_assoc. exact Hnodup. }
    exists ((v3_group_name g, v1_value) :: items). cbn [concat].
    rewrite add_v1_properties_app, (Hfwd props Hnot). cbn [bind].
    rewrite Hadd, <- app_assoc. cbn [app].
    split; [done|]. split; [cbn; by rewrite Hnames|].
    intros acc. rewrite v1_properties_to_v3_cons, Hbwd. cbn [bind].
    by rewrite Hback, v3_entity_append_app.
Qed.


End Converter.

(** * Instances

    The properties above at the inputs of the examples, with the runtime
    of the examples and the identity resolver. *)

Lemma scalar_round_trip_witness :
  unambiguous_scalar example_string /\
  is_text (str "title") = true /\
  exists v4_value v1_value,
    v3_property_to_v4_value example_Parse 1 example_string false
    = Ok v4_value /\
    V4.indexed v4_value = false /\
    v3_property_to_v1_value _IdentityIdResolver example_Parse
      example_micros_to_timestamp 1 example_string false = Ok v1_value /\
    V1.exclude_from_indexes v1_value = true.
Proof.
  assert (H1 : unambiguous_scalar example_string).
  { split; [reflexivity|]. split; [reflexivity|]. right. right.
    exists [206; 177]. split; reflexivity. }
  assert (H2 : is_text (str "title") = true) by reflexivity.
  split; [exact H1|]. split; [exact H2|].
  destruct (scalar_round_trip _IdentityIdResolver example_Parse example_Parse
              example_Serialize example_micros_to_timestamp
              example_micros_from_timestamp 1 example_string false
              (str "title") false false H1)
    as [(v4 & Hv4 & Hi4 & _) Hback].
  destruct (Hback H2) as (v1 & Hv1 & Hi1 & _).
  exists v4, v1. repeat split; assumption.
Defined.

Lemma blob_demotion_counterexample :
  (exists v1_value p',
      v3_property_to_v1_value _IdentityIdResolver example_Parse
        example_micros_to_timestamp 1 example_binary true = Ok v1_value /\
      V1.value_type v1_value = V1.blob_value [255; 254] /\
      v1_to_v3_property _IdentityIdResolver example_Serialize
        example_micros_from_timestamp (str "payload") false false v1_value
      = Ok p' /\
      string_typed (V3.value p') [255; 254] /\
      V3.meaning p' = Some V3.BYTESTRING /\
      V3.get_int (V3.meaning p') <> V3.NO_MEANING) /\
  (non_utf8_string example_binary_empty_list [255; 254] /\
   v3_property_to_v1_value _IdentityIdResolver example_Parse
     example_micros_to_timestamp 1 example_binary_empty_list true
   = Ok (V1.mkValue (V1.array_value []) 0 false)).
Proof.
  split.
  - eexists. eexists. split; [reflexivity|]. split; [reflexivity|].
    split; [reflexivity|]. split; [reflexivity|]. split; [reflexivity|].
    discriminate.
  - split; [|reflexivity]. repeat split; reflexivity.
Qed.

Lemma blob_demotion_amended_witness :
  non_utf8_string example_binary [255; 254] /\
  is_text (str "payload") = true /\
  V3.get_int (V3.meaning example_binary) <> V3.EMPTY_LIST /\
  exists v4_value v1_value,
    v3_property_to_v4_value example_Parse 1 example_binary true
    = Ok v4_value /\
    V4.blob_value v4_value = Some [255; 254] /\
    v3_property_to_v1_value _IdentityIdResolver example_Parse
      example_micros_to_timestamp 1 example_binary true = Ok v1_value /\
    V1.value_type v1_value = V1.blob_value [255; 254].
Proof.
  assert (H1 : non_utf8_string example_binary [255; 254])
    by (repeat split; reflexivity).
  assert (H2 : is_text (str "payload") = true) by reflexivity.
  assert (H3 : V3.get_int (V3.meaning example_binary) <> V3.EMPTY_LIST)
    by discriminate.
  split; [exact H1|]. split; [exact H2|]. split; [exact H3|].
  destruct (blob_demotion_amended _IdentityIdResolver example_Parse
              example_Parse example_Serialize example_micros_to_timestamp
              example_micros_from_timestamp 1 example_binary [255; 254] true
              (str "payload") false false H1)
    as [(v4 & Hv4 & Hb4 & _) Hv1].
  destruct (Hv1 H3 H2) as (v1 & Hc1 & Hb1 & _).
  exists v4, v1. repeat split; assumption.
Defined.

Lemma point_user_round_trip_witness :
  V3.nickname example_user = None /\
  user_is_text example_user = true /\
  v4_entity_to_v3_user_value (v3_user_value_to_v4_entity example_user)
  = Ok example_user /\
  v1_entity_to_v3_user_value (v3_user_value_to_v1_entity example_user)
  = Ok example_user.
Proof.
  assert (H1 : V3.nickname example_user = None) by reflexivity.
  assert (H2 : user_is_text example_user = true) by reflexivity.
  split; [exact H1|]. split; [exact H2|].
  destruct point_user_round_trip as (_ & _ & Hv4 & Hv1 & _).
  split; [exact (Hv4 example_user H1) | exact (Hv1 example_user H1 H2)].
Defined.

Lemma empty_list_round_trip_witness :
  V4.meaning (v4_empty_list false) = Some MEANING_EMPTY_LIST /\
  V4.list_value (v4_empty_list false) = [] /\
  v4_to_v3_entity example_Serialize
    (V4.mkEntity None [V4.mkProperty (str "tags") (v4_empty_list false)])
    false
  = Ok (v3_entity_of (v3_empty_list (str "tags")) false) /\
  v3_to_v4_entity example_Parse 1
    (v3_entity_of (v3_empty_list (str "tags")) false)
  = Ok (V4.mkEntity None
          [V4.mkProperty (str "tags") (v4_empty_list false)]).
Proof.
  assert (H1 : V4.meaning (v4_empty_list false) = Some MEANING_EMPTY_LIST)
    by reflexivity.
  assert (H2 : V4.list_value (v4_empty_list false) = []) by reflexivity.
  split; [exact H1|]. split; [exact H2|].
  destruct (empty_list_round_trip _IdentityIdResolver example_Parse
              example_Parse example_Serialize example_micros_to_timestamp
              example_micros_from_timestamp 0 (str "tags") false)
    as (_ & Hv4 & _).
  exact (Hv4 (v4_empty_list false) H1 H2).
Defined.

Lemma indexed_flag_counterexample :
  exists v4_value,
    v3_property_to_v4_value example_Parse 1 example_boolean true
    = Ok v4_value /\
    ~ spec_indexed_written v4_value.
Proof.
  eexists. split; [reflexivity|]. intros H. by apply H.
Qed.

Lemma indexed_flag_amended_witness :
  v3_property_to_v4_value example_Parse 1 example_boolean true
  = Ok (V4.set_boolean_value V4.Value_Clear true) /\
  embeds_entity example_boolean = false /\
  V4.indexed (V4.set_boolean_value V4.Value_Clear true) = true /\
  V4.indexed_field (V4.set_boolean_value V4.Value_Clear true) = None /\
  exists v1_value,
    v3_property_to_v1_value _IdentityIdResolver example_Parse
      example_micros_to_timestamp 1 example_boolean true = Ok v1_value.
Proof.
  assert (H1 : v3_property_to_v4_value example_Parse 1 example_boolean true
               = Ok (V4.set_boolean_value V4.Value_Clear true))
    by reflexivity.
  assert (H2 : embeds_entity example_boolean = false) by reflexivity.
  split; [exact H1|]. split; [exact H2|].
  destruct (indexed_flag_amended _IdentityIdResolver example_Parse
              example_Parse example_micros_to_timestamp 1 example_boolean
              true) as (Hv4 & _ & Htotal).
  destruct (Hv4 _ H1) as [Hi Hf]. destruct (Htotal H2) as [_ Hv1].
  split; [exact Hi|]. split; [exact Hf | exact Hv1].
Defined.

Lemma embedded_entity_missing_field_witness :
  (forall prop, prop ∈ V4.property V4.Entity_Clear ->
                V4.p_name prop <> PROPERTY_NAME_X) /\
  map_get (V1.properties V1.Entity_Clear) PROPERTY_NAME_EMAIL = None /\
  __v4_to_v3_point_value V4.Entity_Clear = Raise (KeyError PROPERTY_NAME_X) /\
  v1_entity_to_v3_user_value V1.Entity_Clear
  = Raise (InvalidConversionError
             (str "Value does not contain a string value.")).
Proof.
  assert (H1 : forall prop, prop ∈ V4.property V4.Entity_Clear ->
                            V4.p_name prop <> PROPERTY_NAME_X).
  { intros prop Hin. cbn in Hin. by apply elem_of_nil in Hin. }
  assert (H2 : map_get (V1.properties V1.Entity_Clear) PROPERTY_NAME_EMAIL
               = None) by reflexivity.
  split; [exact H1|]. split; [exact H2|].
  destruct (embedded_entity_missing_field example_Serialize)
    as (Hx & _ & _ & Hv1 & _).
  split; [exact (Hx _ H1) | exact (Hv1 _ H2)].
Defined.

Lemma v3_to_key_counterexample :
  ~ spec_path_v4 example_reference_no_app
      (v3_to_v4_key example_reference_no_app) /\
  exists v1_key,
    v3_to_v1_key _IdentityIdResolver example_reference_no_app = Ok v1_key /\
    ~ spec_path_v1 example_reference_no_app v1_key.
Proof.
  split; [discriminate|]. eexists. split; [reflexivity|]. discriminate.
Qed.

Lemma v3_to_key_amended_witness :
  V3.get_text (V3.app example_reference_no_app) = [] /\
  V3.get_text (V3.app example_reference) <> [] /\
  v3_to_v4_key example_reference_no_app = V4.Key_Clear /\
  spec_path_v4 example_reference (v3_to_v4_key example_reference) /\
  exists project_id v1_key,
    v3_to_v1_key _IdentityIdResolver example_reference = Ok v1_key /\
    V1.partition_id v1_key
    = Some (V1.mkPartitionId project_id (str "ns")) /\
    spec_path_v1 example_reference v1_key.
Proof.
  assert (H1 : V3.get_text (V3.app example_reference_no_app) = [])
    by reflexivity.
  assert (H2 : V3.get_text (V3.app example_reference) <> [])
    by discriminate.
  split; [exact H1|]. split; [exact H2|].
  destruct (v3_to_key_amended _IdentityIdResolver example_reference_no_app)
    as [Hempty _].
  destruct (v3_to_key_amended _IdentityIdResolver example_reference)
    as [_ Hfull].
  destruct (Hempty H1) as [Hk4 _].
  destruct (Hfull H2) as [[_ Hp4] (project_id & v1_key & _ & Hk1 & Hpart & Hp1)].
  split; [exact Hk4|]. split; [exact Hp4|].
  exists project_id, v1_key. split; [exact Hk1|]. split; [exact Hpart|].
  exact Hp1.
Defined.

Lemma filter_conversion_witness :
  length (V3.f_property example_filter_two) <> 1%nat /\
  (length (V3.f_property example_filter_op_6) = 1%nat /\
   5 < V3.op example_filter_op_6) /\
  (V3.f_property example_filter = [example_boolean] /\
   V3.op example_filter <= 5) /\
  _v3_filter_to_v1_property_filter _IdentityIdResolver example_Parse
    example_micros_to_timestamp 1 example_filter_two
  = Raise (InvalidConversionError (str "invalid filter")) /\
  _v3_filter_to_v4_property_filter example_Parse 1 example_filter_op_6
  = Raise (InvalidConversionError (str "unsupported filter op: 6")) /\
  _v3_filter_to_v4_property_filter example_Parse 1 example_filter
  = Ok (V4.mkPropertyFilter 5 (str "done")
          (V4.set_boolean_value V4.Value_Clear true)).
Proof.
  assert (H1 : length (V3.f_property example_filter_two) <> 1%nat)
    by discriminate.
  assert (H2 : length (V3.f_property example_filter_op_6) = 1%nat)
    by reflexivity.
  assert (H3 : 5 < V3.op example_filter_op_6) by reflexivity.
  assert (H4 : V3.f_property example_filter = [example_boolean])
    by reflexivity.
  assert (H5 : V3.op example_filter <= 5) by discriminate.
  split; [exact H1|]. split; [by split|]. split; [by split|].
  destruct (filter_conversion _IdentityIdResolver example_Parse example_Parse
              example_micros_to_timestamp 1 example_filter_two)
    as ([Htwo _]%(fun H => H H1) & _ & _).
  destruct (filter_conversion _IdentityIdResolver example_Parse example_Parse
              example_micros_to_timestamp 1 example_filter_op_6)
    as (_ & [_ Hop]%(fun H => H H2 H3) & _).
  destruct (filter_conversion _IdentityIdResolver example_Parse example_Parse
              example_micros_to_timestamp 1 example_filter)
    as (_ & _ & Hok).
  destruct (Hok example_boolean H4 H5) as (_ & Hv4 & _).
  split; [exact Htwo|]. split; [exact Hop|]. exact Hv4.
Defined.

Lemma id_resolver_resolution_witness :
  (forall app_id,
      app_id ∈ [str "s~myapp"; str "e~other"] ->
      resolve_project_id (TableIdResolver ∅) app_id <> Ok (str "unknown")) /\
  exists r,
    IdResolver_init [str "s~myapp"; str "e~other"] = Ok r /\
    resolve_app_id r (str "unknown")
    = Raise (InvalidConversionError (unknown_project_message (str "unknown"))).
Proof.
  assert (H1 : forall app_id,
             app_id ∈ [str "s~myapp"; str "e~other"] ->
             resolve_project_id (TableIdResolver ∅) app_id
             <> Ok (str "unknown")).
  { intros app_id Hin.
    apply elem_of_cons in Hin as [->|Hin]; [discriminate|].
    apply elem_of_cons in Hin as [->|Hin]; [discriminate|].
    by apply elem_of_nil in Hin. }
  split; [exact H1|].
  destruct id_resolver_resolution as (_ & _ & _ & Hunknown & _).
  exact (Hunknown _ _ H1).
Defined.

Lemma is_complete_key_counterexample :
  (is_complete_v1_key example_v1_key_empty_name = Ok true /\
   spec_complete_v1 example_v1_key_empty_name = false) /\
  (exists r,
      is_complete_v3_key example_v3_key_zero_id = Ok r /\
      truthy r = false /\
      spec_complete_v3 example_v3_key_zero_id = true).
Proof.
  split; [by split|]. eexists. by repeat split.
Qed.

Lemma is_complete_key_amended_witness :
  last (V3.path example_reference)
  = Some (V3.mkElement (Some (str "Child")) None (Some (str "leaf"))) /\
  last (V1.path example_v1_key_empty_name)
  = Some (V1.mkPathElement (str "Kind") (V1.name [])) /\
  (exists r, is_complete_v3_key example_reference = Ok r) /\
  (exists b, is_complete_v1_key example_v1_key_empty_name = Ok b).
Proof.
  assert (H1 : last (V3.path example_reference)
               = Some (V3.mkElement (Some (str "Child")) None
                                    (Some (str "leaf")))) by reflexivity.
  assert (H2 : last (V1.path example_v1_key_empty_name)
               = Some (V1.mkPathElement (str "Kind") (V1.name [])))
    by reflexivity.
  split; [exact H1|]. split; [exact H2|].
  destruct is_complete_key_amended as (Hv3 & Hv1 & _).
  destruct (Hv3 _ _ H1) as (r & Hr & _).
  destruct (Hv1 _ _ H2) as (b & Hb & _).
  split; [by exists r | by exists b].
Defined.

(** * The default converter *)

(** X5: the converter that [get_entity_converter] returns when it is
    given no resolver maps application ids and project ids to
    themselves; with it, a v3 Reference that fits a v1 Key comes back
    unchanged from its v1 Key, and a v1 Key with a non-empty project id
    and strings that encode comes back unchanged from its v3 Reference. *)
Theorem default_converter_key_round_trip :
  (forall v3_ref,
      v3_key_for_v1 v3_ref = true ->
      exists v1_key,
        v3_to_v1_key (get_entity_converter None) v3_ref = Ok v1_key /\
        V1.partition_id v1_key
        = Some (V1.mkPartitionId (V3.get_text (V3.app v3_ref))
                  (V3.get_text (V3.name_space v3_ref))) /\
        v1_to_v3_reference (get_entity_converter None) v1_key = Ok v3_ref) /\
  (forall v1_key partition_id,
      V1.partition_id v1_key = Some partition_id ->
      nonempty (V1.project_id partition_id) = true ->
      forallb v1_element_is_text (V1.path v1_key) = true ->
      exists v3_ref,
        v1_to_v3_reference (get_entity_converter None) v1_key = Ok v3_ref /\
        V3.app v3_ref = Some (V1.project_id partition_id) /\
        v3_to_v1_key (get_entity_converter None) v3_ref = Ok v1_key).
Proof.
  split.
  - intros [a ns path]. unfold v3_key_for_v1.
    cbn [V3.app V3.name_space V3.path].
    intros [[Ha Hns]%andb_prop Hpath]%andb_prop.
    unfold v3_to_v1_key, get_entity_converter.
    cbn [V3.app V3.name_space V3.path resolve_project_id].
    rewrite Ha. cbn [negb bind]. eexists. split; [reflexivity|].
    apply namespace_round_trip in Hns.
    cbn [V1.partition_id]. split.
    + destruct (nonempty (V3.get_text ns)) eqn:Hn; [reflexivity|].
      apply nonempty_false in Hn. by rewrite Hn.
    + unfold v1_to_v3_reference.
      cbn [V1.partition_id V1.path V1.project_id V1.namespace_id
           resolve_app_id].
      rewrite Ha. cbn [bind].
      rewrite (v3_v1_path_round_trip path Hpath). cbn [bind].
      rewrite <- (nonempty_get_text a Ha).
      destruct (nonempty (V3.get_text ns)) eqn:Hn.
      * rewrite Hn. by rewrite Hns.
      * cbn. by rewrite <- Hns.
  - intros [pid path] [project_id namespace_id].
    cbn [V1.partition_id V1.path V1.project_id]. intros -> Hp Hpath.
    destruct (v1_v3_path_round_trip path Hpath) as (elements & Hels & Hback).
    unfold v1_to_v3_reference, get_entity_converter.
    cbn [V1.partition_id V1.path V1.project_id V1.namespace_id
         resolve_app_id].
    rewrite Hp, Hels. cbn [bind]. eexists. split; [reflexivity|].
    split; [reflexivity|].
    unfold v3_to_v1_key.
    cbn [V3.app V3.name_space V3.path V3.get_text default from_option id
         resolve_project_id].
    rewrite Hp, Hback. cbn [negb bind].
    pose proof (namespace_id_round_trip namespace_id) as Hns.
    unfold V3.get_text in Hns. by rewrite Hns.
Qed.

(** * Instances of the further properties *)

Lemma v3_v4_key_round_trip_witness :
  v3_key_for_v4 example_reference = true /\
  v4_to_v3_reference (v3_to_v4_key example_reference) = example_reference.
Proof.
  assert (H : v3_key_for_v4 example_reference = true) by reflexivity.
  split; [exact H|].
  exact (proj2 (v3_v4_key_round_trip example_reference) (or_introl H)).
Defined.

Lemma v4_v3_key_round_trip_witness :
  v4_key_for_v3 example_v4_key = true /\
  v3_to_v4_key (v4_to_v3_reference example_v4_key) = example_v4_key.
Proof.
  assert (H : v4_key_for_v3 example_v4_key = true) by reflexivity.
  split; [exact H|].
  exact (proj2 (v4_v3_key_round_trip example_v4_key) (or_introl H)).
Defined.

Lemma v3_v1_key_round_trip_witness :
  v3_key_for_v1 example_reference = true /\
  app_to_project_id example_resolver (str "s~myapp") = Ok (str "myapp") /\
  project_to_app_id example_resolver (str "myapp") = Ok (str "s~myapp") /\
  exists v1_key,
    v3_to_v1_key example_resolver example_reference = Ok v1_key /\
    v1_to_v3_reference example_resolver v1_key = Ok example_reference.
Proof.
  assert (H1 : v3_key_for_v1 example_reference = true)
    by (vm_compute; reflexivity).
  assert (H2 : app_to_project_id example_resolver (str "s~myapp")
               = Ok (str "myapp")) by (vm_compute; reflexivity).
  assert (H3 : project_to_app_id example_resolver (str "myapp")
               = Ok (str "s~myapp")) by (vm_compute; reflexivity).
  split; [exact H1|]. split; [exact H2|]. split; [exact H3|].
  exact (v3_v1_key_round_trip example_resolver example_reference
           (str "myapp") H1 H2 eq_refl H3).
Defined.

Lemma v1_v3_key_round_trip_witness :
  forallb v1_element_is_text (V1.path example_v1_key) = true /\
  exists v3_ref,
    v1_to_v3_reference example_resolver example_v1_key = Ok v3_ref /\
    v3_to_v1_key example_resolver v3_ref = Ok example_v1_key.
Proof.
  assert (H1 : forallb v1_element_is_text (V1.path example_v1_key) = true)
    by (vm_compute; reflexivity).
  assert (H2 : project_to_app_id example_resolver (str "myapp")
               = Ok (str "s~myapp")) by (vm_compute; reflexivity).
  assert (H3 : app_to_project_id example_resolver (str "s~myapp")
               = Ok (str "myapp")) by (vm_compute; reflexivity).
  split; [exact H1|].
  exact (v1_v3_key_round_trip example_resolver example_v1_key
           (V1.mkPartitionId (str "myapp") (str "ns")) (str "s~myapp")
           eq_refl eq_refl H1 H2 eq_refl H3).
Defined.

Lemma default_converter_key_round_trip_witness :
  v3_key_for_v1 example_reference = true /\
  (exists v1_key,
      v3_to_v1_key (get_entity_converter None) example_reference
      = Ok v1_key /\
      V1.partition_id v1_key
      = Some (V1.mkPartitionId (str "s~myapp") (str "ns")) /\
      v1_to_v3_reference (get_entity_converter None) v1_key
      = Ok example_reference) /\
  exists v3_ref,
    v1_to_v3_reference (get_entity_converter None) example_v1_key
    = Ok v3_ref /\
    V3.app v3_ref = Some (str "myapp") /\
    v3_to_v1_key (get_entity_converter None) v3_ref = Ok example_v1_key.
Proof.
  assert (H1 : v3_key_for_v1 example_reference = true)
    by (vm_compute; reflexivity).
  assert (H2 : forallb v1_element_is_text (V1.path example_v1_key) = true)
    by (vm_compute; reflexivity).
  split; [exact H1|].
  destruct default_converter_key_round_trip as [Hv3 Hv1].
  split; [exact (Hv3 example_reference H1)|].
  exact (Hv1 example_v1_key _ eq_refl eq_refl H2).
Defined.

Lemma key_lists_in_order_witness :
  v1_to_v3_reference example_resolver example_v1_key_other
  = Raise (InvalidConversionError (unknown_project_message (str "other"))) /\
  exists e,
    v1_to_v3_references example_resolver
      [example_v1_key; example_v1_key_other] = Raise e.
Proof.
  assert (H : v1_to_v3_reference example_resolver example_v1_key_other
              = Raise (InvalidConversionError
                         (unknown_project_message (str "other"))))
    by (vm_compute; reflexivity).
  split; [exact H|].
  destruct (key_lists_in_order example_resolver) as (_ & _ & Hraise).
  refine (Hraise _ example_v1_key_other _ _ H).
  apply list_elem_of_further, list_elem_of_here.
Defined.

Lemma key_strings_agree_witness :
  forallb id_xor_name (V3.path example_reference) = true /\
  exists v1_key,
    v3_to_v1_key example_resolver example_reference = Ok v1_key /\
    v1_key_to_string v1_key = str "[Parent: 7, Child: leaf]" /\
    v4_key_to_string (v3_to_v4_key example_reference)
    = str "[Parent: 7, Child: leaf]".
Proof.
  assert (H : forallb id_xor_name (V3.path example_reference) = true)
    by reflexivity.
  split; [exact H|].
  destruct (key_strings_agree example_resolver example_reference H)
    as (v1_key & Hkey & Hstr).
  exists v1_key. split; [exact Hkey|].
  assert (H4 : v4_key_to_string (v3_to_v4_key example_reference)
               = str "[Parent: 7, Child: leaf]") by (vm_compute; reflexivity).
  split; [by rewrite Hstr | exact H4].
Defined.

Lemma id_resolver_last_wins_witness :
  exists r,
    IdResolver_init [str "s~myapp"; str "e~myapp"; str "e~other"] = Ok r /\
    resolve_project_id r (str "e~myapp") = Ok (str "myapp") /\
    resolve_app_id r (str "myapp") = Ok (str "e~myapp").
Proof.
  apply (id_resolver_last_wins [str "s~myapp"] [str "e~other"]
           (str "e~myapp") (str "myapp")); [reflexivity|].
  intros a Ha. apply elem_of_cons in Ha as [->|Ha]; [discriminate|].
  by apply elem_of_nil in Ha.
Defined.


Lemma integer_round_trip_witness :
  is_text (str "when") = true /\
  is_in_rfc_3339_bounds 1000000 = true /\
  example_micros_from_timestamp (example_micros_to_timestamp 1000000)
  = 1000000 /\
  round_trips_v4 example_Parse example_Serialize 1
    (V3.mkProperty (Some V3.GD_WHEN) None (str "when")
       (V3.set_int64Value V3.PropertyValue_Clear 1000000) false) true /\
  round_trips_v1 _IdentityIdResolver example_Parse example_Serialize
    example_micros_to_timestamp example_micros_from_timestamp 1
    (V3.mkProperty (Some V3.GD_WHEN) None (str "when")
       (V3.set_int64Value V3.PropertyValue_Clear 1000000) false) true.
Proof.
  assert (H1 : is_text (str "when") = true) by (vm_compute; reflexivity).
  assert (H2 : is_in_rfc_3339_bounds 1000000 = true) by reflexivity.
  assert (H3 : example_micros_from_timestamp
                 (example_micros_to_timestamp 1000000) = 1000000)
    by reflexivity.
  split; [exact H1|]. split; [exact H2|]. split; [exact H3|].
  destruct (integer_round_trip _IdentityIdResolver example_Parse
              example_Parse example_Serialize example_micros_to_timestamp
              example_micros_from_timestamp 1 (Some V3.GD_WHEN) (str "when")
              false true 1000000 (or_intror (or_intror eq_refl)))
    as [Hv4 Hv1].
  split; [exact Hv4|]. exact (Hv1 H1 (fun _ _ => H3)).
Defined.

Lemma ignored_meanings_witness :
  __is_v3_property_value_union_valid (V3.value example_two_values) = false /\
  v3_property_to_v4_value example_Parse 1 example_two_values true
  = v3_property_to_v4_value example_Parse 1
      (without_meanings example_two_values) true /\
  __is_v3_property_value_meaning_valid (V3.value example_string_when)
    (V3.get_int (V3.meaning example_string_when)) = false /\
  v3_property_to_v1_value _IdentityIdResolver example_Parse
    example_micros_to_timestamp 1 example_string_when true
  = v3_property_to_v1_value _IdentityIdResolver example_Parse
      example_micros_to_timestamp 1 (without_meaning example_string_when)
      true.
Proof.
  assert (H1 : __is_v3_property_value_union_valid
                 (V3.value example_two_values) = false) by reflexivity.
  assert (H2 : __is_v3_property_value_meaning_valid
                 (V3.value example_string_when)
                 (V3.get_int (V3.meaning example_string_when)) = false)
    by reflexivity.
  split; [exact H1|].
  destruct (ignored_meanings _IdentityIdResolver example_Parse example_Parse
              example_micros_to_timestamp 1 example_two_values true)
    as [Hunion _].
  destruct (ignored_meanings _IdentityIdResolver example_Parse example_Parse
              example_micros_to_timestamp 1 example_string_when true)
    as [_ Hmeaning].
  split; [exact (proj1 (Hunion H1))|]. split; [exact H2|].
  exact (proj2 (Hmeaning H2)).
Defined.

Lemma blob_meaning_round_trip_witness :
  exists v4_value,
    v3_property_to_v4_value example_Parse 1
      (V3.mkProperty (Some V3.BLOB) None (str "payload")
         (V3.set_stringValue V3.PropertyValue_Clear [255; 254]) false) true
    = Ok v4_value /\
    V4.blob_value v4_value = Some [255; 254] /\
    v4_to_v3_property example_Serialize (str "payload") false false v4_value
    = Ok (V3.mkProperty (Some V3.BYTESTRING) None (str "payload")
            (V3.set_stringValue V3.PropertyValue_Clear [255; 254]) false).
Proof.
  exact (proj1 (blob_meaning_round_trip _IdentityIdResolver example_Parse
                  example_Parse example_Serialize
                  example_micros_to_timestamp example_micros_from_timestamp
                  1 V3.BLOB (str "payload") false true [255; 254]
                  (or_introl eq_refl))).
Defined.

Lemma string_meaning_round_trip_witness :
  string_meaning V3.TEXT = true /\
  is_valid_utf8 [206; 177] = true /\
  round_trips_v4 example_Parse example_Serialize 1
    (V3.mkProperty (Some V3.TEXT) None (str "title")
       (V3.set_stringValue V3.PropertyValue_Clear [206; 177]) false) false.
Proof.
  assert (H1 : string_meaning V3.TEXT = true) by reflexivity.
  assert (H2 : is_valid_utf8 [206; 177] = true) by reflexivity.
  split; [exact H1|]. split; [exact H2|].
  exact (proj1 (string_meaning_round_trip _IdentityIdResolver example_Parse
                  example_Parse example_Serialize
                  example_micros_to_timestamp example_micros_from_timestamp
                  1 V3.TEXT (str "title") false false [206; 177] H1 H2)).
Defined.

Lemma user_property_round_trip_witness :
  V3.nickname example_user = None /\
  exists v4_value,
    v3_property_to_v4_value example_Parse 1
      (V3.mkProperty None None (str "owner")
         (V3.set_uservalue V3.PropertyValue_Clear example_user) false) true
    = Ok v4_value /\
    V4.entity_value v4_value = Some (v3_user_value_to_v4_entity example_user) /\
    V4.meaning v4_value = Some MEANING_PREDEFINED_ENTITY_USER /\
    v4_to_v3_property example_Serialize (str "owner") false false v4_value
    = Ok (V3.mkProperty None None (str "owner")
            (V3.set_uservalue V3.PropertyValue_Clear example_user) false).
Proof.
  split; [reflexivity|].
  exact (proj1 (user_property_round_trip _IdentityIdResolver example_Parse
                  example_Parse example_Serialize
                  example_micros_to_timestamp example_micros_from_timestamp
                  1 (str "owner") false true example_user eq_refl)).
Defined.

Lemma key_property_round_trip_witness :
  v3_key_for_v4
    (__v3_reference_value_to_v3_reference example_reference_value) = true /\
  exists v4_value,
    v3_property_to_v4_value example_Parse 1
      (V3.mkProperty None None (str "parent")
         (V3.set_referencevalue V3.PropertyValue_Clear
            example_reference_value) false) true
    = Ok v4_value /\
    V4.key_value v4_value
    = Some (v3_to_v4_key
              (__v3_reference_value_to_v3_reference example_reference_value)) /\
    v4_to_v3_property example_Serialize (str "parent") false false v4_value
    = Ok (V3.mkProperty None None (str "parent")
            (V3.set_referencevalue V3.PropertyValue_Clear
               example_reference_value) false).
Proof.
  assert (H : v3_key_for_v4
                (__v3_reference_value_to_v3_reference
                   example_reference_value) = true) by reflexivity.
  split; [exact H|].
  exact (key_property_round_trip example_Parse example_Serialize 1
           (str "parent") false true example_reference_value H).
Defined.

Lemma v4_to_v3_entity_shape_witness :
  exists v3_entity,
    v4_to_v3_entity example_Serialize example_v4_entity false
    = Ok v3_entity /\
    length (V3.property v3_entity) = 3%nat /\
    length (V3.raw_property v3_entity) = 1%nat /\
    V3.key v3_entity = Some (v4_to_v3_reference example_v4_key) /\
    V3.entity_group v3_entity
    = take 1 (V3.path (v4_to_v3_reference example_v4_key)).
Proof.
  destruct (v4_to_v3_entity example_Serialize example_v4_entity false)
    as [v3_entity|] eqn:H; [|vm_compute in H; discriminate].
  exists v3_entity. split; [reflexivity|].
  destruct (v4_to_v3_entity_shape example_Serialize example_v4_entity false
              v3_entity H) as (Hprops & Hraws & _ & Hkey & Hgroup).
  apply Forall2_length in Hprops, Hraws.
  split; [by rewrite <- Hprops|]. split; [by rewrite <- Hraws|].
  split; [exact Hkey | exact Hgroup].
Defined.

Lemma modern_entity_names_unique_witness :
  exists v4_entity,
    v3_to_v4_entity example_Parse 1 example_v3_entity = Ok v4_entity /\
    NoDup (V4.p_name <$> V4.property v4_entity).
Proof.
  destruct (v3_to_v4_entity example_Parse 1 example_v3_entity)
    as [v4_entity|] eqn:H; [|vm_compute in H; discriminate].
  exists v4_entity. split; [reflexivity|].
  destruct (modern_entity_names_unique _IdentityIdResolver example_Parse
              example_Parse example_micros_to_timestamp 1 example_v3_entity)
    as [Hv4 _].
  exact (proj1 (Hv4 v4_entity H)).
Defined.

Lemma v3_entity_round_trip_v4_witness :
  Forall (v3_group_ok example_Parse example_Serialize 0 true)
    example_groups /\
  Forall (v3_group_ok example_Parse example_Serialize 0 false)
    example_raw_groups /\
  v3_entity_key_ok example_v3_entity /\
  exists v4_entity,
    v3_to_v4_entity example_Parse 1 example_v3_entity = Ok v4_entity /\
    V4.p_name <$> V4.property v4_entity
    = [str "count"; str "scores"; str "title"] /\
    v4_to_v3_entity example_Serialize v4_entity false = Ok example_v3_entity.
Proof.
  assert (Hrt : forall p indexed,
             (exists v,
                 v3_property_to_v4_value example_Parse 0 p indexed = Ok v /\
                 v4_to_v3_property example_Serialize (V3.p_name p)
                   (V3.multiple p) false v = Ok p) ->
             round_trips_v4 example_Parse example_Serialize 0 p indexed)
    by (intros p indexed H; exact H).
  assert (H1 : Forall (v3_group_ok example_Parse example_Serialize 0 true)
                 example_groups).
  { repeat apply Forall_cons_2; [| |apply Forall_nil_2].
    - split; [discriminate|]. split.
      + repeat apply Forall_cons_2; [|apply Forall_nil_2].
        split; [reflexivity|]. apply Hrt. eexists.
        split; [vm_compute; reflexivity|]; vm_compute; reflexivity.
      + right. eexists. split; reflexivity.
    - split; [discriminate|]. split.
      + repeat apply Forall_cons_2; [| |apply Forall_nil_2].
        * split; [reflexivity|]. apply Hrt. eexists.
          split; [vm_compute; reflexivity|]; vm_compute; reflexivity.
        * split; [reflexivity|]. apply Hrt. eexists.
          split; [vm_compute; reflexivity|]; vm_compute; reflexivity.
      + left. repeat apply Forall_cons_2; [| |apply Forall_nil_2];
          reflexivity. }
  assert (H2 : Forall (v3_group_ok example_Parse example_Serialize 0 false)
                 example_raw_groups).
  { repeat apply Forall_cons_2; [|apply Forall_nil_2].
    split; [discriminate|]. split.
    - repeat apply Forall_cons_2; [|apply Forall_nil_2].
      split; [reflexivity|]. apply Hrt. eexists.
      split; [vm_compute; reflexivity|]; vm_compute; reflexivity.
    - right. eexists. split; reflexivity. }
  assert (H3 : v3_entity_key_ok example_v3_entity).
  { split; [reflexivity|]. split; [discriminate | reflexivity]. }
  assert (H4 : NoDup (v3_group_name
                        <$> (example_groups ++ example_raw_groups))).
  { apply (bool_decide_unpack _). vm_compute. exact I. }
  split; [exact H1|]. split; [exact H2|]. split; [exact H3|].
  exact (v3_entity_round_trip_v4 example_Parse example_Serialize 0
           example_v3_entity example_groups example_raw_groups
           eq_refl eq_refl H1 H2 H4 H3).
Defined.


Lemma v1_to_v3_entity_shape_witness :
  exists v3_entity,
    v1_to_v3_entity _IdentityIdResolver example_Serialize
      example_micros_from_timestamp example_v1_entity false
    = Ok v3_entity /\
    length (V3.property v3_entity) = 3%nat /\
    length (V3.raw_property v3_entity) = 1%nat /\
    exists v3_ref,
      v1_to_v3_reference _IdentityIdResolver example_v1_key = Ok v3_ref /\
      V3.key v3_entity = Some v3_ref /\
      V3.entity_group v3_entity = take 1 (V3.path v3_ref).
Proof.
  destruct (v1_to_v3_entity _IdentityIdResolver example_Serialize
              example_micros_from_timestamp example_v1_entity false)
    as [v3_entity|] eqn:H; [|vm_compute in H; discriminate].
  exists v3_entity. split; [reflexivity|].
  destruct (v1_to_v3_entity_shape _IdentityIdResolver example_Serialize
              example_micros_from_timestamp example_v1_entity false
              v3_entity H)
    as (Hprops & Hraws & v3_ref & Href & _ & Hkey & Hgroup).
  apply Forall2_length in Hprops, Hraws.
  split; [by rewrite <- Hprops|]. split; [by rewrite <- Hraws|].
  exists v3_ref. split; [exact Href|]. split; [exact Hkey | exact Hgroup].
Defined.

Lemma unresolved_project_fails_witness :
  project_to_app_id example_resolver (str "other")
  = Raise (InvalidConversionError (unknown_project_message (str "other"))) /\
  v1_to_v3_reference example_resolver example_v1_key_other
  = Raise (InvalidConversionError (unknown_project_message (str "other"))).
Proof.
  assert (H : project_to_app_id example_resolver (str "other")
              = Raise (InvalidConversionError
                         (unknown_project_message (str "other"))))
    by (vm_compute; reflexivity).
  split; [exact H|].
  exact (proj1 (unresolved_project_fails example_resolver example_Serialize
                  example_micros_from_timestamp example_v1_key_other
                  (V1.mkPartitionId (str "other") []) _ eq_refl eq_refl H)).
Defined.
